(** * ovConnectSample: validator rules, the helloWorld script and the test harness

    A shallow embedding of the Python sources

    - [omni/asset_validator/core/usdGeomSubset.py]
    - [omni/asset_validator/core/usdMaterialBindingApi.py]
    - [source/pyHelloWorld/helloWorld.py]
    - [tests/test_all.py]

    Python functions become functions in a small state-and-exception monad.
    Calls into the scene library and the client library are recorded in the
    state (the scene data they change, or a trace of the calls), and what a
    library call answers is read from the state or from an explicit record
    of answers. *)

From stdpp Require Import gmap strings list.
From Stdlib Require Import ZArith Lia.

Open Scope string_scope.

(** ** Python control flow: return, [sys.exit], exceptions *)

Inductive Exn : Type :=
  | RuntimeError        (* the scene library refuses an invalid prim *)
  | TfErrorException    (* [pxr.Tf.ErrorException]: a scene-library call failed *)
  | NameError           (* a name bound nowhere *)
  | AttributeError      (* attribute access on [None] *)
  | TypeError           (* wrong number of call arguments *)
  | EOFError            (* [input()] at end of input *)
  | UnicodeEncodeError  (* [str.encode('ascii')] on a non-ASCII string *)
  | AssertionError.     (* a failed [assert] *)

(** The argument of [sys.exit]. *)
Inductive ExitArg : Type :=
  | ExitNone
  | ExitCode (code : Z)
  | ExitMsg (msg : string).

Inductive Outcome (A : Type) : Type :=
  | Returned (a : A)
  | SysExit (arg : ExitArg)
  | Raised (e : Exn).

Arguments Returned {A} a.
Arguments SysExit {A} arg.
Arguments Raised {A} e.

Definition M (S A : Type) : Type := S -> Outcome A * S.

Definition ret {S A : Type} (a : A) : M S A := fun s => (Returned a, s).

Definition bind {S A B : Type} (c : M S A) (k : A -> M S B) : M S B :=
  fun s =>
    match c s with
    | (Returned a, s') => k a s'
    | (SysExit arg, s') => (SysExit arg, s')
    | (Raised e, s') => (Raised e, s')
    end.

Definition sys_exit {S A : Type} (arg : ExitArg) : M S A :=
  fun s => (SysExit arg, s).

Definition raise {S A : Type} (e : Exn) : M S A :=
  fun s => (Raised e, s).

Definition modify {S : Type} (f : S -> S) : M S unit :=
  fun s => (Returned tt, f s).

Notation "'let!' x ':=' c 'in' k" := (bind c (fun x => k))
  (at level 10, x name, c at level 100, k at level 200).
Notation "c '>>' k" := (bind c (fun _ => k))
  (at level 90, right associativity).

(** [s.startswith(p)] *)
Definition startswith (s p : string) : bool := String.prefix p s.

(** [needle in s] for strings *)
Fixpoint contains (needle s : string) : bool :=
  String.prefix needle s ||
  match s with
  | EmptyString => false
  | String _ rest => contains needle rest
  end.

(** ** The validator rules *)

Module Validator.

(** A property of a prim as the rules see it: its name, and the token
    that [Get()] answers for it ([None] when it holds no token value). *)
Record Property : Type := mkProperty {
  propName : string;
  propValue : option string
}.

(** What the stage holds for one prim. *)
Record PrimData : Type := mkPrimData {
  primName : string;
  typeName : string;
  apiSchemas : list string;
  properties : list Property
}.

(** A prim object is a handle into the stage: the path of the prim. *)
Definition Prim : Type := string.

Definition UsdGeom_Subset : string := "GeomSubset".
Definition UsdShade_MaterialBindingAPI : string := "MaterialBindingAPI".
(** [UsdShade.Tokens.materialBind] *)
Definition materialBind : string := "materialBind".

(** The callables a [Suggestion] can carry. *)
Inductive Fix : Type :=
  | family_name_fix
  | material_binding_api_fix.

Record Suggestion : Type := mkSuggestion {
  sugCallable : Fix;
  sugMessage : string
}.

Record FailedCheck : Type := mkFailedCheck {
  fcMessage : string;
  fcAt : Prim;
  fcSuggestion : Suggestion
}.

(** The questions a rule asks the scene library. *)
Inductive Query : Type :=
  | Q_IsA (p : Prim) (ty : string)
  | Q_HasAPI (p : Prim) (api : string)
  | Q_GetProperties (p : Prim)
  | Q_GetName (p : Prim)
  | Q_GetAttr (p : Prim) (attr : string).

Record World : Type := mkWorld {
  stage : gmap string PrimData;
  failed : list FailedCheck;
  queries : list Query
}.

Definition log_query (q : Query) : M World unit :=
  modify (fun w => mkWorld (stage w) (failed w) (queries w ++ [q])).

(** Reading through a prim handle; the library raises on an invalid prim. *)
Definition read_prim (p : Prim) : M World PrimData :=
  fun w =>
    match stage w !! p with
    | Some d => (Returned d, w)
    | None => (Raised RuntimeError, w)
    end.

Definition write_prim (p : Prim) (d : PrimData) : M World unit :=
  modify (fun w => mkWorld (<[p := d]> (stage w)) (failed w) (queries w)).

Definition has_type (d : PrimData) (ty : string) : bool :=
  bool_decide (typeName d = ty).

Definition has_api (d : PrimData) (api : string) : bool :=
  bool_decide (api ∈ apiSchemas d).

Definition find_property (n : string) (props : list Property) : option Property :=
  List.find (fun pr => bool_decide (propName pr = n)) props.

(** The token an attribute holds; [None] when the attribute does not
    exist or holds no value. *)
Definition attr_value (n : string) (d : PrimData) : option string :=
  match find_property n (properties d) with
  | Some pr => propValue pr
  | None => None
  end.

(** [Create<Name>Attr().Set(v)]: the attribute is created when absent and
    holds [v] afterwards. *)
Fixpoint set_attr (n v : string) (props : list Property) : list Property :=
  match props with
  | [] => [mkProperty n (Some v)]
  | pr :: rest =>
      if bool_decide (propName pr = n)
      then mkProperty n (Some v) :: rest
      else pr :: set_attr n v rest
  end.

(** [prim.IsA(ty)] *)
Definition IsA (p : Prim) (ty : string) : M World bool :=
  log_query (Q_IsA p ty) >>
  let! d := read_prim p in
  ret (has_type d ty).

(** [prim.HasAPI(api)] *)
Definition HasAPI (p : Prim) (api : string) : M World bool :=
  log_query (Q_HasAPI p api) >>
  let! d := read_prim p in
  ret (has_api d api).

(** [prim.GetProperties()] *)
Definition GetProperties (p : Prim) : M World (list Property) :=
  log_query (Q_GetProperties p) >>
  let! d := read_prim p in
  ret (properties d).

(** [prim.GetName()] *)
Definition GetName (p : Prim) : M World string :=
  log_query (Q_GetName p) >>
  let! d := read_prim p in
  ret (primName d).

(** [UsdGeom.Subset(prim).GetFamilyNameAttr().Get()] *)
Definition GetFamilyName (p : Prim) : M World (option string) :=
  log_query (Q_GetAttr p "familyName") >>
  let! d := read_prim p in
  ret (attr_value "familyName" d).

(** [BaseRuleChecker._AddFailedCheck(message, at=..., suggestion=...)] *)
Definition _AddFailedCheck (msg : string) (at_ : Prim) (sug : Suggestion) : M World unit :=
  modify (fun w =>
    mkWorld (stage w) (failed w ++ [mkFailedCheck msg at_ sug]) (queries w)).

(** *** usdGeomSubset.py *)

Module UsdGeomSubsetChecker.

(** [apply_family_name_fix(cls, stage, prim)] *)
Definition apply_family_name_fix (prim : Prim) : M World unit :=
  let! d := read_prim prim in
  write_prim prim
    (mkPrimData (primName d) (typeName d) (apiSchemas d)
                (set_attr "familyName" materialBind (properties d))).

(** The two flags computed by the [for prop in prim.GetProperties()] loop. *)
Definition scan_properties (props : list Property) : bool * bool :=
  fold_left
    (fun (acc : bool * bool) (prop : Property) =>
       (fst acc || startswith (propName prop) "material:binding",
        snd acc || startswith (propName prop) "familyName"))
    props (false, false).

Definition failure_message (name : string) : string :=
  "GeomSubset '" ++ name ++ "' has a material binding but no valid family name attribute.".

Definition suggestion : Suggestion :=
  mkSuggestion family_name_fix "Adds the family name attribute.".

Definition CheckPrim (prim : Prim) : M World unit :=
  let! isSubset := IsA prim UsdGeom_Subset in
  if negb isSubset then ret tt
  else
    let! props := GetProperties prim in
    let hasMaterialBindingRel := fst (scan_properties props) in
    let hasFamilyName := snd (scan_properties props) in
    let! cond :=
      (if hasMaterialBindingRel
       then if negb hasFamilyName then ret true
            else let! v := GetFamilyName prim in
                 ret (negb (bool_decide (v = Some materialBind)))
       else ret false) in
    if (cond : bool)
    then let! name := GetName prim in
         _AddFailedCheck (failure_message name) prim suggestion
    else ret tt.

End UsdGeomSubsetChecker.

(** *** usdMaterialBindingApi.py *)

Module UsdMaterialBindingApi.

(** [UsdShade.MaterialBindingAPI.Apply(prim)] adds the schema to the
    prim's applied schemas. *)
Definition apply_api (api : string) (d : PrimData) : PrimData :=
  mkPrimData (primName d) (typeName d)
             (if has_api d api then apiSchemas d else apiSchemas d ++ [api])
             (properties d).

(** [apply_material_binding_api_fix(cls, stage, prim)] *)
Definition apply_material_binding_api_fix (prim : Prim) : M World unit :=
  let! d := read_prim prim in
  write_prim prim (apply_api UsdShade_MaterialBindingAPI d).

Definition failure_message (name : string) : string :=
  "Prim '" ++ name ++ "' has a material binding but does not have the MaterialBindingApi.".

Definition suggestion : Suggestion :=
  mkSuggestion material_binding_api_fix "Applies the material binding API.".

(** [any(prop.GetName().startswith("material:binding") for prop in ...)] *)
Definition any_material_binding (props : list Property) : bool :=
  existsb (fun prop => startswith (propName prop) "material:binding") props.

Definition CheckPrim (prim : Prim) : M World unit :=
  let! applied := HasAPI prim UsdShade_MaterialBindingAPI in
  if (applied : bool) then ret tt
  else
    let! props := GetProperties prim in
    let hasMaterialBindingRel := any_material_binding props in
    let! cond :=
      (if hasMaterialBindingRel
       then let! again := HasAPI prim UsdShade_MaterialBindingAPI in
            ret (negb again)
       else ret false) in
    if (cond : bool)
    then let! name := GetName prim in
         _AddFailedCheck (failure_message name) prim suggestion
    else ret tt.

End UsdMaterialBindingApi.

(** Running the callable of a suggestion at the prim of a failed check. *)
Definition run_suggestion (fc : FailedCheck) : M World unit :=
  match sugCallable (fcSuggestion fc) with
  | family_name_fix => UsdGeomSubsetChecker.apply_family_name_fix (fcAt fc)
  | material_binding_api_fix =>
      UsdMaterialBindingApi.apply_material_binding_api_fix (fcAt fc)
  end.

(** Whether running [check] on [p] in [w] adds a failed check. *)
Definition records_failure (check : Prim -> M World unit) (p : Prim) (w : World) : bool :=
  (length (failed w) <? length (failed (snd (check p w))))%nat.

(** Some property of the prim has a name that begins with [pre]. *)
Definition has_property_prefixed (pre : string) (d : PrimData) : Prop :=
  exists pr, pr ∈ properties d /\ startswith (propName pr) pre = true.

(** The condition under which the subset rule reports a prim. *)
Definition subset_cond (d : PrimData) : bool :=
  has_type d UsdGeom_Subset
  && existsb (fun pr => startswith (propName pr) "material:binding") (properties d)
  && (negb (existsb (fun pr => startswith (propName pr) "familyName") (properties d))
      || negb (bool_decide (attr_value "familyName" d = Some materialBind))).

(** The condition under which the material-binding rule reports a prim. *)
Definition api_cond (d : PrimData) : bool :=
  negb (has_api d UsdShade_MaterialBindingAPI)
  && UsdMaterialBindingApi.any_material_binding (properties d).

(** Example stages. *)

Definition subset_prim : Prim := "/World/box/subset".

(** A subset with a material binding whose family name is "partition". *)
Definition partition_subset : PrimData :=
  mkPrimData "subset" UsdGeom_Subset []
    [mkProperty "material:binding" None; mkProperty "familyName" (Some "partition")].

(** A subset with a material binding and no family name. *)
Definition bare_subset : PrimData :=
  mkPrimData "subset" UsdGeom_Subset [] [mkProperty "material:binding" None].

Definition world_of (d : PrimData) : World :=
  mkWorld (<[subset_prim := d]> ∅) [] [].

(** A mesh that already has the API applied, and one that lacks it. *)
Definition bound_mesh : PrimData :=
  mkPrimData "box" "Mesh" [UsdShade_MaterialBindingAPI]
    [mkProperty "points" None; mkProperty "material:binding" None].

Definition unbound_mesh : PrimData :=
  mkPrimData "box" "Mesh" []
    [mkProperty "points" None; mkProperty "material:binding" None].

(** The prim data that [apply_family_name_fix] writes. *)
Definition with_family_name (d : PrimData) : PrimData :=
  mkPrimData (primName d) (typeName d) (apiSchemas d)
             (set_attr "familyName" materialBind (properties d)).

End Validator.

(** ** source/pyHelloWorld/helloWorld.py *)

Module HelloWorld.

(** A prim handle as the script uses it: its path and its type. *)
Record HPrim : Type := mkHPrim {
  hpPath : string;
  hpType : string
}.

Definition UsdGeom_Mesh : string := "Mesh".

(** [prim.IsA(ty)] *)
Definition IsA (p : HPrim) (ty : string) : bool := bool_decide (hpType p = ty).

(** An open stage: its URL, the layer of its edit target and the prims
    [Traverse()] yields, in order. *)
Record StageObj : Type := mkStageObj {
  stUrl : string;
  stEditLayer : string;
  stPrims : list HPrim
}.

(** The Python values bound to the module-level names. *)
Inductive PyVal : Type :=
  | PyNone
  | PyBool (b : bool)
  | PySubscription (handle : nat)
  | PyStage (st : StageObj).

Definition truthy (v : PyVal) : bool :=
  match v with
  | PyNone => false
  | PyBool b => b
  | PySubscription _ => true
  | PyStage _ => true
  end.

(** [omni.client.Result] (the members the model distinguishes). *)
Inductive ClientResult : Type :=
  | OK
  | ERROR
  | ERROR_CONNECTION
  | ERROR_ACCESS_DENIED
  | ERROR_ALREADY_EXISTS.

Definition result_name (r : ClientResult) : string :=
  match r with
  | OK => "OK"
  | ERROR => "ERROR"
  | ERROR_CONNECTION => "ERROR_CONNECTION"
  | ERROR_ACCESS_DENIED => "ERROR_ACCESS_DENIED"
  | ERROR_ALREADY_EXISTS => "ERROR_ALREADY_EXISTS"
  end.

Definition is_error (r : ClientResult) : bool :=
  match r with
  | OK => false
  | _ => true
  end.

(** [omni.client.ConnectionStatus] *)
Inductive ConnectionStatus : Type :=
  | CONNECTING
  | CONNECTED
  | CONNECT_ERROR
  | DISCONNECTED.

(** What [omni.client.break_url] answers. *)
Record OmniUrl : Type := mkOmniUrl {
  scheme : option string;
  host : option string;
  path : option string
}.

(** The request object of a joined channel. *)
Record Request : Type := mkRequest { req_id : nat }.

Inductive LogLevel : Type := DEBUG | INFO | WARNING | ERROR_LEVEL.

(** The calls into the client and scene libraries, and the log lines. *)
Inductive Event : Type :=
  | E_set_log_callback
  | E_set_log_level (l : LogLevel)
  | E_initialize
  | E_register_connection_status_callback
  | E_live_wait_for_pending_updates
  | E_shutdown
  | E_set_checkpoint_message (msg : string)
  | E_layer_save (layer : string)
  | E_live_process
  | E_apply_api (api : string) (p : HPrim)
  | E_set_approximation (p : HPrim) (token : string)
  | E_stage_open (url : string)
  | E_create_folder (url : string)
  | E_join_channel (url : string)
  | E_send_message (id : nat) (content : string)
  | E_request_stop (id : nat)
  | E_get_srt_xform (p : HPrim)
  | E_transform_srt (st : PyVal) (p : HPrim) (rot_y : Z)
  | E_log (l : LogLevel) (msg : string).

(** What the libraries answer in one run. A failing [Usd.Stage.Open] or
    [UsdPhysics.CollisionAPI.Apply] either raises [Tf.ErrorException]
    (the [_raises] fields, which come first) or answers an object that
    is false in a condition ([stage_open] answering [None],
    [collision_api_ok] answering [false]). *)
Record Sdk : Type := mkSdk {
  initialize_ok : bool;
  subscription : nat;
  collision_api_ok : HPrim -> bool;
  stage_open : string -> option StageObj;
  create_folder_result : string -> ClientResult;
  break_url : string -> OmniUrl;
  join_channel : string -> option Request;
  stage_open_raises : string -> bool;
  collision_apply_raises : HPrim -> bool
}.

Record State : Type := mkState {
  globals : gmap string PyVal;
  checkpoint_message : string;
  stdin_lines : list string;
  trace : list Event
}.

(** The module namespace after the top-level assignments of lines 49-50. *)
Definition module_globals : gmap string PyVal :=
  <["g_stage" := PyNone]> (<["g_connection_status_subscription" := PyNone]> ∅).

Definition emit (e : Event) : M State unit :=
  modify (fun s =>
    mkState (globals s) (checkpoint_message s) (stdin_lines s) (trace s ++ [e])).

Definition LOGGER (l : LogLevel) (msg : string) : M State unit := emit (E_log l msg).

(** Reading a name that the function body does not bind: the module
    namespace answers. *)
Definition read_global (name : string) : M State PyVal :=
  fun s =>
    match globals s !! name with
    | Some v => (Returned v, s)
    | None => (Raised NameError, s)
    end.

(** An assignment [name = v] inside a function body. It rebinds the
    module-level name only when the function declares [global name];
    otherwise it binds a local of the call, which no later statement of
    the modelled functions reads and which is gone when the call returns. *)
Definition assign (declared_global : list string) (name : string) (v : PyVal)
  : M State unit :=
  if bool_decide (name ∈ declared_global)
  then modify (fun s =>
         mkState (<[name := v]> (globals s)) (checkpoint_message s)
                 (stdin_lines s) (trace s))
  else ret tt.

(** [omni.usd_resolver.set_checkpoint_message(msg)] *)
Definition set_checkpoint_message (msg : string) : M State unit :=
  modify (fun s =>
    mkState (globals s) msg (stdin_lines s)
            (trace s ++ [E_set_checkpoint_message msg])).

(** [input()] *)
Definition input : M State string :=
  fun s =>
    match stdin_lines s with
    | line :: rest =>
        (Returned line, mkState (globals s) (checkpoint_message s) rest (trace s))
    | [] => (Raised EOFError, s)
    end.

Definition is_ascii (s : string) : bool :=
  forallb (fun c => (Ascii.N_of_ascii c <? 128)%N) (String.list_ascii_of_string s).

(** [message.encode('ascii')] *)
Definition encode_ascii (message : string) : M State string :=
  if is_ascii message then ret message else raise UnicodeEncodeError.

Section WithSdk.

Variable sdk : Sdk.

(** [connectionStatusCallback(url, connectionStatus)] *)
Definition connectionStatusCallback (url : string) (connectionStatus : ConnectionStatus)
  : M State unit :=
  match connectionStatus with
  | CONNECT_ERROR => sys_exit (ExitMsg "[ERROR] Failed connection, exiting.")
  | _ => ret tt
  end.

(** [startOmniverse()]; the body has no [global] statement. *)
Definition startOmniverse : M State unit :=
  emit E_set_log_callback >>
  let! logging_enabled := read_global "logging_enabled" in
  (if truthy logging_enabled then emit (E_set_log_level DEBUG) else ret tt) >>
  emit E_initialize >>
  if negb (initialize_ok sdk)
  then sys_exit (ExitMsg "[ERROR] Unable to initialize Omniverse client, exiting.")
  else
    emit E_register_connection_status_callback >>
    assign [] "g_connection_status_subscription" (PySubscription (subscription sdk)).

(** [shutdownOmniverse()]; the body has no [global] statement. *)
Definition shutdownOmniverse : M State unit :=
  emit E_live_wait_for_pending_updates >>
  assign [] "g_connection_status_subscription" PyNone >>
  emit E_shutdown.

(** [isValidOmniUrl(url)] *)
Definition isValidOmniUrl (url : string) : bool :=
  let omniURL := break_url sdk url in
  if bool_decide (scheme omniURL = Some "omniverse")
     || bool_decide (scheme omniURL = Some "omni")
  then true
  else false.

Definition collision_api_error : string :=
  "Failed to apply UsdPhysics.CollisionAPI, check that the UsdPhysics plugin is located in the USD plugins folders".

(** [enablePhysics(prim, dynamic)] *)
Definition enablePhysics (prim : HPrim) (dynamic : bool) : M State unit :=
  (if dynamic then emit (E_apply_api "PhysicsRigidBodyAPI" prim) else ret tt) >>
  emit (E_apply_api "PhysicsCollisionAPI" prim) >>
  (if collision_apply_raises sdk prim then raise TfErrorException else ret tt) >>
  if negb (collision_api_ok sdk prim)
  then
    LOGGER ERROR_LEVEL collision_api_error >>
    sys_exit (ExitCode 1)
  else
    if IsA prim UsdGeom_Mesh
    then
      emit (E_apply_api "PhysicsMeshCollisionAPI" prim) >>
      if dynamic
      then emit (E_set_approximation prim "convexHull")
      else emit (E_set_approximation prim "none")
    else ret tt.

(** [save_stage(stageUrl, comment)]; the comment defaults to the empty string. *)
Definition save_stage (stageUrl : string) (comment : string) : M State unit :=
  set_checkpoint_message comment >>
  let! g_stage := read_global "g_stage" in
  match g_stage with
  | PyStage st =>
      emit (E_layer_save (stEditLayer st)) >>
      set_checkpoint_message EmptyString >>
      emit E_live_process
  | _ => raise AttributeError
  end.

(** [findGeomMesh(existing_stage)]: the first mesh of the traversal. The
    call after the loop passes two arguments to [sys.exit]. *)
Definition findGeomMesh (existing_stage : string) : M State HPrim :=
  LOGGER DEBUG existing_stage >>
  emit (E_stage_open existing_stage) >>
  (if stage_open_raises sdk existing_stage then raise TfErrorException else ret tt) >>
  assign ["g_stage"] "g_stage"
    (match stage_open sdk existing_stage with
     | Some st => PyStage st
     | None => PyNone
     end) >>
  let! g_stage := read_global "g_stage" in
  match g_stage with
  | PyStage st =>
      match List.find (fun node => IsA node UsdGeom_Mesh) (stPrims st) with
      | Some node => ret node
      | None => raise TypeError
      end
  | _ => sys_exit (ExitMsg ("[ERROR] Unable to open stage" ++ existing_stage))
  end.

(** [createEmptyFolder(emptyFolderPath)] *)
Definition createEmptyFolder (emptyFolderPath : string) : M State unit :=
  LOGGER INFO ("Creating new folder: " ++ emptyFolderPath) >>
  emit (E_create_folder emptyFolderPath) >>
  let result := create_folder_result sdk emptyFolderPath in
  LOGGER INFO ("Finished (this may be an error if the folder already exists) [ "
               ++ result_name result ++ " ]").

(** *** The live-edit loop *)

(** The variables of [run_live_edit] that the loop updates. *)
Record LoopVars : Type := mkLoopVars {
  angle : Z;
  join_request : option Request
}.

(** How one pass through the body of [while True] ends. *)
Inductive Ctl : Type :=
  | Continue (v : LoopVars)
  | Break (v : LoopVars).

Definition ctl_vars (c : Ctl) : LoopVars :=
  match c with
  | Continue v => v
  | Break v => v
  end.

(** Where the loop stands once the keys are used up: waiting in
    [getChar()], or left through [break]. *)
Inductive LoopStatus : Type :=
  | Blocked (v : LoopVars)
  | Finished (v : LoopVars).

Definition status_vars (st : LoopStatus) : LoopVars :=
  match st with
  | Blocked v => v
  | Finished v => v
  end.

(** [chr(27).encode()] *)
Definition ESC : string := String (Ascii.ascii_of_nat 27) EmptyString.

Definition newline : string := String (Ascii.ascii_of_nat 10) EmptyString.

Definition help_line : string :=
  "Enter 't' to transform, 'm' to send a channel message, 'l' to leave the channel, or 'q' to quit.".

(** The body of [while True], for the character [option] that
    [get_char_util.getChar()] answered. The sine and cosine of the
    translation and the numbers in the log line of the transform are
    not modelled; the transform is recorded with its rotation angle. *)
Definition live_edit_iteration (prim : HPrim) (stageUrl : string)
    (option : string) (v : LoopVars) : M State Ctl :=
  emit E_live_process >>
  if bool_decide (option = "t") then
    let angle' := ((angle v + 15) mod 360)%Z in
    emit (E_get_srt_xform prim) >>
    LOGGER INFO "Setting pos [..] and rot [..]" >>
    let! g_stage := read_global "g_stage" in
    emit (E_transform_srt g_stage prim angle') >>
    save_stage stageUrl EmptyString >>
    ret (Continue (mkLoopVars angle' (join_request v)))
  else if bool_decide (option = "m") then
    match join_request v with
    | Some req =>
        LOGGER INFO "Enter a channel message: " >>
        let! message := input in
        let! content := encode_ascii message in
        emit (E_send_message (req_id req) content) >>
        ret (Continue v)
    | None =>
        LOGGER INFO "The message channel is disconnected." >>
        ret (Continue v)
    end
  else if bool_decide (option = "l") then
    LOGGER INFO "Leaving message channel" >>
    match join_request v with
    | Some req =>
        emit (E_request_stop (req_id req)) >>
        ret (Continue (mkLoopVars (angle v) None))
    | None => ret (Continue v)
    end
  else if bool_decide (option = "q") || bool_decide (option = ESC) then
    LOGGER INFO "Live edit complete" >>
    ret (Break v)
  else
    LOGGER INFO help_line >>
    ret (Continue v).

(** [while True], run on the characters that [getChar()] answers. *)
Fixpoint live_edit_loop (prim : HPrim) (stageUrl : string)
    (keys : list string) (v : LoopVars) : M State LoopStatus :=
  match keys with
  | [] => ret (Blocked v)
  | option :: rest =>
      let! ctl := live_edit_iteration prim stageUrl option v in
      match ctl with
      | Continue v' => live_edit_loop prim stageUrl rest v'
      | Break v' => ret (Finished v')
      end
  end.

(** [run_live_edit(prim, stageUrl)] *)
Definition run_live_edit (prim : HPrim) (stageUrl : string) (keys : list string)
  : M State LoopStatus :=
  let angle0 := 0%Z in
  emit E_live_process >>
  LOGGER INFO ("Begin Live Edit on " ++ hpPath prim ++ " - " ++ newline
               ++ "Enter 't' to transform, 'm' to send a channel message, 'l' to leave the channel, or 'q' to quit."
               ++ newline) >>
  emit (E_join_channel (stageUrl ++ ".__omni_channel__")) >>
  live_edit_loop prim stageUrl keys
    (mkLoopVars angle0 (join_channel sdk (stageUrl ++ ".__omni_channel__"))).

(** *** The URL checks of the main block (lines 725-735) *)

Definition str_truthy (s : string) : bool := negb (bool_decide (s = EmptyString)).

Definition warning_destination (url : string) : string :=
  "This is not an Omniverse Nucleus URL: " ++ url
  ++ "Correct Omniverse URL format is: omniverse://server_name/Path/To/Example/Folder"
  ++ "Allowing program to continue because file paths may be provided in the form: C:/Path/To/Stage".

Definition warning_existing (url : string) : string :=
  "This is not an Omniverse Nucleus URL: " ++ url
  ++ "Correct Omniverse URL format is: omniverse://server_name/Path/To/Example/Folder/helloWorld_py.usd"
  ++ "Allowing program to continue because file paths may be provided in the form: C:/Path/To/Stage/helloWorld_py.usd".

Definition main_check_urls (destination_path : string) (existing_stage : option string)
  : M State unit :=
  (if str_truthy destination_path && negb (isValidOmniUrl destination_path)
   then LOGGER WARNING (warning_destination destination_path)
   else ret tt) >>
  match existing_stage with
  | Some url =>
      if str_truthy url && negb (isValidOmniUrl url)
      then LOGGER WARNING (warning_existing url)
      else ret tt
  | None => ret tt
  end.

(** *** Sequences of calls

    The functions above as the main block may call them one after the
    other. A call answers [false] when it leaves the process waiting in
    [getChar()], in which case nothing after it runs. *)

Inductive Op : Type :=
  | Op_startOmniverse
  | Op_shutdownOmniverse
  | Op_connectionStatusCallback (url : string) (status : ConnectionStatus)
  | Op_main_check_urls (destination_path : string) (existing_stage : option string)
  | Op_enablePhysics (prim : HPrim) (dynamic : bool)
  | Op_save_stage (stageUrl comment : string)
  | Op_findGeomMesh (existing_stage : string)
  | Op_createEmptyFolder (emptyFolderPath : string)
  | Op_run_live_edit (prim : HPrim) (stageUrl : string) (keys : list string).

Definition run_op (o : Op) : M State bool :=
  match o with
  | Op_startOmniverse => startOmniverse >> ret true
  | Op_shutdownOmniverse => shutdownOmniverse >> ret true
  | Op_connectionStatusCallback url status =>
      connectionStatusCallback url status >> ret true
  | Op_main_check_urls destination_path existing_stage =>
      main_check_urls destination_path existing_stage >> ret true
  | Op_enablePhysics prim dynamic => enablePhysics prim dynamic >> ret true
  | Op_save_stage stageUrl comment => save_stage stageUrl comment >> ret true
  | Op_findGeomMesh existing_stage => findGeomMesh existing_stage >> ret true
  | Op_createEmptyFolder emptyFolderPath =>
      createEmptyFolder emptyFolderPath >> ret true
  | Op_run_live_edit prim stageUrl keys =>
      let! st := run_live_edit prim stageUrl keys in
      match st with
      | Finished _ => ret true
      | Blocked _ => ret false
      end
  end.

Fixpoint run_ops (ops : list Op) : M State bool :=
  match ops with
  | [] => ret true
  | o :: rest =>
      let! go := run_op o in
      if (go : bool) then run_ops rest else ret false
  end.

End WithSdk.

(** The angle of the live-edit loop is a multiple of 15 in [0, 360). *)
Definition angle_ok (a : Z) : Prop :=
  (exists k : Z, a = 15 * k)%Z /\ (0 <= a < 360)%Z.

(** No checkpoint message is pending and the name [g_stage] is bound. *)
Definition checkpoint_inv (s : State) : Prop :=
  checkpoint_message s = EmptyString /\ is_Some (globals s !! "g_stage").

(** The state [s] with the events [evs] added to its trace. *)
Definition add_trace (s : State) (evs : list Event) : State :=
  mkState (globals s) (checkpoint_message s) (stdin_lines s) (trace s ++ evs).

(** The answers of a run in which every library call succeeds, and of a
    run in which they fail. *)
Definition empty_stage : StageObj :=
  mkStageObj "omniverse://localhost/Users/test/empty.usd"
             "omniverse://localhost/Users/test/empty.usd"
             [mkHPrim "/World" "Xform"].

Definition box_stage : StageObj :=
  mkStageObj "omniverse://localhost/Users/test/helloworld_py.usd"
             "omniverse://localhost/Users/test/helloworld_py.usd"
             [mkHPrim "/World" "Xform"; mkHPrim "/World/box_0" UsdGeom_Mesh].

Definition working_sdk : Sdk :=
  mkSdk true 7 (fun _ => true) (fun _ => Some box_stage) (fun _ => OK)
        (fun _ => mkOmniUrl (Some "omniverse") (Some "localhost") (Some "/Users/test"))
        (fun _ => Some (mkRequest 1))
        (fun _ => false) (fun _ => false).

Definition failing_sdk : Sdk :=
  mkSdk false 7 (fun _ => false)
        (fun url => if bool_decide (url = stUrl empty_stage) then Some empty_stage else None)
        (fun _ => ERROR_ACCESS_DENIED)
        (fun _ => mkOmniUrl None None (Some "C:/Path/To/Stage"))
        (fun _ => None)
        (fun _ => false) (fun _ => false).

(** The answers of a run in which opening a stage and applying the
    CollisionAPI raise. *)
Definition raising_sdk : Sdk :=
  mkSdk true 7 (fun _ => true) (fun _ => Some box_stage) (fun _ => OK)
        (fun _ => mkOmniUrl (Some "omniverse") (Some "localhost") (Some "/Users/test"))
        (fun _ => Some (mkRequest 1))
        (fun _ => true) (fun _ => true).

(** The state when the main block calls [startOmniverse()]. *)
Definition initial_state (logging_enabled : bool) : State :=
  mkState (<["logging_enabled" := PyBool logging_enabled]> module_globals) EmptyString [] [].

(** A state with the stage [st] open and [lines] waiting on the input. *)
Definition state_with_stage (st : StageObj) (lines : list string) : State :=
  mkState (<["g_stage" := PyStage st]> (globals (initial_state false))) EmptyString lines [].

Definition empty_folder_url : string := "omniverse://localhost/Users/test/EmptyFolder".

Definition box_prim : HPrim := mkHPrim "/World/box_0" UsdGeom_Mesh.

Definition is_send (e : Event) : bool :=
  match e with
  | E_send_message _ _ => true
  | _ => false
  end.

End HelloWorld.

(** ** tests/test_all.py *)

Module TestAll.

(** [subprocess.CompletedProcess], with the output already decoded. *)
Record CompletedProcess : Type := mkCompleted {
  returncode : Z;
  stdout : string
}.

(** The machine the tests run on. *)
Record Host : Type := mkHost {
  environ : gmap string string;
  is_windows : bool;
  cwd : string;
  path_join : string -> string -> string;
  subprocess_run : list string -> CompletedProcess
}.

Inductive TEvent : Type :=
  | T_log_running (cmdline : list string)
  | T_run (cmdline : list string)
  | T_log_output (out : string).

Definition g_base_url_env_key : string := "OMNI_BASE_URL".
Definition g_default_base_url : string := "omniverse://localhost/Projects/samplesTest".

Section WithHost.

Variable h : Host.

Definition temit (e : TEvent) : M (list TEvent) unit :=
  modify (fun t : list TEvent => (t ++ [e])%list).

(** [shell_ext()] *)
Definition shell_ext : string :=
  if is_windows h then ".bat" else ".sh".

(** [os.getenv(key, default)] *)
Definition getenv (key default : string) : string :=
  match environ h !! key with
  | Some v => v
  | None => default
  end.

(** [run_shell_script(script, *argv)] *)
Definition run_shell_script (script : string) (argv : list string)
  : M (list TEvent) (Z * string) :=
  let cmdline := ([path_join h (cwd h) (script ++ shell_ext)] ++ argv)%list in
  temit (T_log_running cmdline) >>
  temit (T_run cmdline) >>
  let completed := subprocess_run h cmdline in
  temit (T_log_output (stdout completed)) >>
  ret (returncode completed, stdout completed).

(** [assert(cond)] *)
Definition assert (cond : bool) : M (list TEvent) unit :=
  if cond then ret tt else raise AssertionError.

(** [clean_base_url()] *)
Definition clean_base_url : M (list TEvent) unit :=
  let base_url := getenv g_base_url_env_key g_default_base_url in
  let! r := run_shell_script "omnicli" ["delete"; base_url] in
  let return_code := fst r in
  let output := snd r in
  if contains "Error: Not Found" output
  then ret tt
  else assert (return_code =? 0)%Z.

End WithHost.

(** A Linux host with no [OMNI_BASE_URL] set, on which every launched
    script completes as [cp]. *)
Definition host_answering (cp : CompletedProcess) : Host :=
  mkHost ∅ false "/repo" (fun dir name => dir ++ "/" ++ name) (fun _ => cp).

End TestAll.

(** ** [str.splitlines()]

    A Python string is held as the bytes of its UTF-8 encoding. The line
    boundaries are the ones of the language reference: LF, CR, CR LF,
    VT, FF, FS, GS, RS, NEL (bytes C2 85), LS and PS (bytes E2 80 A8 and
    E2 80 A9). [cur] is the part of the current line read so far. *)

Definition is_line_break (n : nat) : bool :=
  (n =? 10)%nat || (n =? 11)%nat || (n =? 12)%nat
  || (n =? 28)%nat || (n =? 29)%nat || (n =? 30)%nat.

Fixpoint splitlines_from (cur : string) (s : string) : list string :=
  match s with
  | EmptyString => if bool_decide (cur = EmptyString) then [] else [cur]
  | String c rest =>
      let n := Ascii.nat_of_ascii c in
      if (n =? 13)%nat then
        match rest with
        | String c2 rest2 =>
            if (Ascii.nat_of_ascii c2 =? 10)%nat
            then cur :: splitlines_from EmptyString rest2
            else cur :: splitlines_from EmptyString rest
        | EmptyString => cur :: splitlines_from EmptyString rest
        end
      else if is_line_break n then cur :: splitlines_from EmptyString rest
      else if (n =? 194)%nat then
        match rest with
        | String c2 rest2 =>
            if (Ascii.nat_of_ascii c2 =? 133)%nat
            then cur :: splitlines_from EmptyString rest2
            else splitlines_from (cur ++ String c EmptyString) rest
        | EmptyString => splitlines_from (cur ++ String c EmptyString) rest
        end
      else if (n =? 226)%nat then
        match rest with
        | String c2 (String c3 rest3) =>
            if (Ascii.nat_of_ascii c2 =? 128)%nat
               && ((Ascii.nat_of_ascii c3 =? 168)%nat || (Ascii.nat_of_ascii c3 =? 169)%nat)
            then cur :: splitlines_from EmptyString rest3
            else splitlines_from (cur ++ String c EmptyString) rest
        | _ => splitlines_from (cur ++ String c EmptyString) rest
        end
      else splitlines_from (cur ++ String c EmptyString) rest
  end.

Definition splitlines (s : string) : list string := splitlines_from EmptyString s.

(** ** tests/test_all.py: the tests *)

Module TestSuite.

Import TestAll.

Section InWorld.

(** What the machine is like after the events so far: a script launched
    a second time may answer differently from the first time. *)
Variable w : list TEvent -> Host.

(** The value of the module-level [g_default_base_url] when a test runs:
    the constant of line 15, or [args.path] under the main block. *)
Variable default_base_url : string.

(** [os.getenv(g_base_url_env_key, g_default_base_url)] *)
Definition base_url_now : M (list TEvent) string :=
  fun t => (Returned (getenv (w t) g_base_url_env_key default_base_url), t).

(** [run_shell_script(script, *argv)] on the machine as it stands. *)
Definition run_script (script : string) (argv : list string)
  : M (list TEvent) (Z * string) :=
  fun t => run_shell_script (w t) script argv t.

(** The loop of [test_helloworld_cpp] and [test_helloworld_py] over the
    lines of the validator's output. *)
Fixpoint scan_errors_but_omnipbr (lines : list string) : M (list TEvent) unit :=
  match lines with
  | [] => ret tt
  | line :: rest =>
      (if contains "Error" line
       then if contains "OmniPBR.mdl" line then ret tt else assert false
       else ret tt) >>
      scan_errors_but_omnipbr rest
  end.

(** The loop of [test_simple_sensor]. *)
Fixpoint scan_errors (lines : list string) : M (list TEvent) unit :=
  match lines with
  | [] => ret tt
  | line :: rest =>
      (if contains "Error" line then assert false else ret tt) >>
      scan_errors rest
  end.

(** The body shared by [test_helloworld_cpp] and [test_helloworld_py],
    which differ in the launcher script and in the file name only. *)
Definition helloworld_test (launcher file : string) : M (list TEvent) unit :=
  let! base_url := base_url_now in
  let stage_url := base_url ++ "/" ++ file in
  let! r1 := run_script launcher ["-p"; base_url] in
  assert (fst r1 =? 0)%Z >>
  let! r2 := run_script "omnicli" ["stat"; stage_url] in
  assert (fst r2 =? 0)%Z >>
  let! r3 := run_script "omni_asset_validator" [stage_url] in
  assert (fst r3 =? 0)%Z >>
  scan_errors_but_omnipbr (splitlines (snd r3)).

(** [test_helloworld_cpp()] *)
Definition test_helloworld_cpp : M (list TEvent) unit :=
  helloworld_test "run_hello_world" "helloworld.usd".

(** [test_helloworld_py()] *)
Definition test_helloworld_py : M (list TEvent) unit :=
  helloworld_test "run_py_hello_world" "helloworld_py.usd".

(** [test_helloworld_py_extents_failure()] *)
Definition test_helloworld_py_extents_failure : M (list TEvent) unit :=
  let! base_url := base_url_now in
  let stage_url := base_url ++ "/" ++ "helloworld_py.usd" in
  let! r1 := run_script "omnicli" ["stat"; stage_url] in
  (if negb (fst r1 =? 0)%Z
   then let! r := run_script "run_py_hello_world" ["-p"; base_url] in
        assert (fst r =? 0)%Z
   else ret tt) >>
  let! r2 := run_script "run_py_hello_world" ["-e"; stage_url; "-f"] in
  assert (fst r2 =? 0)%Z >>
  let! r3 := run_script "omni_asset_validator" [stage_url] in
  assert (contains "ExtentsChecker" (snd r3)).

(** [test_simple_sensor()] *)
Definition test_simple_sensor : M (list TEvent) unit :=
  let! base_url := base_url_now in
  let stage_url := base_url ++ "/" ++ "SimpleSensorExample.live" in
  let box_process_count := "8" in
  let process_lifetime_seconds := "10" in
  let! r1 := run_script "run_omniSimpleSensor"
               [base_url; box_process_count; process_lifetime_seconds] in
  assert (fst r1 =? 0)%Z >>
  let! r2 := run_script "omnicli" ["stat"; stage_url] in
  assert (fst r2 =? 0)%Z >>
  let! r3 := run_script "omni_asset_validator" [stage_url] in
  assert (fst r3 =? 0)%Z >>
  scan_errors (splitlines (snd r3)).

(** [test_omnicli_copy_and_move()] *)
Definition test_omnicli_copy_and_move : M (list TEvent) unit :=
  let! base_url := base_url_now in
  let local_folder := "deps" in
  let nucleus_folder := base_url ++ "/CopyTest" in
  let nucleus_copy_dst_folder := base_url ++ "/CopyTestDup" in
  let nucleus_move_dst_folder := base_url ++ "/MoveTest" in
  run_script "omnicli" ["delete"; nucleus_folder] >>
  run_script "omnicli" ["delete"; nucleus_copy_dst_folder] >>
  run_script "omnicli" ["delete"; nucleus_move_dst_folder] >>
  let! r := run_script "omnicli" ["list"; local_folder] in
  assert (fst r =? 0)%Z >>
  let! r := run_script "omnicli" ["copy"; local_folder; nucleus_folder] in
  assert (fst r =? 0)%Z >>
  let! r := run_script "omnicli" ["list"; nucleus_folder] in
  assert (fst r =? 0)%Z >>
  let! r := run_script "omnicli" ["copy"; nucleus_folder; nucleus_copy_dst_folder] in
  assert (fst r =? 0)%Z >>
  let! r := run_script "omnicli" ["list"; nucleus_copy_dst_folder] in
  assert (fst r =? 0)%Z >>
  let! r := run_script "omnicli" ["copy"; nucleus_folder; nucleus_copy_dst_folder] in
  assert (fst r =? 0)%Z >>
  let! r := run_script "omnicli" ["move"; nucleus_copy_dst_folder; nucleus_move_dst_folder] in
  assert (fst r =? 0)%Z >>
  let! r := run_script "omnicli" ["list"; nucleus_copy_dst_folder] in
  assert (negb (fst r =? 0)%Z) >>
  let! r := run_script "omnicli" ["list"; nucleus_move_dst_folder] in
  assert (fst r =? 0)%Z.

(** The main block (lines 178-182), after [g_default_base_url = args.path]. *)
Definition main : M (list TEvent) unit :=
  test_helloworld_cpp >>
  test_helloworld_py >>
  test_helloworld_py_extents_failure >>
  test_simple_sensor >>
  test_omnicli_copy_and_move.

End InWorld.

(** The command line that [run_shell_script] builds. *)
Definition cmdline_of (h : Host) (script : string) (argv : list string) : list string :=
  path_join h (cwd h) (script ++ shell_ext h) :: argv.

(** What a launch answers and the events it leaves, from the trace [t]. *)
Definition answer (w : list TEvent -> Host) (t : list TEvent)
    (script : string) (argv : list string) : CompletedProcess :=
  subprocess_run (w t) (cmdline_of (w t) script argv).

Definition after_launch (w : list TEvent -> Host) (t : list TEvent)
    (script : string) (argv : list string) : list TEvent :=
  (t ++ [T_log_running (cmdline_of (w t) script argv);
         T_run (cmdline_of (w t) script argv);
         T_log_output (stdout (answer w t script argv))])%list.

(** The command lines launched in a trace, in order. *)
Fixpoint launched (t : list TEvent) : list (list string) :=
  match t with
  | [] => []
  | T_run cmdline :: rest => cmdline :: launched rest
  | _ :: rest => launched rest
  end.

(** A line that the loop of [test_helloworld_cpp] and
    [test_helloworld_py] lets pass. *)
Definition tolerable (line : string) : bool :=
  negb (contains "Error" line) || contains "OmniPBR.mdl" line.

(** A machine that never changes. *)
Definition steady (h : Host) : list TEvent -> Host := fun _ => h.

(** A validator report whose only error line names OmniPBR.mdl. *)
Definition pbr_report : string :=
  "Checking stage" ++ HelloWorld.newline
  ++ "Error: cannot resolve OmniPBR.mdl" ++ HelloWorld.newline
  ++ "Done".

(** Whether a move has been launched so far. *)
Definition moved (t : list TEvent) : bool :=
  existsb (fun cmdline => bool_decide (cmdline !! 1%nat = Some "move")) (launched t).

(** A machine on which every script succeeds, except that listing a
    folder fails once a move has been launched. *)
Definition moving_world : list TEvent -> Host :=
  fun t =>
    mkHost ∅ false "/repo" (fun dir name => dir ++ "/" ++ name)
      (fun cmdline =>
         if moved t && bool_decide (cmdline !! 1%nat = Some "list")
            && bool_decide (cmdline !! 2%nat = Some (g_default_base_url ++ "/CopyTestDup"))
         then mkCompleted 1 "Error: Not Found"
         else mkCompleted 0 "ok").

(** A machine with [OMNI_BASE_URL] set, on which every script succeeds
    and prints nothing. *)
Definition env_host : Host :=
  mkHost (<[g_base_url_env_key := "omniverse://nucleus/Projects/ci"]> ∅) false "/repo"
    (fun dir name => dir ++ "/" ++ name)
    (fun _ => mkCompleted 0 "ExtentsChecker").

(** A machine with [OMNI_BASE_URL] set on which every script succeeds
    and prints "ExtentsChecker", except that listing the copy fails once
    a move has been launched. *)
Definition env_moving_world : list TEvent -> Host :=
  fun t =>
    mkHost (<[g_base_url_env_key := "omniverse://nucleus/Projects/ci"]> ∅) false "/repo"
      (fun dir name => dir ++ "/" ++ name)
      (fun cmdline =>
         if moved t && bool_decide (cmdline !! 1%nat = Some "list")
            && bool_decide (cmdline !! 2%nat
                            = Some "omniverse://nucleus/Projects/ci/CopyTestDup")
         then mkCompleted 1 "Error: Not Found"
         else mkCompleted 0 "ExtentsChecker").

End TestSuite.

(** ** helloWorld.py: the box tables, the user name and the main block *)

Module HelloWorldMain.

Import HelloWorld.

(** *** The tables of [createBox] (lines 239-264)

    [h] is the float 50.0 and the normals and UVs are whole numbers; all
    of them are held as integers. *)

Definition h : Z := 50.

Definition boxVertexIndices : list nat :=
  [ 0;  1;  2;  1;  3;  2;
    4;  5;  6;  4;  6;  7;
    8;  9; 10;  8; 10; 11;
   12; 13; 14; 12; 14; 15;
   16; 17; 18; 16; 18; 19;
   20; 21; 22; 20; 22; 23 ].

Definition boxVertexCounts : list nat := concat (replicate 12 [3]).

Definition boxNormals : list (Z * Z * Z) :=
  [ ( 0,  0, -1); ( 0,  0, -1); ( 0,  0, -1); ( 0,  0, -1);
    ( 0,  0,  1); ( 0,  0,  1); ( 0,  0,  1); ( 0,  0,  1);
    ( 0, -1,  0); ( 0, -1,  0); ( 0, -1,  0); ( 0, -1,  0);
    ( 1,  0,  0); ( 1,  0,  0); ( 1,  0,  0); ( 1,  0,  0);
    ( 0,  1,  0); ( 0,  1,  0); ( 0,  1,  0); ( 0,  1,  0);
    (-1,  0,  0); (-1,  0,  0); (-1,  0,  0); (-1,  0,  0) ]%Z.

Definition boxPoints : list (Z * Z * Z) :=
  [ ( h, -h, -h); (-h, -h, -h); ( h,  h, -h); (-h,  h, -h);
    ( h,  h,  h); (-h,  h,  h); (-h, -h,  h); ( h, -h,  h);
    ( h, -h,  h); (-h, -h,  h); (-h, -h, -h); ( h, -h, -h);
    ( h,  h,  h); ( h, -h,  h); ( h, -h, -h); ( h,  h, -h);
    (-h,  h,  h); ( h,  h,  h); ( h,  h, -h); (-h,  h, -h);
    (-h, -h,  h); (-h,  h,  h); (-h,  h, -h); (-h, -h, -h) ]%Z.

Definition boxUVs : list (Z * Z) :=
  [ (0, 0); (0, 1); (1, 1); (1, 0);
    (0, 0); (0, 1); (1, 1); (1, 0);
    (0, 0); (0, 1); (1, 1); (1, 0);
    (0, 0); (0, 1); (1, 1); (1, 0);
    (0, 0); (0, 1); (1, 1); (1, 0);
    (0, 0); (0, 1); (1, 1); (1, 0) ]%Z.

Definition dot (a b : Z * Z * Z) : Z :=
  (a.1.1 * b.1.1 + a.1.2 * b.1.2 + a.2 * b.2)%Z.

(** The faces of the mesh: the vertex indices cut up by the counts. *)
Fixpoint faces (counts : list nat) (indices : list nat) : list (list nat) :=
  match counts with
  | [] => []
  | n :: rest => take n indices :: faces rest (drop n indices)
  end.

(** Every vertex of the face is a point of the table, lies on the plane
    at distance [h] along the normal of the face's first vertex, and
    carries that normal. *)
Definition face_ok (face : list nat) : bool :=
  match face with
  | [] => false
  | i0 :: _ =>
      match boxNormals !! i0 with
      | None => false
      | Some n0 =>
          forallb
            (fun i =>
               match boxPoints !! i, boxNormals !! i with
               | Some p, Some n => bool_decide (n = n0) && (dot p n0 =? h)%Z
               | _, _ => false
               end)
            face
      end
  end.

(** *** The main block (lines 695-796) *)

(** The parsed arguments. *)
Record Args : Type := mkArgs {
  arg_live : bool;
  arg_path : string;
  arg_verbose : bool;
  arg_existing : option string;
  arg_fail : bool
}.

(** The truth value of a string that may be [None]. *)
Definition opt_truthy (o : option string) : bool :=
  match o with
  | Some s => str_truthy s
  | None => false
  end.

(** An assignment at module level. *)
Definition module_assign (name : string) (v : PyVal) : M State unit :=
  modify (fun s =>
    mkState (<[name := v]> (globals s)) (checkpoint_message s)
            (stdin_lines s) (trace s)).

Definition users_folder : string := "omniverse://localhost/Users".

Section WithServer.

Variable sdk : Sdk.

(** The user name in what [omni.client.get_server_info] answers for a
    URL; [None] when it answers no server info. *)
Variable server_username : string -> option string.

(** Lines 741-776, the creation of the scene at the destination: what
    they do is left open. They answer the stage URL and the box mesh. *)
Variable create_scene : string -> bool -> bool -> M State (string * option HPrim).

(** [createNoBoundsCube(stageUrl, size)]: what it does is left open. *)
Variable createNoBoundsCube : string -> Z -> M State unit.

(** [logConnectedUsername(stageUrl, output_log=True)] *)
Definition logConnectedUsername (stageUrl : string) (output_log : bool)
  : M State (option string) :=
  match server_username stageUrl with
  | Some username =>
      (if output_log then LOGGER INFO ("Connected username: " ++ username) else ret tt) >>
      ret (Some username)
  | None => ret None
  end.

(** Lines 721-722: no user name. *)
Definition cannot_access (user_folder : string) : M State string :=
  LOGGER ERROR_LEVEL ("Cannot access directory: " ++ user_folder) >>
  sys_exit (ExitCode (-1)).

(** Lines 715-723: the destination when no path is given. *)
Definition resolve_destination (args : Args) : M State string :=
  if negb (opt_truthy (arg_existing args)) && negb (str_truthy (arg_path args))
  then
    LOGGER INFO "No output path specified, so checking the localhost Users folder for a valid username" >>
    let user_folder := users_folder in
    let! user_name := logConnectedUsername user_folder false in
    match user_name with
    | Some name =>
        if str_truthy name
        then ret (user_folder ++ "/" ++ name)
        else cannot_access user_folder
    | None => cannot_access user_folder
    end
  else ret (arg_path args).

(** Lines 777-786: an existing stage is opened. *)
Definition open_existing (existing_stage : string) (insert_validation_failure : bool)
  : M State (string * option HPrim) :=
  let stageUrl := existing_stage in
  LOGGER INFO ("Stage url: " ++ stageUrl) >>
  let! boxMesh := findGeomMesh sdk existing_stage in
  (if insert_validation_failure
   then createNoBoundsCube stageUrl 50 >>
        shutdownOmniverse >>
        sys_exit ExitNone
   else ret tt) >>
  ret (stageUrl, Some boxMesh).

(** The main block, on the characters [keys] that [getChar()] answers.
    It answers [false] when it is left waiting for a character. *)
Definition main (args : Args) (keys : list string) : M State bool :=
  let existing_stage := arg_existing args in
  let live_edit := arg_live args || opt_truthy existing_stage in
  let insert_validation_failure := arg_fail args in
  module_assign "logging_enabled" (PyBool (arg_verbose args)) >>
  startOmniverse sdk >>
  let! destination_path := resolve_destination args in
  main_check_urls sdk destination_path existing_stage >>
  let! scene :=
    (match existing_stage with
     | Some url =>
         if str_truthy url
         then open_existing url insert_validation_failure
         else create_scene destination_path live_edit insert_validation_failure
     | None => create_scene destination_path live_edit insert_validation_failure
     end) in
  let stageUrl := fst scene in
  match snd scene with
  | None => sys_exit (ExitMsg "[ERROR] Unable to create or find mesh")
  | Some boxMesh =>
      LOGGER DEBUG "Mesh created/found successfully" >>
      let! go :=
        (if live_edit
         then let! st := run_live_edit sdk boxMesh stageUrl keys in
              match st with
              | Finished _ => ret true
              | Blocked _ => ret false
              end
         else ret true) in
      if (go : bool) then shutdownOmniverse >> ret true else ret false
  end.

End WithServer.

(** The arguments [args] with the [--live] flag set to [b]. *)
Definition with_live (b : bool) (args : Args) : Args :=
  mkArgs b (arg_path args) (arg_verbose args) (arg_existing args) (arg_fail args).

(** *** Reading a run of the live-edit loop *)

(** The characters that end the loop. *)
Definition is_quit (k : string) : bool :=
  bool_decide (k = "q") || bool_decide (k = ESC).

(** The characters the loop reads: all of them up to the first one that
    ends it, that one included. *)
Fixpoint keys_read (keys : list string) : list string :=
  match keys with
  | [] => []
  | k :: rest => if is_quit k then [k] else k :: keys_read rest
  end.

(** How often the character [k] occurs in [keys]. *)
Definition presses (k : string) (keys : list string) : nat :=
  length (List.filter (fun x => bool_decide (x = k)) keys).

(** How many events of a trace satisfy [f]. *)
Definition count_events (f : Event -> bool) (t : list Event) : nat :=
  length (List.filter f t).

Definition is_save (e : Event) : bool :=
  match e with
  | E_layer_save _ => true
  | _ => false
  end.

Definition is_transform (e : Event) : bool :=
  match e with
  | E_transform_srt _ _ _ => true
  | _ => false
  end.

Definition is_stop (e : Event) : bool :=
  match e with
  | E_request_stop _ => true
  | _ => false
  end.

(** *** Reading the checkpoint message off a trace *)

(** The checkpoint message after the calls of [t], when it was [m]
    before them. *)
Fixpoint replay_message (m : string) (t : list Event) : string :=
  match t with
  | [] => m
  | E_set_checkpoint_message m' :: rest => replay_message m' rest
  | _ :: rest => replay_message m rest
  end.

(** The checkpoint message in effect at each layer save of [t], in
    order, when the message was [m] before the calls of [t]. *)
Fixpoint saves_under (m : string) (t : list Event) : list string :=
  match t with
  | [] => []
  | E_set_checkpoint_message m' :: rest => saves_under m' rest
  | E_layer_save _ :: rest => m :: saves_under m rest
  | _ :: rest => saves_under m rest
  end.

(** The comments that the calls of a sequence hand to [save_stage]:
    the comment of a direct call, and the empty default for every
    transform of a live edit. *)
Definition op_comments (o : Op) : list string :=
  match o with
  | Op_save_stage _ comment => [comment]
  | Op_run_live_edit _ _ keys => replicate (presses "t" (keys_read keys)) EmptyString
  | _ => []
  end.

(** What a stretch of a run from [s] to [s'] did with the checkpoint
    message, read off the calls it added to the trace: it saved the layer
    under [comments], in order, and left the message empty, when the
    message was empty before it. *)
Definition adds_saves (s s' : State) (comments : list string) : Prop :=
  exists added,
    trace s' = (trace s ++ added)%list
    /\ saves_under EmptyString added = comments
    /\ replay_message EmptyString added = EmptyString.

(** A run of the script on an existing stage: start, open, two saves
    around a live edit with one transform, shutdown. *)
Definition example_ops : list Op :=
  [Op_startOmniverse; Op_findGeomMesh (stUrl box_stage);
   Op_save_stage (stUrl box_stage) "Created a box.";
   Op_run_live_edit box_prim (stUrl box_stage) ["t"; "q"];
   Op_save_stage (stUrl box_stage) "Added material to box.";
   Op_shutdownOmniverse].

(** A line that is not ASCII: "h", the two bytes of e-acute in UTF-8, "llo". *)
Definition non_ascii_line : string :=
  "h" ++ String (Ascii.ascii_of_nat 195) (String (Ascii.ascii_of_nat 169) "llo").

(** Example arguments: [-e <box stage>], and the same with [-f]. *)
Definition existing_args (fail : bool) : Args :=
  mkArgs false EmptyString false (Some (stUrl box_stage)) fail.

(** A server that knows the user "test", and one that answers nothing. *)
Definition test_server : string -> option string := fun _ => Some "test".
Definition silent_server : string -> option string := fun _ => None.

End HelloWorldMain.

(** ** Strings *)

Lemma prefix_spec (p s : string) :
  String.prefix p s = true <-> exists post, s = p ++ post.
Proof.
  revert s. induction p as [|c p IH]; intros s.
  - split; [intros _; exists s; reflexivity | intros _; destruct s; reflexivity].
  - destruct s as [|c' s]; simpl.
    + split; [discriminate | intros [post H]; discriminate].
    + destruct (Ascii.ascii_dec c c') as [->|Hne].
      * rewrite IH. split; intros [post H]; exists post.
        -- simpl. now rewrite H.
        -- simpl in H. now inversion H.
      * split; [discriminate|]. intros [post H]. simpl in H.
        inversion H. congruence.
Qed.

Lemma contains_spec (needle s : string) :
  contains needle s = true <-> exists pre post, s = pre ++ needle ++ post.
Proof.
  induction s as [|c s IH]; cbn [contains].
  - rewrite orb_false_r, prefix_spec. split.
    + intros [post H]. exists EmptyString, post. exact H.
    + intros [pre [post H]]. destruct pre; simpl in H; [|discriminate].
      exists post. exact H.
  - rewrite orb_true_iff, prefix_spec, IH. split.
    + intros [[post H]|[pre [post H]]].
      * exists EmptyString, post. exact H.
      * exists (String c pre), post. simpl. now rewrite H.
    + intros [pre [post H]]. destruct pre as [|c' pre]; simpl in H.
      * left. exists post. exact H.
      * right. inversion H. exists pre, post. reflexivity.
Qed.

Lemma string_app_cons (c : Ascii.ascii) (s t : string) :
  String c s +:+ t = String c (s +:+ t).
Proof. reflexivity. Qed.

Lemma string_app_nil_r (s : string) : s +:+ EmptyString = s.
Proof.
  induction s as [|c s IH]; [reflexivity|].
  rewrite string_app_cons, IH. reflexivity.
Qed.

Lemma string_app_assoc (s t u : string) : (s +:+ t) +:+ u = s +:+ (t +:+ u).
Proof.
  induction s as [|c s IH]; [reflexivity|].
  rewrite !string_app_cons, IH. reflexivity.
Qed.

Lemma contains_app (needle pre s post : string) :
  contains needle s = true -> contains needle (pre +:+ s +:+ post) = true.
Proof.
  rewrite !contains_spec. intros (a & b & ->).
  exists (pre +:+ a), (b +:+ post).
  now rewrite !string_app_assoc.
Qed.

(** ** The validator rules *)

Section ValidatorFacts.

Import Validator.
Local Open Scope list_scope.

Lemma existsb_prefixed (pre : string) (d : PrimData) :
  existsb (fun pr => startswith (propName pr) pre) (properties d) = true
  <-> has_property_prefixed pre d.
Proof.
  unfold has_property_prefixed. rewrite existsb_exists.
  split; intros [pr [Hin Hp]]; exists pr; split; try exact Hp.
  - now apply list_elem_of_In.
  - now apply list_elem_of_In.
Qed.

Lemma scan_properties_acc (props : list Property) (a b : bool) :
  fold_left
    (fun (acc : bool * bool) (prop : Property) =>
       (fst acc || startswith (propName prop) "material:binding",
        snd acc || startswith (propName prop) "familyName"))
    props (a, b)
  = (a || existsb (fun pr => startswith (propName pr) "material:binding") props,
     b || existsb (fun pr => startswith (propName pr) "familyName") props).
Proof.
  revert a b. induction props as [|pr props IH]; intros a b; simpl.
  - now rewrite !orb_false_r.
  - rewrite IH. now rewrite !orb_assoc.
Qed.

Lemma scan_properties_exists (props : list Property) :
  UsdGeomSubsetChecker.scan_properties props
  = (existsb (fun pr => startswith (propName pr) "material:binding") props,
     existsb (fun pr => startswith (propName pr) "familyName") props).
Proof. unfold UsdGeomSubsetChecker.scan_properties. now rewrite scan_properties_acc. Qed.

Lemma subset_check_run (w : World) (p : Prim) (d : PrimData) :
  stage w !! p = Some d ->
  exists qs,
    UsdGeomSubsetChecker.CheckPrim p w
    = (Returned tt,
       mkWorld (stage w)
         (if subset_cond d
          then failed w ++ [mkFailedCheck (UsdGeomSubsetChecker.failure_message (primName d))
                                          p UsdGeomSubsetChecker.suggestion]
          else failed w)
         (queries w ++ qs)).
Proof.
  intros Hd.
  unfold UsdGeomSubsetChecker.CheckPrim, subset_cond, IsA, GetProperties,
    GetFamilyName, GetName, _AddFailedCheck, log_query, read_prim, bind, modify, ret.
  simpl. rewrite Hd. simpl.
  destruct (has_type d UsdGeom_Subset); simpl.
  - rewrite Hd. simpl. rewrite scan_properties_exists. simpl.
    destruct (existsb _ (properties d)); simpl.
    + destruct (existsb _ (properties d)); simpl.
      * rewrite Hd. simpl.
        destruct (bool_decide (attr_value "familyName" d = Some materialBind)); simpl.
        -- eexists. rewrite <- !app_assoc. reflexivity.
        -- rewrite Hd. simpl. eexists. rewrite <- !app_assoc. reflexivity.
      * rewrite Hd. simpl. eexists. rewrite <- !app_assoc. reflexivity.
    + eexists. rewrite <- !app_assoc. reflexivity.
  - eexists. reflexivity.
Qed.

Lemma subset_cond_spec (d : PrimData) :
  subset_cond d = true <->
  typeName d = UsdGeom_Subset
  /\ has_property_prefixed "material:binding" d
  /\ (~ has_property_prefixed "familyName" d
      \/ attr_value "familyName" d <> Some materialBind).
Proof.
  unfold subset_cond, has_type.
  rewrite !andb_true_iff, orb_true_iff, !negb_true_iff, bool_decide_eq_true,
    bool_decide_eq_false, existsb_prefixed, <- not_true_iff_false, existsb_prefixed.
  tauto.
Qed.

Lemma length_snoc_ltb {A : Type} (l : list A) (x : A) :
  (length l <? length (l ++ [x]))%nat = true.
Proof. rewrite length_app. simpl. apply Nat.ltb_lt. lia. Qed.

Lemma records_failure_subset (w : World) (p : Prim) (d : PrimData) :
  stage w !! p = Some d ->
  records_failure UsdGeomSubsetChecker.CheckPrim p w = subset_cond d.
Proof.
  intros Hd. destruct (subset_check_run w p d Hd) as [qs Hrun].
  unfold records_failure. rewrite Hrun. simpl.
  destruct (subset_cond d); simpl.
  - apply length_snoc_ltb.
  - apply Nat.ltb_irrefl.
Qed.

Lemma api_check_run (w : World) (p : Prim) (d : PrimData) :
  stage w !! p = Some d ->
  UsdMaterialBindingApi.CheckPrim p w
  = (Returned tt,
     mkWorld (stage w)
       (if api_cond d
        then failed w ++ [mkFailedCheck (UsdMaterialBindingApi.failure_message (primName d))
                                        p UsdMaterialBindingApi.suggestion]
        else failed w)
       (queries w ++
        if has_api d UsdShade_MaterialBindingAPI
        then [Q_HasAPI p UsdShade_MaterialBindingAPI]
        else if UsdMaterialBindingApi.any_material_binding (properties d)
        then [Q_HasAPI p UsdShade_MaterialBindingAPI; Q_GetProperties p;
              Q_HasAPI p UsdShade_MaterialBindingAPI; Q_GetName p]
        else [Q_HasAPI p UsdShade_MaterialBindingAPI; Q_GetProperties p])).
Proof.
  intros Hd.
  unfold UsdMaterialBindingApi.CheckPrim, api_cond, HasAPI, GetProperties,
    GetName, _AddFailedCheck, log_query, read_prim, bind, modify, ret.
  simpl. rewrite Hd. simpl.
  destruct (has_api d UsdShade_MaterialBindingAPI) eqn:Hapi; simpl.
  - reflexivity.
  - rewrite Hd. simpl.
    destruct (UsdMaterialBindingApi.any_material_binding (properties d)); simpl.
    + rewrite Hd. simpl. rewrite Hapi. simpl. rewrite Hd. simpl.
      rewrite <- !app_assoc. reflexivity.
    + rewrite <- !app_assoc. reflexivity.
Qed.

Lemma api_cond_spec (d : PrimData) :
  api_cond d = true <->
  (UsdShade_MaterialBindingAPI ∉ apiSchemas d)
  /\ has_property_prefixed "material:binding" d.
Proof.
  unfold api_cond, has_api, UsdMaterialBindingApi.any_material_binding.
  rewrite andb_true_iff, negb_true_iff, bool_decide_eq_false, existsb_prefixed.
  tauto.
Qed.

Lemma records_failure_api (w : World) (p : Prim) (d : PrimData) :
  stage w !! p = Some d ->
  records_failure UsdMaterialBindingApi.CheckPrim p w = api_cond d.
Proof.
  intros Hd. unfold records_failure. rewrite (api_check_run w p d Hd). simpl.
  destruct (api_cond d); simpl.
  - apply length_snoc_ltb.
  - apply Nat.ltb_irrefl.
Qed.

(** A rule adds nothing for a handle that names no prim of the stage. *)
Lemma records_failure_valid (w : World) (p : Prim) :
  records_failure UsdGeomSubsetChecker.CheckPrim p w = true
  \/ records_failure UsdMaterialBindingApi.CheckPrim p w = true ->
  exists d, stage w !! p = Some d.
Proof.
  destruct (stage w !! p) as [d|] eqn:Hd; [intros _; now exists d|].
  unfold records_failure, UsdGeomSubsetChecker.CheckPrim,
    UsdMaterialBindingApi.CheckPrim, IsA, HasAPI, log_query, read_prim,
    bind, modify, ret.
  simpl. rewrite Hd. simpl. rewrite Nat.ltb_irrefl. intros [H|H]; discriminate.
Qed.

Lemma find_property_set_attr (n v : string) (props : list Property) :
  find_property n (set_attr n v props) = Some (mkProperty n (Some v)).
Proof.
  unfold find_property.
  induction props as [|pr props IH]; simpl.
  - now rewrite bool_decide_eq_true_2.
  - destruct (bool_decide (propName pr = n)) eqn:E; simpl.
    + now rewrite bool_decide_eq_true_2.
    + now rewrite E.
Qed.

Lemma set_attr_has_name (n v : string) (props : list Property) :
  mkProperty n (Some v) ∈ set_attr n v props.
Proof.
  induction props as [|pr props IH]; simpl.
  - apply list_elem_of_here.
  - destruct (bool_decide (propName pr = n)).
    + apply list_elem_of_here.
    + now apply list_elem_of_further.
Qed.

(** C1, as the claim states it, fails: a subset with a material binding
    whose [familyName] attribute exists (with the value "partition") is
    reported all the same. *)
Lemma subset_rule_reports_present_family_name :
  stage (world_of partition_subset) !! subset_prim = Some partition_subset
  /\ typeName partition_subset = UsdGeom_Subset
  /\ has_property_prefixed "material:binding" partition_subset
  /\ find_property "familyName" (properties partition_subset)
     = Some (mkProperty "familyName" (Some "partition"))
  /\ records_failure UsdGeomSubsetChecker.CheckPrim subset_prim
       (world_of partition_subset) = true.
Proof.
  split; [reflexivity|]. split; [reflexivity|]. split.
  - exists (mkProperty "material:binding" None). split; [|reflexivity].
    apply list_elem_of_here.
  - split; vm_compute; reflexivity.
Qed.

(** C1, amended: for a prim of the stage, [UsdGeomSubsetChecker.CheckPrim]
    returns, leaves the stage as it is and adds at most one failed check;
    it adds one exactly when the prim is a [UsdGeom.Subset], some property
    name begins with "material:binding", and either no property name
    begins with "familyName" or the [familyName] attribute does not hold
    [UsdShade.Tokens.materialBind]. *)
Theorem subset_rule_reports (w : World) (p : Prim) (d : PrimData) :
  stage w !! p = Some d ->
  exists w',
    UsdGeomSubsetChecker.CheckPrim p w = (Returned tt, w')
    /\ stage w' = stage w
    /\ (failed w' = failed w
        \/ failed w' = failed w ++
             [mkFailedCheck (UsdGeomSubsetChecker.failure_message (primName d))
                            p UsdGeomSubsetChecker.suggestion])
    /\ (records_failure UsdGeomSubsetChecker.CheckPrim p w = true <->
        typeName d = UsdGeom_Subset
        /\ has_property_prefixed "material:binding" d
        /\ (~ has_property_prefixed "familyName" d
            \/ attr_value "familyName" d <> Some materialBind)).
Proof.
  intros Hd. destruct (subset_check_run w p d Hd) as [qs Hrun].
  eexists. split; [exact Hrun|]. simpl. split; [reflexivity|]. split.
  - destruct (subset_cond d); [right|left]; reflexivity.
  - rewrite (records_failure_subset w p d Hd). apply subset_cond_spec.
Qed.

Lemma subset_rule_reports_witness :
  exists w',
    UsdGeomSubsetChecker.CheckPrim subset_prim (world_of bare_subset) = (Returned tt, w')
    /\ stage w' = stage (world_of bare_subset)
    /\ (failed w' = failed (world_of bare_subset)
        \/ failed w' = failed (world_of bare_subset) ++
             [mkFailedCheck (UsdGeomSubsetChecker.failure_message (primName bare_subset))
                            subset_prim UsdGeomSubsetChecker.suggestion])
    /\ (records_failure UsdGeomSubsetChecker.CheckPrim subset_prim (world_of bare_subset) = true <->
        typeName bare_subset = UsdGeom_Subset
        /\ has_property_prefixed "material:binding" bare_subset
        /\ (~ has_property_prefixed "familyName" bare_subset
            \/ attr_value "familyName" bare_subset <> Some materialBind)).
Proof.
  apply (subset_rule_reports (world_of bare_subset) subset_prim bare_subset).
  reflexivity.
Defined.

(** C2: for a prim of the stage, [UsdMaterialBindingApi.CheckPrim] returns
    and adds a failed check if and only if the prim does not have
    [UsdShade.MaterialBindingAPI] applied and some property name begins
    with "material:binding"; for a prim with the API applied the only
    question it asks is the first [HasAPI]: its properties are not read. *)
Theorem material_binding_rule_reports (w : World) (p : Prim) (d : PrimData) :
  stage w !! p = Some d ->
  exists w',
    UsdMaterialBindingApi.CheckPrim p w = (Returned tt, w')
    /\ stage w' = stage w
    /\ (failed w' = failed w
        \/ failed w' = failed w ++
             [mkFailedCheck (UsdMaterialBindingApi.failure_message (primName d))
                            p UsdMaterialBindingApi.suggestion])
    /\ (records_failure UsdMaterialBindingApi.CheckPrim p w = true <->
        (UsdShade_MaterialBindingAPI ∉ apiSchemas d)
        /\ has_property_prefixed "material:binding" d)
    /\ (UsdShade_MaterialBindingAPI ∈ apiSchemas d ->
        failed w' = failed w
        /\ queries w' = queries w ++ [Q_HasAPI p UsdShade_MaterialBindingAPI]).
Proof.
  intros Hd. eexists. split; [exact (api_check_run w p d Hd)|]. simpl.
  split; [reflexivity|]. split; [|split].
  - destruct (api_cond d); [right|left]; reflexivity.
  - rewrite (records_failure_api w p d Hd). apply api_cond_spec.
  - intros Hin. unfold api_cond, has_api.
    rewrite (bool_decide_eq_true_2 _ Hin). simpl. split; reflexivity.
Qed.

Lemma material_binding_rule_reports_witness :
  exists w',
    UsdMaterialBindingApi.CheckPrim subset_prim (world_of bound_mesh) = (Returned tt, w')
    /\ stage w' = stage (world_of bound_mesh)
    /\ (failed w' = failed (world_of bound_mesh)
        \/ failed w' = failed (world_of bound_mesh) ++
             [mkFailedCheck (UsdMaterialBindingApi.failure_message (primName bound_mesh))
                            subset_prim UsdMaterialBindingApi.suggestion])
    /\ (records_failure UsdMaterialBindingApi.CheckPrim subset_prim (world_of bound_mesh) = true <->
        (UsdShade_MaterialBindingAPI ∉ apiSchemas bound_mesh)
        /\ has_property_prefixed "material:binding" bound_mesh)
    /\ (UsdShade_MaterialBindingAPI ∈ apiSchemas bound_mesh ->
        failed w' = failed (world_of bound_mesh)
        /\ queries w' = queries (world_of bound_mesh)
                        ++ [Q_HasAPI subset_prim UsdShade_MaterialBindingAPI]).
Proof.
  apply (material_binding_rule_reports (world_of bound_mesh) subset_prim bound_mesh).
  reflexivity.
Defined.

Lemma with_family_name_clean (d : PrimData) :
  attr_value "familyName" (with_family_name d) = Some materialBind
  /\ subset_cond (with_family_name d) = false.
Proof.
  assert (Hv : attr_value "familyName" (with_family_name d) = Some materialBind).
  { unfold attr_value, with_family_name. simpl.
    now rewrite find_property_set_attr. }
  split; [exact Hv|].
  unfold subset_cond. rewrite Hv, bool_decide_eq_true_2 by reflexivity.
  assert (He : existsb (fun pr => startswith (propName pr) "familyName")
                 (properties (with_family_name d)) = true).
  { apply existsb_exists. exists (mkProperty "familyName" (Some materialBind)).
    split; [|reflexivity].
    apply list_elem_of_In. apply set_attr_has_name. }
  rewrite He. simpl. now rewrite andb_false_r.
Qed.

Lemma apply_api_clean (d : PrimData) :
  has_api (UsdMaterialBindingApi.apply_api UsdShade_MaterialBindingAPI d)
          UsdShade_MaterialBindingAPI = true
  /\ api_cond (UsdMaterialBindingApi.apply_api UsdShade_MaterialBindingAPI d) = false.
Proof.
  assert (H : has_api (UsdMaterialBindingApi.apply_api UsdShade_MaterialBindingAPI d)
                      UsdShade_MaterialBindingAPI = true).
  { unfold UsdMaterialBindingApi.apply_api.
    destruct (has_api d UsdShade_MaterialBindingAPI) eqn:E; unfold has_api; simpl.
    - exact E.
    - apply bool_decide_eq_true_2. apply elem_of_app. right.
      apply list_elem_of_here. }
  split; [exact H|]. unfold api_cond. now rewrite H.
Qed.

(** C3: a prim that [UsdGeomSubsetChecker.CheckPrim] reports carries, in
    the failed check just added, the suggestion [apply_family_name_fix];
    running it writes [UsdShade.Tokens.materialBind] to the prim's
    [familyName] attribute and changes nothing else of the stage, and
    [CheckPrim] on the same prim then adds no failed check. Likewise a
    prim that [UsdMaterialBindingApi.CheckPrim] reports is suggested
    [apply_material_binding_api_fix], which applies
    [UsdShade.MaterialBindingAPI], after which that rule adds no failed
    check for the prim. *)
Theorem fix_then_check_clean (w : World) (p : Prim) :
  (records_failure UsdGeomSubsetChecker.CheckPrim p w = true ->
   exists d fc w1,
     stage w !! p = Some d
     /\ failed (snd (UsdGeomSubsetChecker.CheckPrim p w)) = failed w ++ [fc]
     /\ run_suggestion fc = UsdGeomSubsetChecker.apply_family_name_fix p
     /\ UsdGeomSubsetChecker.apply_family_name_fix p
          (snd (UsdGeomSubsetChecker.CheckPrim p w)) = (Returned tt, w1)
     /\ stage w1 = <[p := with_family_name d]> (stage w)
     /\ attr_value "familyName" (with_family_name d) = Some materialBind
     /\ records_failure UsdGeomSubsetChecker.CheckPrim p w1 = false)
  /\
  (records_failure UsdMaterialBindingApi.CheckPrim p w = true ->
   exists d fc w1,
     stage w !! p = Some d
     /\ failed (snd (UsdMaterialBindingApi.CheckPrim p w)) = failed w ++ [fc]
     /\ run_suggestion fc = UsdMaterialBindingApi.apply_material_binding_api_fix p
     /\ UsdMaterialBindingApi.apply_material_binding_api_fix p
          (snd (UsdMaterialBindingApi.CheckPrim p w)) = (Returned tt, w1)
     /\ stage w1 = <[p := UsdMaterialBindingApi.apply_api UsdShade_MaterialBindingAPI d]> (stage w)
     /\ UsdShade_MaterialBindingAPI
          ∈ apiSchemas (UsdMaterialBindingApi.apply_api UsdShade_MaterialBindingAPI d)
     /\ records_failure UsdMaterialBindingApi.CheckPrim p w1 = false).
Proof.
  split; intros Hrec.
  - destruct (records_failure_valid w p (or_introl Hrec)) as [d Hd].
    rewrite (records_failure_subset w p d Hd) in Hrec.
    destruct (subset_check_run w p d Hd) as [qs Hrun].
    rewrite Hrun, Hrec. simpl.
    exists d. eexists. eexists.
    split; [exact Hd|]. split; [reflexivity|]. split; [reflexivity|].
    unfold UsdGeomSubsetChecker.apply_family_name_fix, read_prim, write_prim,
      bind, modify. simpl. rewrite Hd.
    split; [reflexivity|]. simpl. split; [reflexivity|].
    destruct (with_family_name_clean d) as [Hv Hc].
    split; [exact Hv|].
    erewrite records_failure_subset; [exact Hc|].
    simpl. apply lookup_insert_eq.
  - destruct (records_failure_valid w p (or_intror Hrec)) as [d Hd].
    rewrite (records_failure_api w p d Hd) in Hrec.
    rewrite (api_check_run w p d Hd), Hrec. simpl.
    exists d. eexists. eexists.
    split; [exact Hd|]. split; [reflexivity|]. split; [reflexivity|].
    unfold UsdMaterialBindingApi.apply_material_binding_api_fix, read_prim,
      write_prim, bind, modify. simpl. rewrite Hd.
    split; [reflexivity|]. simpl. split; [reflexivity|].
    destruct (apply_api_clean d) as [Hv Hc].
    split; [unfold has_api in Hv; now apply bool_decide_eq_true in Hv|].
    erewrite records_failure_api; [exact Hc|].
    simpl. apply lookup_insert_eq.
Qed.

Lemma fix_then_check_clean_witness :
  (records_failure UsdGeomSubsetChecker.CheckPrim subset_prim (world_of bare_subset) = true
   /\ exists w1,
        UsdGeomSubsetChecker.apply_family_name_fix subset_prim
          (snd (UsdGeomSubsetChecker.CheckPrim subset_prim (world_of bare_subset)))
        = (Returned tt, w1)
        /\ records_failure UsdGeomSubsetChecker.CheckPrim subset_prim w1 = false)
  /\
  (records_failure UsdMaterialBindingApi.CheckPrim subset_prim (world_of unbound_mesh) = true
   /\ exists w1,
        UsdMaterialBindingApi.apply_material_binding_api_fix subset_prim
          (snd (UsdMaterialBindingApi.CheckPrim subset_prim (world_of unbound_mesh)))
        = (Returned tt, w1)
        /\ records_failure UsdMaterialBindingApi.CheckPrim subset_prim w1 = false).
Proof.
  split.
  - assert (Hrec : records_failure UsdGeomSubsetChecker.CheckPrim subset_prim
                     (world_of bare_subset) = true) by (vm_compute; reflexivity).
    split; [exact Hrec|].
    destruct (proj1 (fix_then_check_clean (world_of bare_subset) subset_prim) Hrec)
      as (d & fc & w1 & _ & _ & _ & Hfix & _ & _ & Hclean).
    exists w1. split; [exact Hfix | exact Hclean].
  - assert (Hrec : records_failure UsdMaterialBindingApi.CheckPrim subset_prim
                     (world_of unbound_mesh) = true) by (vm_compute; reflexivity).
    split; [exact Hrec|].
    destruct (proj2 (fix_then_check_clean (world_of unbound_mesh) subset_prim) Hrec)
      as (d & fc & w1 & _ & _ & _ & Hfix & _ & _ & Hclean).
    exists w1. split; [exact Hfix | exact Hclean].
Defined.

End ValidatorFacts.

(** ** The helloWorld script *)

Section HelloWorldFacts.

Import HelloWorld.
Local Open Scope list_scope.

(** *** Start and shutdown *)

Lemma assign_local (name : string) (v : PyVal) (s : State) :
  assign [] name v s = (Returned tt, s).
Proof.
  unfold assign. rewrite bool_decide_eq_false_2; [reflexivity|].
  apply not_elem_of_nil.
Qed.

Lemma startOmniverse_run (sdk : Sdk) (s : State) (le : PyVal) :
  globals s !! "logging_enabled" = Some le ->
  startOmniverse sdk s
  = (if initialize_ok sdk
     then Returned tt
     else SysExit (ExitMsg "[ERROR] Unable to initialize Omniverse client, exiting."),
     add_trace s
       ([E_set_log_callback]
        ++ (if truthy le then [E_set_log_level DEBUG] else [])
        ++ [E_initialize]
        ++ (if initialize_ok sdk then [E_register_connection_status_callback] else []))).
Proof.
  intros Hle.
  unfold startOmniverse, read_global, emit, bind, modify, ret, sys_exit, add_trace.
  simpl. rewrite Hle.
  destruct (truthy le), (initialize_ok sdk); simpl;
    rewrite ?assign_local, <- ?app_assoc; reflexivity.
Qed.

Lemma shutdownOmniverse_run (s : State) :
  shutdownOmniverse s
  = (Returned tt, add_trace s [E_live_wait_for_pending_updates; E_shutdown]).
Proof.
  unfold shutdownOmniverse, emit, bind, modify, ret, add_trace.
  rewrite assign_local. simpl. rewrite <- app_assoc. reflexivity.
Qed.

(** C6, at a run in which the client initializes and answers the
    subscription handle 7: [startOmniverse()] returns, and the module-level
    [g_connection_status_subscription] is still [None], not the handle;
    it is [None] after [shutdownOmniverse()] as well. *)
Theorem startOmniverse_leaves_global_none :
  initialize_ok working_sdk = true
  /\ subscription working_sdk = 7
  /\ fst (startOmniverse working_sdk (initial_state false)) = Returned tt
  /\ globals (snd (startOmniverse working_sdk (initial_state false)))
       !! "g_connection_status_subscription" = Some PyNone
  /\ globals (snd (shutdownOmniverse (snd (startOmniverse working_sdk (initial_state false)))))
       !! "g_connection_status_subscription" = Some PyNone.
Proof.
  split; [reflexivity|]. split; [reflexivity|].
  rewrite (startOmniverse_run working_sdk (initial_state false) (PyBool false))
    by reflexivity.
  rewrite shutdownOmniverse_run. simpl.
  repeat split; reflexivity.
Qed.

(** *** The calls that can fail *)

Lemma enablePhysics_run (sdk : Sdk) (prim : HPrim) (dynamic : bool) (s : State) :
  enablePhysics sdk prim dynamic s
  = if collision_apply_raises sdk prim
    then (Raised TfErrorException,
          add_trace s
            ((if dynamic then [E_apply_api "PhysicsRigidBodyAPI" prim] else [])
             ++ [E_apply_api "PhysicsCollisionAPI" prim]))
    else
    (if collision_api_ok sdk prim then Returned tt else SysExit (ExitCode 1),
     add_trace s
       ((if dynamic then [E_apply_api "PhysicsRigidBodyAPI" prim] else [])
        ++ [E_apply_api "PhysicsCollisionAPI" prim]
        ++ (if collision_api_ok sdk prim
            then if IsA prim UsdGeom_Mesh
                 then [E_apply_api "PhysicsMeshCollisionAPI" prim;
                       E_set_approximation prim (if dynamic then "convexHull" else "none")]
                 else []
            else [E_log ERROR_LEVEL collision_api_error]))).
Proof.
  unfold enablePhysics, LOGGER, emit, bind, modify, ret, sys_exit, raise, add_trace.
  destruct dynamic, (collision_apply_raises sdk prim), (collision_api_ok sdk prim),
    (IsA prim UsdGeom_Mesh); simpl;
    rewrite <- ?app_assoc, ?app_nil_r; reflexivity.
Qed.

Lemma findGeomMesh_run (sdk : Sdk) (url : string) (s : State) :
  findGeomMesh sdk url s
  = if stage_open_raises sdk url
    then (Raised TfErrorException, add_trace s [E_log DEBUG url; E_stage_open url])
    else
    match stage_open sdk url with
    | Some st =>
        (match List.find (fun node => IsA node UsdGeom_Mesh) (stPrims st) with
         | Some node => Returned node
         | None => Raised TypeError
         end,
         mkState (<["g_stage" := PyStage st]> (globals s)) (checkpoint_message s)
                 (stdin_lines s) (trace s ++ [E_log DEBUG url; E_stage_open url]))
    | None =>
        (SysExit (ExitMsg ("[ERROR] Unable to open stage" +:+ url)),
         mkState (<["g_stage" := PyNone]> (globals s)) (checkpoint_message s)
                 (stdin_lines s) (trace s ++ [E_log DEBUG url; E_stage_open url]))
    end.
Proof.
  unfold findGeomMesh, LOGGER, emit, assign, read_global, bind, modify, ret,
    sys_exit, raise, add_trace.
  rewrite bool_decide_eq_true_2 by apply list_elem_of_here.
  destruct (stage_open_raises sdk url); simpl.
  - rewrite <- app_assoc. reflexivity.
  - rewrite lookup_insert_eq, <- app_assoc. simpl.
    destruct (stage_open sdk url) as [st|]; [|reflexivity].
    destruct (List.find _ (stPrims st)); reflexivity.
Qed.

Lemma createEmptyFolder_run (sdk : Sdk) (path : string) (s : State) :
  createEmptyFolder sdk path s
  = (Returned tt,
     add_trace s
       [E_log INFO ("Creating new folder: " +:+ path);
        E_create_folder path;
        E_log INFO ("Finished (this may be an error if the folder already exists) [ "
                    +:+ result_name (create_folder_result sdk path) +:+ " ]")]).
Proof.
  unfold createEmptyFolder, LOGGER, emit, bind, modify, ret, add_trace.
  simpl. rewrite <- !app_assoc. reflexivity.
Qed.

Lemma save_stage_run (url comment : string) (s : State) (st : StageObj) :
  globals s !! "g_stage" = Some (PyStage st) ->
  save_stage url comment s
  = (Returned tt,
     mkState (globals s) EmptyString (stdin_lines s)
       (trace s ++ [E_set_checkpoint_message comment; E_layer_save (stEditLayer st);
                    E_set_checkpoint_message EmptyString; E_live_process])).
Proof.
  intros Hst.
  unfold save_stage, set_checkpoint_message, read_global, emit, bind, modify, ret.
  simpl. rewrite Hst. simpl. rewrite <- !app_assoc. reflexivity.
Qed.

(** C5, as the claim states it, fails: when the client refuses to create
    the folder, [createEmptyFolder] logs the result and returns; the
    process does not exit. *)
Lemma createEmptyFolder_returns_after_failure :
  create_folder_result failing_sdk empty_folder_url = ERROR_ACCESS_DENIED
  /\ is_error (create_folder_result failing_sdk empty_folder_url) = true
  /\ createEmptyFolder failing_sdk empty_folder_url (initial_state false)
     = (Returned tt,
        add_trace (initial_state false)
          [E_log INFO ("Creating new folder: " +:+ empty_folder_url);
           E_create_folder empty_folder_url;
           E_log INFO "Finished (this may be an error if the folder already exists) [ ERROR_ACCESS_DENIED ]"]).
Proof.
  split; [reflexivity|]. split; [reflexivity|].
  rewrite createEmptyFolder_run. reflexivity.
Qed.

(** C5, amended: a failing [initialize] in [startOmniverse] and a
    [CONNECT_ERROR] in [connectionStatusCallback] end the process through
    [sys.exit] with a message. The guards after the CollisionAPI
    application in [enablePhysics] and after the stage open in
    [findGeomMesh] exit (the first after logging the error, with status
    1) when the library call answers an object that is false; when the
    library call raises [Tf.ErrorException] instead, the guard is not
    reached and the exception leaves the function, with no message
    logged, no exit and [g_stage] not rebound. [createEmptyFolder] logs
    the result of the folder creation, whatever it is, and returns. *)
Theorem sdk_failures_exit (sdk : Sdk) (s : State) :
  (forall le, initialize_ok sdk = false ->
     globals s !! "logging_enabled" = Some le ->
     fst (startOmniverse sdk s)
     = SysExit (ExitMsg "[ERROR] Unable to initialize Omniverse client, exiting."))
  /\ (forall url,
        connectionStatusCallback url CONNECT_ERROR s
        = (SysExit (ExitMsg "[ERROR] Failed connection, exiting."), s))
  /\ (forall prim dynamic,
        collision_apply_raises sdk prim = false ->
        collision_api_ok sdk prim = false ->
        fst (enablePhysics sdk prim dynamic s) = SysExit (ExitCode 1)
        /\ last (trace (snd (enablePhysics sdk prim dynamic s)))
           = Some (E_log ERROR_LEVEL collision_api_error))
  /\ (forall prim dynamic,
        collision_apply_raises sdk prim = true ->
        fst (enablePhysics sdk prim dynamic s) = Raised TfErrorException
        /\ last (trace (snd (enablePhysics sdk prim dynamic s)))
           = Some (E_apply_api "PhysicsCollisionAPI" prim))
  /\ (forall url,
        stage_open_raises sdk url = false ->
        stage_open sdk url = None ->
        fst (findGeomMesh sdk url s)
        = SysExit (ExitMsg ("[ERROR] Unable to open stage" +:+ url)))
  /\ (forall url,
        stage_open_raises sdk url = true ->
        findGeomMesh sdk url s
        = (Raised TfErrorException, add_trace s [E_log DEBUG url; E_stage_open url]))
  /\ (forall path,
        fst (createEmptyFolder sdk path s) = Returned tt
        /\ last (trace (snd (createEmptyFolder sdk path s)))
           = Some (E_log INFO
                     ("Finished (this may be an error if the folder already exists) [ "
                      +:+ result_name (create_folder_result sdk path) +:+ " ]"))).
Proof.
  split; [|split; [|split; [|split; [|split; [|split]]]]].
  - intros le Hinit Hle. rewrite (startOmniverse_run sdk s le Hle), Hinit. reflexivity.
  - intros url. reflexivity.
  - intros prim dynamic Hr Hc. rewrite enablePhysics_run, Hr, Hc. simpl.
    split; [reflexivity|].
    change [E_apply_api "PhysicsCollisionAPI" prim; E_log ERROR_LEVEL collision_api_error]
      with ([E_apply_api "PhysicsCollisionAPI" prim] ++ [E_log ERROR_LEVEL collision_api_error]).
    rewrite !app_assoc. apply last_snoc.
  - intros prim dynamic Hr. rewrite enablePhysics_run, Hr. simpl.
    split; [reflexivity|]. rewrite !app_assoc. apply last_snoc.
  - intros url Hr Ho. rewrite findGeomMesh_run, Hr, Ho. reflexivity.
  - intros url Hr. rewrite findGeomMesh_run, Hr. reflexivity.
  - intros path. rewrite createEmptyFolder_run. simpl. split; [reflexivity|].
    change (trace s ++ [?a; ?b; ?c]) with (trace s ++ [a; b] ++ [c]).
    rewrite app_assoc. apply last_snoc.
Qed.

Lemma sdk_failures_exit_witness :
  fst (startOmniverse failing_sdk (initial_state true))
  = SysExit (ExitMsg "[ERROR] Unable to initialize Omniverse client, exiting.")
  /\ fst (enablePhysics failing_sdk (mkHPrim "/World/box_0" UsdGeom_Mesh) true
            (initial_state true)) = SysExit (ExitCode 1)
  /\ fst (enablePhysics raising_sdk (mkHPrim "/World/box_0" UsdGeom_Mesh) true
            (initial_state true)) = Raised TfErrorException
  /\ fst (findGeomMesh failing_sdk "omniverse://localhost/Users/test/missing.usd"
            (initial_state true))
     = SysExit (ExitMsg ("[ERROR] Unable to open stage"
                         +:+ "omniverse://localhost/Users/test/missing.usd"))
  /\ findGeomMesh raising_sdk "omniverse://localhost/Users/test/missing.usd"
       (initial_state true)
     = (Raised TfErrorException,
        add_trace (initial_state true)
          [E_log DEBUG "omniverse://localhost/Users/test/missing.usd";
           E_stage_open "omniverse://localhost/Users/test/missing.usd"])
  /\ fst (createEmptyFolder failing_sdk empty_folder_url (initial_state true))
     = Returned tt.
Proof.
  destruct (sdk_failures_exit failing_sdk (initial_state true))
    as (Hstart & _ & Hphys & _ & Hopen & _ & Hfolder).
  destruct (sdk_failures_exit raising_sdk (initial_state true))
    as (_ & _ & _ & Hphys_raise & _ & Hopen_raise & _).
  split; [apply (Hstart (PyBool true)); reflexivity|].
  split; [apply Hphys; reflexivity|].
  split; [apply Hphys_raise; reflexivity|].
  split; [apply Hopen; reflexivity|].
  split; [apply Hopen_raise; reflexivity|].
  apply Hfolder.
Defined.

(** *** The URL checks *)

Lemma isValidOmniUrl_true (sdk : Sdk) (url : string) :
  isValidOmniUrl sdk url = true <->
  scheme (break_url sdk url) = Some "omniverse"
  \/ scheme (break_url sdk url) = Some "omni".
Proof.
  unfold isValidOmniUrl.
  destruct (decide (scheme (break_url sdk url) = Some "omniverse")) as [H1|H1];
    destruct (decide (scheme (break_url sdk url) = Some "omni")) as [H2|H2];
    rewrite ?(bool_decide_eq_true_2 _ H1), ?(bool_decide_eq_false_2 _ H1),
      ?(bool_decide_eq_true_2 _ H2), ?(bool_decide_eq_false_2 _ H2); simpl;
    split; auto; try discriminate; intros [H|H]; contradiction.
Qed.

Lemma main_check_urls_run (sdk : Sdk) (destination_path : string)
    (existing_stage : option string) (s : State) :
  main_check_urls sdk destination_path existing_stage s
  = (Returned tt,
     add_trace s
       ((if str_truthy destination_path
            && negb (isValidOmniUrl sdk destination_path)
         then [E_log WARNING (warning_destination destination_path)]
         else [])
        ++ match existing_stage with
           | Some url =>
               if str_truthy url && negb (isValidOmniUrl sdk url)
               then [E_log WARNING (warning_existing url)]
               else []
           | None => []
           end)).
Proof.
  unfold main_check_urls, LOGGER, emit, bind, modify, ret, add_trace.
  destruct (str_truthy destination_path && negb (isValidOmniUrl sdk destination_path));
    simpl.
  - destruct existing_stage as [url|]; simpl.
    + destruct (str_truthy url && negb (isValidOmniUrl sdk url)); simpl;
        rewrite <- ?app_assoc; reflexivity.
    + reflexivity.
  - destruct existing_stage as [url|]; simpl.
    + destruct (str_truthy url && negb (isValidOmniUrl sdk url)); simpl;
        rewrite ?app_nil_r; destruct s; reflexivity.
    + rewrite app_nil_r. destruct s; reflexivity.
Qed.

(** C8: [isValidOmniUrl] answers [True] exactly for the schemes "omniverse"
    and "omni" of the broken-up URL and [False] for every other scheme or
    none; the URL checks of the main block then at most log a warning for
    each of the two paths and return, whatever the URLs are. *)
Theorem isValidOmniUrl_scheme (sdk : Sdk) :
  (forall url,
     isValidOmniUrl sdk url = true <->
     scheme (break_url sdk url) = Some "omniverse"
     \/ scheme (break_url sdk url) = Some "omni")
  /\ (forall url,
        isValidOmniUrl sdk url = false <->
        scheme (break_url sdk url) <> Some "omniverse"
        /\ scheme (break_url sdk url) <> Some "omni")
  /\ (forall destination_path existing_stage s,
        main_check_urls sdk destination_path existing_stage s
        = (Returned tt,
           add_trace s
             ((if str_truthy destination_path
                  && negb (isValidOmniUrl sdk destination_path)
               then [E_log WARNING (warning_destination destination_path)]
               else [])
              ++ match existing_stage with
                 | Some url =>
                     if str_truthy url && negb (isValidOmniUrl sdk url)
                     then [E_log WARNING (warning_existing url)]
                     else []
                 | None => []
                 end))).
Proof.
  split; [apply isValidOmniUrl_true|]. split.
  - intros url. rewrite <- not_true_iff_false, isValidOmniUrl_true. tauto.
  - intros destination_path existing_stage s. apply main_check_urls_run.
Qed.

Lemma isValidOmniUrl_scheme_witness :
  isValidOmniUrl working_sdk "omniverse://localhost/Users/test" = true
  /\ isValidOmniUrl failing_sdk "C:/Path/To/Stage" = false
  /\ main_check_urls failing_sdk "C:/Path/To/Stage" None (initial_state false)
     = (Returned tt,
        add_trace (initial_state false)
          [E_log WARNING (warning_destination "C:/Path/To/Stage")]).
Proof.
  split.
  - apply (proj1 (isValidOmniUrl_scheme working_sdk)). left. reflexivity.
  - split.
    + apply (proj1 (proj2 (isValidOmniUrl_scheme failing_sdk))).
      split; discriminate.
    + rewrite (proj2 (proj2 (isValidOmniUrl_scheme failing_sdk))). reflexivity.
Defined.

(** *** The live-edit loop *)

Ltac unfold_m :=
  unfold LOGGER, emit, read_global, input, encode_ascii, bind, modify, ret, raise,
    add_trace.

Lemma iteration_t (prim : HPrim) (url : string) (v : LoopVars) (s : State)
    (st : StageObj) :
  globals s !! "g_stage" = Some (PyStage st) ->
  live_edit_iteration prim url "t" v s
  = (Returned (Continue (mkLoopVars ((angle v + 15) mod 360)%Z (join_request v))),
     mkState (globals s) EmptyString (stdin_lines s)
       (trace s ++
        [E_live_process; E_get_srt_xform prim;
         E_log INFO "Setting pos [..] and rot [..]";
         E_transform_srt (PyStage st) prim ((angle v + 15) mod 360)%Z;
         E_set_checkpoint_message EmptyString; E_layer_save (stEditLayer st);
         E_set_checkpoint_message EmptyString; E_live_process])).
Proof.
  intros Hst. unfold live_edit_iteration.
  rewrite bool_decide_eq_true_2 by reflexivity.
  unfold_m. simpl. rewrite Hst. simpl.
  erewrite save_stage_run by (simpl; exact Hst).
  simpl. rewrite <- !app_assoc. reflexivity.
Qed.

Lemma iteration_m_joined (prim : HPrim) (url : string) (v : LoopVars) (s : State)
    (req : Request) (line : string) (rest : list string) :
  join_request v = Some req ->
  stdin_lines s = line :: rest ->
  is_ascii line = true ->
  live_edit_iteration prim url "m" v s
  = (Returned (Continue v),
     mkState (globals s) (checkpoint_message s) rest
       (trace s ++
        [E_live_process; E_log INFO "Enter a channel message: ";
         E_send_message (req_id req) line])).
Proof.
  intros Hreq Hin Hascii. unfold live_edit_iteration.
  rewrite bool_decide_eq_false_2 by discriminate.
  rewrite bool_decide_eq_true_2 by reflexivity.
  rewrite Hreq. unfold_m. simpl. rewrite Hin, Hascii. simpl.
  rewrite <- !app_assoc. reflexivity.
Qed.

Lemma iteration_m_left (prim : HPrim) (url : string) (v : LoopVars) (s : State) :
  join_request v = None ->
  live_edit_iteration prim url "m" v s
  = (Returned (Continue v),
     add_trace s [E_live_process; E_log INFO "The message channel is disconnected."]).
Proof.
  intros Hreq. unfold live_edit_iteration.
  rewrite bool_decide_eq_false_2 by discriminate.
  rewrite bool_decide_eq_true_2 by reflexivity.
  rewrite Hreq. unfold_m. simpl. rewrite <- !app_assoc. reflexivity.
Qed.

Lemma iteration_l (prim : HPrim) (url : string) (v : LoopVars) (s : State) :
  live_edit_iteration prim url "l" v s
  = (Returned (Continue (mkLoopVars (angle v) None)),
     add_trace s
       ([E_live_process; E_log INFO "Leaving message channel"]
        ++ match join_request v with
           | Some req => [E_request_stop (req_id req)]
           | None => []
           end)).
Proof.
  unfold live_edit_iteration.
  rewrite !bool_decide_eq_false_2 by discriminate.
  rewrite bool_decide_eq_true_2 by reflexivity.
  destruct v as [a [req|]]; unfold_m; simpl; rewrite <- !app_assoc; reflexivity.
Qed.

Lemma iteration_quit (prim : HPrim) (url : string) (option : string)
    (v : LoopVars) (s : State) :
  option = "q" \/ option = ESC ->
  live_edit_iteration prim url option v s
  = (Returned (Break v),
     add_trace s [E_live_process; E_log INFO "Live edit complete"]).
Proof.
  intros [-> | ->]; unfold live_edit_iteration;
    rewrite !bool_decide_eq_false_2 by discriminate.
  - rewrite bool_decide_eq_true_2 by reflexivity.
    unfold_m. simpl. rewrite <- !app_assoc. reflexivity.
  - rewrite (bool_decide_eq_true_2 (ESC = ESC)) by reflexivity.
    unfold_m. simpl. rewrite <- !app_assoc. reflexivity.
Qed.

Lemma iteration_other (prim : HPrim) (url : string) (option : string)
    (v : LoopVars) (s : State) :
  option <> "t" -> option <> "m" -> option <> "l" -> option <> "q" -> option <> ESC ->
  live_edit_iteration prim url option v s
  = (Returned (Continue v), add_trace s [E_live_process; E_log INFO help_line]).
Proof.
  intros Ht Hm Hl Hq He. unfold live_edit_iteration.
  rewrite !bool_decide_eq_false_2 by assumption.
  unfold_m. simpl. rewrite <- !app_assoc. reflexivity.
Qed.

(** What a pass through the loop body that comes back has done to the
    loop variables. *)
Lemma iteration_returned (prim : HPrim) (url : string) (option : string)
    (v : LoopVars) (s s' : State) (ctl : Ctl) :
  live_edit_iteration prim url option v s = (Returned ctl, s') ->
  (option = "t"
   /\ ctl = Continue (mkLoopVars ((angle v + 15) mod 360)%Z (join_request v)))
  \/ (option <> "t"
      /\ angle (ctl_vars ctl) = angle v
      /\ (ctl = Break v /\ (option = "q" \/ option = ESC)
          \/ exists v', ctl = Continue v')).
Proof.
  unfold live_edit_iteration, save_stage, set_checkpoint_message. unfold_m. simpl.
  repeat case_bool_decide; simpl;
    repeat (case_match; simpl in *; simplify_eq); intros Heq; simplify_eq; simpl.
  all: try (left; split; reflexivity).
  all: right; (split; [assumption|]); (split; [reflexivity|]).
  all: try (right; eexists; reflexivity).
  all: left; split; [reflexivity|]; auto.
Qed.

Lemma angle_ok_step (a : Z) : angle_ok a -> angle_ok ((a + 15) mod 360)%Z.
Proof.
  intros [[k Hk] Hr]. split.
  - destruct (Z_lt_dec (a + 15) 360) as [Hlt|Hge].
    + exists (k + 1)%Z. rewrite Z.mod_small by lia. lia.
    + exists 0%Z. replace (a + 15)%Z with 360%Z by lia. reflexivity.
  - apply Z.mod_pos_bound. lia.
Qed.

Lemma loop_unfold (prim : HPrim) (url : string) (option : string)
    (rest : list string) (v : LoopVars) (s : State) :
  live_edit_loop prim url (option :: rest) v s
  = match live_edit_iteration prim url option v s with
    | (Returned (Continue v'), s') => live_edit_loop prim url rest v' s'
    | (Returned (Break v'), s') => (Returned (Finished v'), s')
    | (SysExit arg, s') => (SysExit arg, s')
    | (Raised e, s') => (Raised e, s')
    end.
Proof.
  simpl. unfold bind.
  destruct (live_edit_iteration prim url option v s) as [[[v'|v']|arg|e] s'];
    reflexivity.
Qed.

Lemma loop_angle (prim : HPrim) (url : string) (keys : list string) :
  forall (v : LoopVars) (s s' : State) (st : LoopStatus),
    angle_ok (angle v) ->
    live_edit_loop prim url keys v s = (Returned st, s') ->
    angle_ok (angle (status_vars st)).
Proof.
  induction keys as [|option rest IH]; intros v s s' st Hok Hrun.
  - simpl in Hrun. unfold ret in Hrun. now simplify_eq.
  - rewrite loop_unfold in Hrun.
    destruct (live_edit_iteration prim url option v s) as [[ctl|arg|e] s1] eqn:Hit;
      try discriminate.
    assert (Hok' : angle_ok (angle (ctl_vars ctl))).
    { destruct (iteration_returned _ _ _ _ _ _ _ Hit) as [[_ ->]|[_ [-> _]]].
      - simpl. now apply angle_ok_step.
      - exact Hok. }
    destruct ctl as [v'|v']; simpl in Hok'.
    + exact (IH v' s1 s' st Hok' Hrun).
    + now simplify_eq.
Qed.

Lemma loop_finished (prim : HPrim) (url : string) (keys : list string) :
  forall (v v' : LoopVars) (s s' : State),
    live_edit_loop prim url keys v s = (Returned (Finished v'), s') ->
    "q" ∈ keys \/ ESC ∈ keys.
Proof.
  induction keys as [|option rest IH]; intros v v' s s' Hrun.
  - simpl in Hrun. unfold ret in Hrun. discriminate.
  - rewrite loop_unfold in Hrun.
    destruct (live_edit_iteration prim url option v s) as [[ctl|arg|e] s1] eqn:Hit;
      try discriminate.
    destruct ctl as [v1|v1].
    + destruct (IH _ _ _ _ Hrun) as [H|H]; [left|right];
        now apply list_elem_of_further.
    + destruct (iteration_returned _ _ _ _ _ _ _ Hit)
        as [[_ Hc]|[_ [_ [[_ [->| ->]]|[v2 Hc]]]]]; try discriminate.
      * left. apply list_elem_of_here.
      * right. apply list_elem_of_here.
Qed.

Lemma run_live_edit_unfold (sdk : Sdk) (prim : HPrim) (url : string)
    (keys : list string) (s : State) :
  run_live_edit sdk prim url keys s
  = live_edit_loop prim url keys
      (mkLoopVars 0 (join_channel sdk (url +:+ ".__omni_channel__")))
      (add_trace s
         [E_live_process;
          E_log INFO ("Begin Live Edit on " +:+ hpPath prim +:+ " - " +:+ newline
                      +:+ "Enter 't' to transform, 'm' to send a channel message, 'l' to leave the channel, or 'q' to quit."
                      +:+ newline);
          E_join_channel (url +:+ ".__omni_channel__")]).
Proof.
  unfold run_live_edit. unfold_m. simpl. rewrite <- !app_assoc. reflexivity.
Qed.

(** C10: the angle of [run_live_edit] starts at 0; a pass through the
    loop body replaces it with [(angle + 15) % 360] on b't' and leaves it
    alone on every other character; so after any number of passes it is a
    multiple of 15 in the range [0, 360). *)
Theorem live_edit_angle_invariant (sdk : Sdk) (prim : HPrim) (url : string) :
  (forall s,
     fst (run_live_edit sdk prim url [] s)
     = Returned (Blocked (mkLoopVars 0 (join_channel sdk (url +:+ ".__omni_channel__")))))
  /\ (forall option v s ctl s',
        live_edit_iteration prim url option v s = (Returned ctl, s') ->
        angle (ctl_vars ctl)
        = if bool_decide (option = "t") then ((angle v + 15) mod 360)%Z else angle v)
  /\ (forall keys s st s',
        run_live_edit sdk prim url keys s = (Returned st, s') ->
        angle_ok (angle (status_vars st))).
Proof.
  split; [|split].
  - intros s. rewrite run_live_edit_unfold. reflexivity.
  - intros option v s ctl s' Hit.
    destruct (iteration_returned _ _ _ _ _ _ _ Hit) as [[-> ->]|[Hne [-> _]]].
    + reflexivity.
    + now rewrite bool_decide_eq_false_2.
  - intros keys s st s' Hrun. rewrite run_live_edit_unfold in Hrun.
    eapply loop_angle; [|exact Hrun].
    simpl. split; [exists 0%Z; reflexivity | lia].
Qed.

Lemma live_edit_angle_invariant_witness :
  (exists st s',
     run_live_edit working_sdk box_prim (stUrl box_stage) ["t"; "t"; "x"]
       (state_with_stage box_stage []) = (Returned st, s')
     /\ angle (status_vars st) = 30%Z
     /\ angle_ok (angle (status_vars st)))
  /\ (exists ctl s',
        live_edit_iteration box_prim (stUrl box_stage) "t"
          (mkLoopVars 345 None) (state_with_stage box_stage []) = (Returned ctl, s')
        /\ angle (ctl_vars ctl) = 0%Z).
Proof.
  destruct (live_edit_angle_invariant working_sdk box_prim (stUrl box_stage))
    as (_ & Hstep & Hrun).
  split.
  - destruct (run_live_edit working_sdk box_prim (stUrl box_stage) ["t"; "t"; "x"]
                (state_with_stage box_stage [])) as [o s'] eqn:Heq.
    assert (Ho : o = Returned (Blocked (mkLoopVars 30 (Some (mkRequest 1))))).
    { apply (f_equal fst) in Heq. simpl in Heq. rewrite <- Heq.
      vm_compute. reflexivity. }
    subst o. eexists. exists s'. split; [reflexivity|]. split; [reflexivity|].
    exact (Hrun _ _ _ _ Heq).
  - destruct (live_edit_iteration box_prim (stUrl box_stage) "t"
                (mkLoopVars 345 None) (state_with_stage box_stage [])) as [o s'] eqn:Heq.
    assert (Ho : o = Returned (Continue (mkLoopVars 0 None))).
    { apply (f_equal fst) in Heq. simpl in Heq. rewrite <- Heq.
      vm_compute. reflexivity. }
    subst o. eexists. exists s'. split; [reflexivity|].
    rewrite (Hstep _ _ _ _ _ Heq). reflexivity.
Defined.

(** C4, as the claim states it, fails twice: the escape character is no
    b'q', yet the loop ends on it and no help prompt is printed; and
    after b'l' the command b'm' sends no channel message. *)
Lemma escape_key_ends_live_edit :
  ESC <> "q"
  /\ fst (run_live_edit working_sdk box_prim (stUrl box_stage) [ESC]
            (state_with_stage box_stage []))
     = Returned (Finished (mkLoopVars 0 (Some (mkRequest 1))))
  /\ (E_log INFO help_line
      ∉ trace (snd (run_live_edit working_sdk box_prim (stUrl box_stage) [ESC]
                      (state_with_stage box_stage []))))
  /\ fst (run_live_edit working_sdk box_prim (stUrl box_stage) ["l"; "m"]
            (state_with_stage box_stage ["hello"]))
     = Returned (Blocked (mkLoopVars 0 None))
  /\ existsb is_send
       (trace (snd (run_live_edit working_sdk box_prim (stUrl box_stage) ["l"; "m"]
                      (state_with_stage box_stage ["hello"])))) = false.
Proof.
  split; [discriminate|].
  split; [vm_compute; reflexivity|].
  split.
  - intros Hin. apply list_elem_of_In in Hin. vm_compute in Hin.
    repeat (destruct Hin as [Hin|Hin]; [discriminate|]). exact Hin.
  - split; vm_compute; reflexivity.
Qed.

(** C4, amended: each pass through the loop of [run_live_edit] calls
    [live_process] and then dispatches on the character read. b't'
    applies a transform with the angle advanced by 15 modulo 360 and
    saves the stage; b'm' reads a line and sends it as a channel message
    while the channel request is held, and only logs that the channel is
    disconnected once it is not; b'l' logs, stops the request when one is
    held and forgets it; b'q' and the escape character log and leave the
    loop; any other character only logs the help prompt; and the loop is
    left through [break] only when b'q' or the escape character is read. *)
Theorem live_edit_dispatch (prim : HPrim) (url : string) (v : LoopVars) (s : State) :
  (forall st, globals s !! "g_stage" = Some (PyStage st) ->
     live_edit_iteration prim url "t" v s
     = (Returned (Continue (mkLoopVars ((angle v + 15) mod 360)%Z (join_request v))),
        mkState (globals s) EmptyString (stdin_lines s)
          (trace s ++
           [E_live_process; E_get_srt_xform prim;
            E_log INFO "Setting pos [..] and rot [..]";
            E_transform_srt (PyStage st) prim ((angle v + 15) mod 360)%Z;
            E_set_checkpoint_message EmptyString; E_layer_save (stEditLayer st);
            E_set_checkpoint_message EmptyString; E_live_process])))
  /\ (forall req line rest,
        join_request v = Some req -> stdin_lines s = line :: rest ->
        is_ascii line = true ->
        live_edit_iteration prim url "m" v s
        = (Returned (Continue v),
           mkState (globals s) (checkpoint_message s) rest
             (trace s ++
              [E_live_process; E_log INFO "Enter a channel message: ";
               E_send_message (req_id req) line])))
  /\ (join_request v = None ->
      live_edit_iteration prim url "m" v s
      = (Returned (Continue v),
         add_trace s [E_live_process; E_log INFO "The message channel is disconnected."]))
  /\ live_edit_iteration prim url "l" v s
     = (Returned (Continue (mkLoopVars (angle v) None)),
        add_trace s
          ([E_live_process; E_log INFO "Leaving message channel"]
           ++ match join_request v with
              | Some req => [E_request_stop (req_id req)]
              | None => []
              end))
  /\ (forall option, option = "q" \/ option = ESC ->
        live_edit_iteration prim url option v s
        = (Returned (Break v),
           add_trace s [E_live_process; E_log INFO "Live edit complete"]))
  /\ (forall option,
        option <> "t" -> option <> "m" -> option <> "l" ->
        option <> "q" -> option <> ESC ->
        live_edit_iteration prim url option v s
        = (Returned (Continue v), add_trace s [E_live_process; E_log INFO help_line]))
  /\ (forall keys v' s',
        live_edit_loop prim url keys v s = (Returned (Finished v'), s') ->
        "q" ∈ keys \/ ESC ∈ keys).
Proof.
  split; [intros st; apply iteration_t|].
  split; [intros req line rest; apply iteration_m_joined|].
  split; [apply iteration_m_left|].
  split; [apply iteration_l|].
  split; [intros option; apply iteration_quit|].
  split; [intros option; apply iteration_other|].
  intros keys v' s'. apply loop_finished.
Qed.

Lemma live_edit_dispatch_witness :
  let v := mkLoopVars 345 (Some (mkRequest 1)) in
  let s := state_with_stage box_stage ["hello"] in
  fst (live_edit_iteration box_prim (stUrl box_stage) "t" v s)
  = Returned (Continue (mkLoopVars 0 (Some (mkRequest 1))))
  /\ fst (live_edit_iteration box_prim (stUrl box_stage) "m" v s) = Returned (Continue v)
  /\ fst (live_edit_iteration box_prim (stUrl box_stage) "m" (mkLoopVars 345 None) s)
     = Returned (Continue (mkLoopVars 345 None))
  /\ fst (live_edit_iteration box_prim (stUrl box_stage) "q" v s) = Returned (Break v)
  /\ fst (live_edit_iteration box_prim (stUrl box_stage) "x" v s) = Returned (Continue v)
  /\ ("q" ∈ ["x"; "q"] \/ ESC ∈ ["x"; "q"]).
Proof.
  intros v s.
  destruct (live_edit_dispatch box_prim (stUrl box_stage) v s)
    as (Ht & Hm & _ & _ & Hq & Hx & Hfin).
  destruct (live_edit_dispatch box_prim (stUrl box_stage) (mkLoopVars 345 None) s)
    as (_ & _ & Hm' & _).
  split; [rewrite (Ht box_stage) by reflexivity; reflexivity|].
  split; [rewrite (Hm (mkRequest 1) "hello" []) by reflexivity; reflexivity|].
  split; [rewrite Hm' by reflexivity; reflexivity|].
  split; [rewrite (Hq "q") by (left; reflexivity); reflexivity|].
  split; [rewrite (Hx "x") by discriminate; reflexivity|].
  apply (Hfin ["x"; "q"] v
           (add_trace s [E_live_process; E_log INFO help_line;
                         E_live_process; E_log INFO "Live edit complete"])).
  vm_compute. reflexivity.
Defined.

(** *** The checkpoint message *)

Lemma iteration_checkpoint (prim : HPrim) (url option : string)
    (v : LoopVars) (s : State) :
  checkpoint_inv s ->
  fst (live_edit_iteration prim url option v s) = Raised AttributeError
  \/ checkpoint_inv (snd (live_edit_iteration prim url option v s)).
Proof.
  unfold checkpoint_inv. intros [Hc [g Hg]].
  unfold live_edit_iteration, save_stage, set_checkpoint_message. unfold_m. simpl.
  repeat case_bool_decide; simpl;
    repeat (case_match; simpl in *; simplify_eq); auto.
  all: try (right; split; [reflexivity || assumption | eexists; eassumption]).
Qed.

Lemma loop_checkpoint (prim : HPrim) (url : string) (keys : list string) :
  forall (v : LoopVars) (s : State),
    checkpoint_inv s ->
    fst (live_edit_loop prim url keys v s) = Raised AttributeError
    \/ checkpoint_inv (snd (live_edit_loop prim url keys v s)).
Proof.
  induction keys as [|option rest IH]; intros v s Hinv.
  - right. exact Hinv.
  - rewrite loop_unfold.
    destruct (iteration_checkpoint prim url option v s Hinv) as [Hraise|Hinv'];
      destruct (live_edit_iteration prim url option v s) as [[[v'|v']|arg|e] s1];
      simpl in *; simplify_eq; auto.
Qed.

Lemma add_trace_checkpoint (s : State) (evs : list Event) :
  checkpoint_inv s -> checkpoint_inv (add_trace s evs).
Proof. intros H. exact H. Qed.

Lemma op_checkpoint (sdk : Sdk) (o : Op) (s : State) :
  checkpoint_inv s ->
  fst (run_op sdk o s) = Raised AttributeError
  \/ checkpoint_inv (snd (run_op sdk o s)).
Proof.
  intros Hinv. destruct o as [| |url status|dest existing|prim dynamic|url comment
                              |url|path|prim url keys]; cbn [run_op]; unfold bind.
  - right. destruct (globals s !! "logging_enabled") as [le|] eqn:Hle.
    + rewrite (startOmniverse_run sdk s le Hle).
      destruct (initialize_ok sdk); exact Hinv.
    + unfold startOmniverse. unfold_m. simpl. rewrite Hle. exact Hinv.
  - right. rewrite shutdownOmniverse_run. exact Hinv.
  - right. destruct status; exact Hinv.
  - right. rewrite main_check_urls_run. exact Hinv.
  - right. rewrite enablePhysics_run.
    destruct (collision_apply_raises sdk prim), (collision_api_ok sdk prim); exact Hinv.
  - destruct Hinv as [Hc [g Hg]].
    destruct g as [|b|h|st];
      try (left; unfold save_stage, set_checkpoint_message; unfold_m; simpl;
           rewrite Hg; reflexivity).
    right. rewrite (save_stage_run url comment s st Hg). simpl.
    split; [reflexivity | eexists; exact Hg].
  - right. rewrite findGeomMesh_run.
    destruct (stage_open_raises sdk url); [exact Hinv|]. destruct Hinv as [Hc _].
    destruct (stage_open sdk url) as [st|]; [destruct (List.find _ (stPrims st))|];
      unfold checkpoint_inv; simpl;
      (split; [exact Hc | rewrite lookup_insert_eq; eexists; reflexivity]).
  - right. rewrite createEmptyFolder_run. exact Hinv.
  - rewrite run_live_edit_unfold.
    match goal with
    | |- context [live_edit_loop prim url keys ?v0 ?s0] =>
        destruct (loop_checkpoint prim url keys v0 s0 (add_trace_checkpoint s _ Hinv))
          as [Hraise|Hinv'];
        destruct (live_edit_loop prim url keys v0 s0) as [[[v'|v']|arg|e] s1]
    end; simpl in *; simplify_eq; auto.
Qed.

Lemma ops_checkpoint (sdk : Sdk) (ops : list Op) :
  forall s : State,
    checkpoint_inv s ->
    fst (run_ops sdk ops s) = Raised AttributeError
    \/ checkpoint_inv (snd (run_ops sdk ops s)).
Proof.
  induction ops as [|o rest IH]; intros s Hinv.
  - right. exact Hinv.
  - simpl. unfold bind.
    destruct (op_checkpoint sdk o s Hinv) as [Hraise|Hinv'];
      destruct (run_op sdk o s) as [[[|]|arg|e] s1];
      simpl in *; simplify_eq; auto.
Qed.

End HelloWorldFacts.

(** ** The test harness *)

Section TestAllFacts.

Import TestAll.
Local Open Scope list_scope.

Lemma clean_base_url_run (h : Host) (t : list TEvent) :
  let cmdline := [path_join h (cwd h) ("omnicli" +:+ shell_ext h); "delete";
                  getenv h g_base_url_env_key g_default_base_url] in
  clean_base_url h t
  = (if contains "Error: Not Found" (stdout (subprocess_run h cmdline))
     then Returned tt
     else if (returncode (subprocess_run h cmdline) =? 0)%Z
          then Returned tt
          else Raised AssertionError,
     t ++ [T_log_running cmdline; T_run cmdline;
           T_log_output (stdout (subprocess_run h cmdline))]).
Proof.
  intros cmdline.
  unfold clean_base_url, run_shell_script, assert, temit, bind, modify, ret, raise.
  simpl. fold cmdline. rewrite <- !app_assoc. simpl.
  destruct (contains "Error: Not Found" (stdout (subprocess_run h cmdline)));
    [reflexivity|].
  destruct (returncode (subprocess_run h cmdline) =? 0)%Z; reflexivity.
Qed.

(** C7: [clean_base_url] launches the omnicli script with the arguments
    "delete" and the base URL (the value of [OMNI_BASE_URL], or the
    default); when the captured output contains "Error: Not Found" it
    returns without asserting, whatever the return code; otherwise it
    returns when the return code is 0 and fails its assertion when it is
    not. *)
Theorem clean_base_url_asserts (h : Host) (t : list TEvent) :
  let cmdline := [path_join h (cwd h) ("omnicli" +:+ shell_ext h); "delete";
                  getenv h g_base_url_env_key g_default_base_url] in
  let completed := subprocess_run h cmdline in
  let not_found := exists pre post, stdout completed = pre +:+ "Error: Not Found" +:+ post in
  snd (clean_base_url h t)
  = t ++ [T_log_running cmdline; T_run cmdline; T_log_output (stdout completed)]
  /\ (not_found -> fst (clean_base_url h t) = Returned tt)
  /\ (~ not_found -> returncode completed = 0%Z ->
      fst (clean_base_url h t) = Returned tt)
  /\ (~ not_found -> returncode completed <> 0%Z ->
      fst (clean_base_url h t) = Raised AssertionError).
Proof.
  intros cmdline completed not_found.
  pose proof (clean_base_url_run h t) as Hrun. simpl in Hrun.
  fold cmdline in Hrun. fold completed in Hrun. rewrite Hrun. simpl.
  split; [reflexivity|].
  pose proof (contains_spec "Error: Not Found" (stdout completed)) as Hspec.
  fold not_found in Hspec.
  destruct (contains "Error: Not Found" (stdout completed)).
  - split; [reflexivity|]. split; intros Hn; exfalso; apply Hn, Hspec; reflexivity.
  - split; [intros Hn; apply Hspec in Hn; discriminate|].
    split; intros _ Hrc.
    + rewrite Hrc. reflexivity.
    + apply Z.eqb_neq in Hrc. rewrite Hrc. reflexivity.
Qed.

Lemma clean_base_url_asserts_witness :
  fst (clean_base_url (host_answering (mkCompleted 1 "Error: Not Found")) [])
  = Returned tt
  /\ fst (clean_base_url (host_answering (mkCompleted 0 "Deleted")) []) = Returned tt
  /\ fst (clean_base_url (host_answering (mkCompleted 1 "Error: Access Denied")) [])
     = Raised AssertionError.
Proof.
  split; [|split].
  - pose proof (clean_base_url_asserts
                  (host_answering (mkCompleted 1 "Error: Not Found")) []) as H.
    cbv zeta in H. destruct H as (_ & Hfound & _ & _).
    apply Hfound. exists EmptyString, EmptyString. reflexivity.
  - pose proof (clean_base_url_asserts (host_answering (mkCompleted 0 "Deleted")) []) as H.
    cbv zeta in H. destruct H as (_ & _ & Hzero & _).
    apply Hzero; [|reflexivity].
    intros Hn. apply contains_spec in Hn. vm_compute in Hn. discriminate.
  - pose proof (clean_base_url_asserts
                  (host_answering (mkCompleted 1 "Error: Access Denied")) []) as H.
    cbv zeta in H. destruct H as (_ & _ & _ & Hfail).
    apply Hfail; [|discriminate].
    intros Hn. apply contains_spec in Hn. vm_compute in Hn. discriminate.
Defined.

End TestAllFacts.

(** ** More on the validator rules *)

Section ValidatorMore.

Import Validator.
Local Open Scope list_scope.

Lemma attr_value_needs_name (n : string) (d : PrimData) :
  ~ has_property_prefixed n d -> attr_value n d = None.
Proof.
  intros Hno. unfold attr_value, find_property.
  destruct (List.find _ (properties d)) as [pr|] eqn:Hfind; [|reflexivity].
  exfalso. apply Hno. apply find_some in Hfind as [Hin Hname].
  apply bool_decide_eq_true in Hname.
  exists pr. split; [now apply list_elem_of_In|].
  unfold startswith. rewrite Hname. apply prefix_spec.
  exists EmptyString. now rewrite string_app_nil_r.
Qed.

(** X1: The name test of line 38 never changes the verdict of the subset
    rule: a prim of the stage is reported exactly when it is a subset,
    has a property named from "material:binding", and its [familyName]
    attribute does not hold [materialBind]. *)
Theorem subset_verdict_by_value (w : World) (p : Prim) (d : PrimData) :
  stage w !! p = Some d ->
  (records_failure UsdGeomSubsetChecker.CheckPrim p w = true <->
   typeName d = UsdGeom_Subset
   /\ has_property_prefixed "material:binding" d
   /\ attr_value "familyName" d <> Some materialBind).
Proof.
  intros Hd. rewrite (records_failure_subset w p d Hd), subset_cond_spec.
  split; intros (Hty & Hrel & Hval); (split; [exact Hty|]); (split; [exact Hrel|]).
  - destruct Hval as [Hno|Hne]; [|exact Hne].
    rewrite (attr_value_needs_name _ _ Hno). discriminate.
  - right. exact Hval.
Qed.

(** A subset whose only family-name-like property is "familyNameHint". *)
Lemma subset_verdict_by_value_witness :
  records_failure UsdGeomSubsetChecker.CheckPrim subset_prim
    (world_of (mkPrimData "subset" UsdGeom_Subset []
                 [mkProperty "material:binding:preview" None;
                  mkProperty "familyNameHint" (Some materialBind)])) = true.
Proof.
  apply (subset_verdict_by_value _ subset_prim
           (mkPrimData "subset" UsdGeom_Subset []
              [mkProperty "material:binding:preview" None;
               mkProperty "familyNameHint" (Some materialBind)])).
  - reflexivity.
  - split; [reflexivity|]. split; [|discriminate].
    exists (mkProperty "material:binding:preview" None).
    split; [apply list_elem_of_here | reflexivity].
Defined.

(** X2: A prim that is no subset costs the subset rule one question: the rule
    returns after [IsA], reads no property and records nothing. *)
Theorem subset_rule_skips_other_types (w : World) (p : Prim) (d : PrimData) :
  stage w !! p = Some d ->
  typeName d <> UsdGeom_Subset ->
  UsdGeomSubsetChecker.CheckPrim p w
  = (Returned tt, mkWorld (stage w) (failed w) (queries w ++ [Q_IsA p UsdGeom_Subset])).
Proof.
  intros Hd Hty.
  unfold UsdGeomSubsetChecker.CheckPrim, IsA, log_query, read_prim, bind, modify, ret.
  simpl. rewrite Hd. simpl. unfold has_type.
  rewrite bool_decide_eq_false_2 by exact Hty. reflexivity.
Qed.

Lemma subset_rule_skips_other_types_witness :
  UsdGeomSubsetChecker.CheckPrim subset_prim (world_of unbound_mesh)
  = (Returned tt,
     mkWorld (stage (world_of unbound_mesh)) [] [Q_IsA subset_prim UsdGeom_Subset]).
Proof.
  apply (subset_rule_skips_other_types (world_of unbound_mesh) subset_prim unbound_mesh).
  - reflexivity.
  - discriminate.
Defined.

Lemma records_failure_by_stage (w : World) (q : Prim) :
  records_failure UsdGeomSubsetChecker.CheckPrim q w
  = match stage w !! q with Some d => subset_cond d | None => false end
  /\ records_failure UsdMaterialBindingApi.CheckPrim q w
     = match stage w !! q with Some d => api_cond d | None => false end.
Proof.
  destruct (stage w !! q) as [d|] eqn:Hd.
  - split; [now apply records_failure_subset | now apply records_failure_api].
  - split.
    + destruct (records_failure UsdGeomSubsetChecker.CheckPrim q w) eqn:E; [|reflexivity].
      destruct (records_failure_valid w q (or_introl E)) as [d Hd']. congruence.
    + destruct (records_failure UsdMaterialBindingApi.CheckPrim q w) eqn:E; [|reflexivity].
      destruct (records_failure_valid w q (or_intror E)) as [d Hd']. congruence.
Qed.

Lemma set_attr_existsb (g : string -> bool) (n v : string) (props : list Property) :
  g n = false ->
  existsb (fun pr => g (propName pr)) (set_attr n v props)
  = existsb (fun pr => g (propName pr)) props.
Proof.
  intros Hg. induction props as [|pr props IH]; simpl.
  - now rewrite Hg.
  - destruct (bool_decide (propName pr = n)) eqn:E; simpl.
    + apply bool_decide_eq_true in E. now rewrite E, Hg.
    + now rewrite IH.
Qed.

Lemma api_cond_with_family_name (d : PrimData) :
  api_cond (with_family_name d) = api_cond d.
Proof.
  unfold api_cond, has_api, UsdMaterialBindingApi.any_material_binding. simpl.
  f_equal.
  exact (set_attr_existsb (fun name => startswith name "material:binding")
           "familyName" materialBind (properties d) eq_refl).
Qed.

Lemma subset_cond_apply_api (api : string) (d : PrimData) :
  subset_cond (UsdMaterialBindingApi.apply_api api d) = subset_cond d.
Proof. reflexivity. Qed.

(** X3: The two fixes do not touch each other's rule: writing the family
    name at a prim changes the verdict of the material-binding rule on
    no prim of the stage, and applying the MaterialBindingAPI at a prim
    changes the verdict of the subset rule on none. *)
Theorem fixes_do_not_interfere (w : World) (p q : Prim) :
  records_failure UsdMaterialBindingApi.CheckPrim q
    (snd (UsdGeomSubsetChecker.apply_family_name_fix p w))
  = records_failure UsdMaterialBindingApi.CheckPrim q w
  /\ records_failure UsdGeomSubsetChecker.CheckPrim q
       (snd (UsdMaterialBindingApi.apply_material_binding_api_fix p w))
     = records_failure UsdGeomSubsetChecker.CheckPrim q w.
Proof.
  split.
  - rewrite !(proj2 (records_failure_by_stage _ q)).
    unfold UsdGeomSubsetChecker.apply_family_name_fix, read_prim, write_prim,
      bind, modify.
    destruct (stage w !! p) as [d|] eqn:Hd; simpl; [|reflexivity].
    destruct (decide (p = q)) as [->|Hne].
    + rewrite lookup_insert_eq, Hd. apply api_cond_with_family_name.
    + now rewrite lookup_insert_ne.
  - rewrite !(proj1 (records_failure_by_stage _ q)).
    unfold UsdMaterialBindingApi.apply_material_binding_api_fix, read_prim,
      write_prim, bind, modify.
    destruct (stage w !! p) as [d|] eqn:Hd; simpl; [|reflexivity].
    destruct (decide (p = q)) as [->|Hne].
    + rewrite lookup_insert_eq, Hd. apply subset_cond_apply_api.
    + now rewrite lookup_insert_ne.
Qed.

End ValidatorMore.

(** ** More on the helloWorld script *)

Section HelloWorldMore.

Import HelloWorld HelloWorldMain.
Local Open Scope list_scope.

(** *** Finding the mesh *)

Lemma find_first {A : Type} (f : A -> bool) (l : list A) (x : A) :
  List.find f l = Some x ->
  exists pre post, l = pre ++ x :: post /\ f x = true /\ forallb (fun y => negb (f y)) pre = true.
Proof.
  induction l as [|y l IH]; simpl; [discriminate|].
  destruct (f y) eqn:Hy.
  - intros [= ->]. exists [], l. auto.
  - intros Hfind. destruct (IH Hfind) as (pre & post & -> & Hx & Hpre).
    exists (y :: pre), post. simpl. rewrite Hy. auto.
Qed.

(** X4: When [findGeomMesh] returns, the stage could be opened, the prim it
    answers is the first mesh of the traversal (a mesh, with no mesh
    before it), the global [g_stage] holds the opened stage and the
    checkpoint message is as before. *)
Theorem findGeomMesh_first_mesh (sdk : Sdk) (url : string) (s s' : State) (node : HPrim) :
  findGeomMesh sdk url s = (Returned node, s') ->
  exists st pre post,
    stage_open sdk url = Some st
    /\ stPrims st = pre ++ node :: post
    /\ IsA node UsdGeom_Mesh = true
    /\ forallb (fun p => negb (IsA p UsdGeom_Mesh)) pre = true
    /\ globals s' !! "g_stage" = Some (PyStage st)
    /\ checkpoint_message s' = checkpoint_message s.
Proof.
  rewrite findGeomMesh_run.
  destruct (stage_open_raises sdk url); [discriminate|].
  destruct (stage_open sdk url) as [st|]; [|discriminate].
  destruct (List.find _ (stPrims st)) as [n|] eqn:Hfind; [|discriminate].
  intros [= -> <-]. destruct (find_first _ _ _ Hfind) as (pre & post & Hl & Hn & Hpre).
  exists st, pre, post. simpl. rewrite lookup_insert_eq. split_and!; auto.
Qed.

Lemma findGeomMesh_first_mesh_witness :
  exists st pre post,
    stage_open working_sdk (stUrl box_stage) = Some st
    /\ stPrims st = pre ++ box_prim :: post
    /\ IsA box_prim UsdGeom_Mesh = true
    /\ forallb (fun p => negb (IsA p UsdGeom_Mesh)) pre = true
    /\ globals (snd (findGeomMesh working_sdk (stUrl box_stage) (initial_state false)))
         !! "g_stage" = Some (PyStage st)
    /\ checkpoint_message
         (snd (findGeomMesh working_sdk (stUrl box_stage) (initial_state false)))
       = checkpoint_message (initial_state false).
Proof.
  apply (findGeomMesh_first_mesh working_sdk (stUrl box_stage) (initial_state false)).
  vm_compute. reflexivity.
Defined.

(** X5: After [findGeomMesh] has returned, [save_stage] works on the stage
    it opened: for every comment it returns, saves the layer of that
    stage's edit target and leaves the checkpoint message empty. *)
Theorem findGeomMesh_then_save_stage (sdk : Sdk) (url : string) (s s' : State)
    (node : HPrim) (stageUrl comment : string) :
  findGeomMesh sdk url s = (Returned node, s') ->
  exists st,
    stage_open sdk url = Some st
    /\ save_stage stageUrl comment s'
       = (Returned tt,
          mkState (globals s') EmptyString (stdin_lines s')
            (trace s' ++ [E_set_checkpoint_message comment; E_layer_save (stEditLayer st);
                          E_set_checkpoint_message EmptyString; E_live_process])).
Proof.
  intros Hfind. rewrite findGeomMesh_run in Hfind.
  destruct (stage_open_raises sdk url); [discriminate|].
  destruct (stage_open sdk url) as [st|]; [|discriminate].
  destruct (List.find _ (stPrims st)) as [n|]; [|discriminate].
  injection Hfind as _ <-. exists st. split; [reflexivity|].
  apply save_stage_run. simpl. apply lookup_insert_eq.
Qed.

Lemma findGeomMesh_then_save_stage_witness :
  exists st,
    stage_open working_sdk (stUrl box_stage) = Some st
    /\ save_stage (stUrl box_stage) "Created a box."
         (snd (findGeomMesh working_sdk (stUrl box_stage) (initial_state false)))
       = (Returned tt,
          mkState (globals (snd (findGeomMesh working_sdk (stUrl box_stage) (initial_state false))))
            EmptyString
            (stdin_lines (snd (findGeomMesh working_sdk (stUrl box_stage) (initial_state false))))
            (trace (snd (findGeomMesh working_sdk (stUrl box_stage) (initial_state false)))
             ++ [E_set_checkpoint_message "Created a box."; E_layer_save (stEditLayer st);
                 E_set_checkpoint_message EmptyString; E_live_process])).
Proof.
  apply (findGeomMesh_then_save_stage working_sdk (stUrl box_stage) (initial_state false)
           _ box_prim).
  vm_compute. reflexivity.
Defined.

(** *** The live-edit loop *)

Lemma is_quit_spec (k : string) : is_quit k = true <-> k = "q" \/ k = ESC.
Proof.
  unfold is_quit. rewrite orb_true_iff, !bool_decide_eq_true. reflexivity.
Qed.

Lemma loop_keys_read (prim : HPrim) (url : string) (keys : list string) :
  forall (v : LoopVars) (s : State),
    live_edit_loop prim url keys v s = live_edit_loop prim url (keys_read keys) v s.
Proof.
  induction keys as [|k rest IH]; intros v s; [reflexivity|].
  cbn [keys_read]. destruct (is_quit k) eqn:Hq.
  - apply is_quit_spec in Hq. rewrite !loop_unfold, (iteration_quit _ _ _ _ _ Hq).
    reflexivity.
  - rewrite !loop_unfold.
    destruct (live_edit_iteration prim url k v s) as [[[v'|v']|arg|e] s1];
      try reflexivity.
    apply IH.
Qed.

(** X6: The loop reads nothing after the first b'q' or escape character:
    whatever characters follow it, the run is the same. *)
Theorem live_edit_ignores_keys_after_quit (sdk : Sdk) (prim : HPrim) (url : string)
    (keys : list string) (s : State) :
  run_live_edit sdk prim url keys s = run_live_edit sdk prim url (keys_read keys) s.
Proof. rewrite !run_live_edit_unfold. apply loop_keys_read. Qed.

Lemma presses_cons (k x : string) (keys : list string) :
  presses k (x :: keys) = ((if bool_decide (x = k) then 1 else 0) + presses k keys)%nat.
Proof. unfold presses. simpl. destruct (bool_decide (x = k)); reflexivity. Qed.

Lemma loop_angle_closed (prim : HPrim) (url : string) (keys : list string) :
  forall (v : LoopVars) (s s' : State) (st : LoopStatus),
    (0 <= angle v < 360)%Z ->
    live_edit_loop prim url keys v s = (Returned st, s') ->
    angle (status_vars st)
    = ((angle v + 15 * Z.of_nat (presses "t" (keys_read keys))) mod 360)%Z.
Proof.
  induction keys as [|k rest IH]; intros v s s' st Hr Hrun.
  - simpl in Hrun. unfold ret in Hrun. simplify_eq. simpl.
    rewrite Z.add_0_r, Z.mod_small; auto.
  - rewrite loop_unfold in Hrun. cbn [keys_read].
    destruct (live_edit_iteration prim url k v s) as [[ctl|arg|e] s1] eqn:Hit;
      try discriminate.
    destruct (iteration_returned _ _ _ _ _ _ _ Hit)
      as [[-> ->]|[Hne [Hang [[-> Hq]|[v' ->]]]]].
    + change (is_quit "t") with false. cbv iota. rewrite presses_cons.
      rewrite bool_decide_eq_true_2 by reflexivity.
      assert (Hr' : (0 <= (angle v + 15) mod 360 < 360)%Z)
        by (apply Z.mod_pos_bound; lia).
      eapply IH in Hrun; [|exact Hr']. rewrite Hrun. simpl angle.
      rewrite Z.add_mod_idemp_l by lia. f_equal. lia.
    + simplify_eq. rewrite (proj2 (is_quit_spec k) Hq).
      rewrite presses_cons, bool_decide_eq_false_2 by exact Hne. simpl.
      rewrite Z.add_0_r, Z.mod_small; auto.
    + simpl in Hang.
      destruct (is_quit k) eqn:Hq.
      * apply is_quit_spec in Hq. rewrite (iteration_quit _ _ _ _ _ Hq) in Hit.
        discriminate.
      * rewrite presses_cons, bool_decide_eq_false_2 by exact Hne.
        assert (Hr' : (0 <= angle v' < 360)%Z) by (rewrite Hang; exact Hr).
        eapply IH in Hrun; [|exact Hr']. rewrite Hrun, Hang. reflexivity.
Qed.

(** X7: The angle after a run that came back is 15 times the number of
    b't' characters read, modulo 360; 24 transforms bring it back to
    where it started. *)
Theorem live_edit_angle_closed_form (sdk : Sdk) (prim : HPrim) (url : string)
    (keys : list string) (s s' : State) (st : LoopStatus) :
  run_live_edit sdk prim url keys s = (Returned st, s') ->
  angle (status_vars st)
  = ((15 * Z.of_nat (presses "t" (keys_read keys))) mod 360)%Z.
Proof.
  rewrite run_live_edit_unfold. intros Hrun.
  eapply loop_angle_closed in Hrun; [|simpl; lia]. rewrite Hrun. reflexivity.
Qed.

Lemma live_edit_angle_closed_form_witness :
  angle (status_vars (Blocked (mkLoopVars 0 (Some (mkRequest 1)))))
  = ((15 * Z.of_nat (presses "t" (keys_read (replicate 24 "t")))) mod 360)%Z.
Proof.
  apply (live_edit_angle_closed_form working_sdk box_prim (stUrl box_stage)
           (replicate 24 "t") (state_with_stage box_stage [])
           (snd (run_live_edit working_sdk box_prim (stUrl box_stage)
                   (replicate 24 "t") (state_with_stage box_stage [])))).
  vm_compute. reflexivity.
Defined.

Lemma count_events_app (f : Event -> bool) (a b : list Event) :
  count_events f (a ++ b) = (count_events f a + count_events f b)%nat.
Proof. unfold count_events. now rewrite List.filter_app, length_app. Qed.

Lemma count_events_one (f : Event -> bool) (e : Event) :
  count_events f [e] = if f e then 1%nat else 0%nat.
Proof. unfold count_events. simpl. destruct (f e); reflexivity. Qed.

Ltac unfold_script :=
  unfold LOGGER, emit, read_global, input, encode_ascii, bind, modify, ret, raise,
    add_trace.

(** What one pass through the loop body adds to the trace. *)
Lemma iteration_events (prim : HPrim) (url k : string) (v : LoopVars) (s : State) :
  let r := live_edit_iteration prim url k v s in
  let stopped := bool_decide (k = "l") && bool_decide (join_request v <> None) in
  (count_events is_stop (trace (snd r))
   = count_events is_stop (trace s) + (if stopped then 1 else 0))%nat
  /\ (count_events is_send (trace (snd r)) <= count_events is_send (trace s) + 1)%nat
  /\ (join_request v = None ->
      count_events is_send (trace (snd r)) = count_events is_send (trace s))
  /\ (forall ctl, fst r = Returned ctl ->
        join_request (ctl_vars ctl)
        = (if bool_decide (k = "l") then None else join_request v)
        /\ (count_events is_save (trace (snd r))
            = count_events is_save (trace s) + (if bool_decide (k = "t") then 1 else 0))%nat
        /\ (count_events is_transform (trace (snd r))
            = count_events is_transform (trace s) + (if bool_decide (k = "t") then 1 else 0))%nat).
Proof.
  intros r stopped. subst r stopped.
  unfold live_edit_iteration, save_stage, set_checkpoint_message. unfold_script. simpl.
  repeat case_bool_decide; simpl;
    repeat (case_match; simpl in *; simplify_eq); simpl;
    rewrite ?count_events_app, ?count_events_one; simpl.
  all: split_and!; try (intros; simplify_eq; simpl); try lia; try congruence.
  all: try (split_and!; try reflexivity; try lia; try congruence).
Qed.

Lemma loop_saves (prim : HPrim) (url : string) (keys : list string) :
  forall (v : LoopVars) (s s' : State) (st : LoopStatus),
    live_edit_loop prim url keys v s = (Returned st, s') ->
    (count_events is_save (trace s')
     = count_events is_save (trace s) + presses "t" (keys_read keys))%nat
    /\ (count_events is_transform (trace s')
        = count_events is_transform (trace s) + presses "t" (keys_read keys))%nat.
Proof.
  induction keys as [|k rest IH]; intros v s s' st Hrun.
  - simpl in Hrun. unfold ret in Hrun. simplify_eq. simpl.
    unfold presses. simpl. lia.
  - rewrite loop_unfold in Hrun. cbn [keys_read].
    destruct (iteration_events prim url k v s) as (_ & _ & _ & Hret).
    destruct (live_edit_iteration prim url k v s) as [[ctl|arg|e] s1] eqn:Hit;
      try discriminate.
    destruct (Hret ctl eq_refl) as (_ & Hsave & Htr). simpl in Hsave, Htr.
    destruct (is_quit k) eqn:Hq.
    + apply is_quit_spec in Hq.
      rewrite (iteration_quit _ _ _ _ _ Hq) in Hit. simplify_eq.
      rewrite presses_cons. change (presses "t" []) with 0%nat.
      rewrite Hsave, Htr. lia.
    + destruct ctl as [v'|v'].
      * destruct (IH _ _ _ _ Hrun) as [IHs IHt].
        rewrite presses_cons, IHs, IHt, Hsave, Htr. lia.
      * destruct (iteration_returned _ _ _ _ _ _ _ Hit)
          as [[_ Hc]|[_ [_ [[_ Hq']|[v2 Hc]]]]]; try discriminate.
        apply is_quit_spec in Hq'. congruence.
Qed.

(** X8: Every transform of a run that came back was saved: the run adds as
    many layer saves, and as many transforms, as b't' characters were
    read. *)
Theorem live_edit_saves_every_transform (sdk : Sdk) (prim : HPrim) (url : string)
    (keys : list string) (s s' : State) (st : LoopStatus) :
  run_live_edit sdk prim url keys s = (Returned st, s') ->
  (count_events is_save (trace s')
   = count_events is_save (trace s) + presses "t" (keys_read keys))%nat
  /\ (count_events is_transform (trace s')
      = count_events is_transform (trace s) + presses "t" (keys_read keys))%nat.
Proof.
  rewrite run_live_edit_unfold. intros Hrun.
  destruct (loop_saves _ _ _ _ _ _ _ Hrun) as [Hs Ht].
  unfold add_trace in Hs, Ht. simpl in Hs, Ht.
  rewrite count_events_app in Hs, Ht. simpl in Hs, Ht.
  unfold count_events at 3 in Hs. unfold count_events at 3 in Ht. simpl in Hs, Ht.
  split; lia.
Qed.

Lemma live_edit_saves_every_transform_witness :
  (count_events is_save
     (trace (snd (run_live_edit working_sdk box_prim (stUrl box_stage)
                    ["t"; "x"; "t"; "q"; "t"] (state_with_stage box_stage []))))
   = 0 + presses "t" (keys_read ["t"; "x"; "t"; "q"; "t"]))%nat
  /\ presses "t" (keys_read ["t"; "x"; "t"; "q"; "t"]) = 2%nat.
Proof.
  split; [|reflexivity].
  apply (live_edit_saves_every_transform working_sdk box_prim (stUrl box_stage)
           ["t"; "x"; "t"; "q"; "t"] (state_with_stage box_stage []) _
           (Finished (mkLoopVars 30 (Some (mkRequest 1))))).
  vm_compute. reflexivity.
Defined.

Lemma loop_left (prim : HPrim) (url : string) (keys : list string) :
  forall (v : LoopVars) (s : State),
    join_request v = None ->
    count_events is_send (trace (snd (live_edit_loop prim url keys v s)))
    = count_events is_send (trace s)
    /\ count_events is_stop (trace (snd (live_edit_loop prim url keys v s)))
       = count_events is_stop (trace s).
Proof.
  induction keys as [|k rest IH]; intros v s Hnone; [split; reflexivity|].
  rewrite loop_unfold.
  destruct (iteration_events prim url k v s) as (Hstop & _ & Hsend & Hret).
  specialize (Hsend Hnone). rewrite Hnone in Hstop.
  rewrite (bool_decide_eq_false_2 (None <> None)) in Hstop by (intros H; now apply H).
  rewrite andb_false_r, Nat.add_0_r in Hstop.
  destruct (live_edit_iteration prim url k v s) as [[[v'|v']|arg|e] s1];
    simpl in *; auto.
  destruct (Hret _ eq_refl) as (Hjr & _). simpl in Hjr.
  assert (Hnone' : join_request v' = None)
    by (rewrite Hjr, Hnone; destruct (bool_decide (k = "l")); reflexivity).
  destruct (IH v' s1 Hnone') as [IHsend IHstop]. split; congruence.
Qed.

Lemma loop_stops_once (prim : HPrim) (url : string) (keys : list string) :
  forall (v : LoopVars) (s : State),
    (count_events is_stop (trace (snd (live_edit_loop prim url keys v s)))
     <= count_events is_stop (trace s) + 1)%nat.
Proof.
  induction keys as [|k rest IH]; intros v s; [simpl; lia|].
  rewrite loop_unfold.
  destruct (iteration_events prim url k v s) as (Hstop & _ & _ & Hret).
  destruct (live_edit_iteration prim url k v s) as [[[v'|v']|arg|e] s1];
    simpl in *; try (destruct (_ && _); lia).
  destruct (Hret _ eq_refl) as (Hjr & _). simpl in Hjr.
  destruct (bool_decide (k = "l")); simpl in Hstop.
  - destruct (loop_left prim url rest v' s1 Hjr) as [_ Hsame].
    rewrite Hsame, Hstop. destruct (bool_decide _); lia.
  - specialize (IH v' s1). lia.
Qed.

Lemma loop_app (prim : HPrim) (url : string) (a b : list string) :
  forall (v : LoopVars) (s : State),
    live_edit_loop prim url (a ++ b) v s
    = match live_edit_loop prim url a v s with
      | (Returned (Blocked v'), s') => live_edit_loop prim url b v' s'
      | r => r
      end.
Proof.
  induction a as [|k a IH]; intros v s; [reflexivity|].
  rewrite <- app_comm_cons, !loop_unfold.
  destruct (live_edit_iteration prim url k v s) as [[[v'|v']|arg|e] s1];
    try reflexivity.
  apply IH.
Qed.

(** X9: The channel request is stopped at most once in a run, and once the
    channel has been left with b'l' no message is sent any more: the
    characters after the b'l' add no send to the trace. *)
Theorem live_edit_leaves_channel_for_good (sdk : Sdk) (prim : HPrim) (url : string)
    (s : State) :
  (forall keys,
     (count_events is_stop (trace (snd (run_live_edit sdk prim url keys s)))
      <= count_events is_stop (trace s) + 1)%nat)
  /\ (forall pre post,
        count_events is_send
          (trace (snd (run_live_edit sdk prim url (pre ++ "l" :: post) s)))
        = count_events is_send
            (trace (snd (run_live_edit sdk prim url (pre ++ ["l"]) s)))).
Proof.
  split.
  - intros keys. rewrite run_live_edit_unfold.
    etransitivity; [apply loop_stops_once|].
    unfold add_trace. simpl. rewrite count_events_app.
    unfold count_events at 2. simpl. lia.
  - intros pre post. rewrite !run_live_edit_unfold.
    change (pre ++ "l" :: post) with (pre ++ ["l"] ++ post).
    rewrite app_assoc, (loop_app prim url (pre ++ ["l"]) post).
    match goal with
    | |- context [live_edit_loop prim url (pre ++ ["l"]) ?v0 ?s0] =>
        pose proof (loop_app prim url pre ["l"] v0 s0) as Happ;
        destruct (live_edit_loop prim url (pre ++ ["l"]) v0 s0)
          as [[[v'|v']|arg|e] s'] eqn:Hrun; try reflexivity;
        destruct (live_edit_loop prim url pre v0 s0) as [[[v1|v1]|arg1|e1] s1];
          try discriminate
    end.
    rewrite loop_unfold, iteration_l in Happ. simpl in Happ.
    unfold ret in Happ. simplify_eq.
    apply (loop_left prim url post). reflexivity.
Qed.

(** X10: With the channel joined, b'm' needs a line of ASCII text on the
    input: at the end of the input the loop dies of [EOFError], and on a
    line with a byte above 127 of [UnicodeEncodeError] with the line
    used up; either way nothing is sent and no later character is read. *)
Theorem live_edit_message_failures (prim : HPrim) (url : string) (rest_keys : list string)
    (v : LoopVars) (s : State) (req : Request) :
  join_request v = Some req ->
  (stdin_lines s = [] ->
   live_edit_loop prim url ("m" :: rest_keys) v s
   = (Raised EOFError,
      add_trace s [E_live_process; E_log INFO "Enter a channel message: "]))
  /\ (forall line rest,
        stdin_lines s = line :: rest ->
        is_ascii line = false ->
        live_edit_loop prim url ("m" :: rest_keys) v s
        = (Raised UnicodeEncodeError,
           mkState (globals s) (checkpoint_message s) rest
             (trace s ++ [E_live_process; E_log INFO "Enter a channel message: "]))).
Proof.
  intros Hreq. split.
  - intros Hin. rewrite loop_unfold. unfold live_edit_iteration.
    rewrite bool_decide_eq_false_2 by discriminate.
    rewrite bool_decide_eq_true_2 by reflexivity.
    rewrite Hreq. unfold_script. simpl. rewrite Hin. simpl.
    rewrite <- !app_assoc. reflexivity.
  - intros line rest Hin Hascii. rewrite loop_unfold. unfold live_edit_iteration.
    rewrite bool_decide_eq_false_2 by discriminate.
    rewrite bool_decide_eq_true_2 by reflexivity.
    rewrite Hreq. unfold_script. simpl. rewrite Hin, Hascii. simpl.
    rewrite <- !app_assoc. reflexivity.
Qed.

Lemma live_edit_message_failures_witness :
  fst (live_edit_loop box_prim (stUrl box_stage) ["m"; "t"]
         (mkLoopVars 0 (Some (mkRequest 1))) (state_with_stage box_stage []))
  = Raised EOFError
  /\ fst (live_edit_loop box_prim (stUrl box_stage) ["m"; "t"]
            (mkLoopVars 0 (Some (mkRequest 1)))
            (state_with_stage box_stage [non_ascii_line]))
     = Raised UnicodeEncodeError.
Proof.
  split.
  - rewrite (proj1 (live_edit_message_failures box_prim (stUrl box_stage) ["t"]
                      (mkLoopVars 0 (Some (mkRequest 1)))
                      (state_with_stage box_stage []) (mkRequest 1) eq_refl) eq_refl).
    reflexivity.
  - rewrite (proj2 (live_edit_message_failures box_prim (stUrl box_stage) ["t"]
                      (mkLoopVars 0 (Some (mkRequest 1)))
                      (state_with_stage box_stage [non_ascii_line]) (mkRequest 1) eq_refl)
               non_ascii_line [] eq_refl eq_refl).
    reflexivity.
Defined.

End HelloWorldMore.

(** * The checkpoint message of [save_stage] *)

Section CheckpointFacts.

Import HelloWorld HelloWorldMain.
Local Open Scope list_scope.


Ltac unfold_calls :=
  unfold LOGGER, emit, read_global, input, encode_ascii, bind, modify, ret, raise,
    add_trace.

Lemma replay_message_app (m : string) (a b : list Event) :
  replay_message m (a ++ b) = replay_message (replay_message m a) b.
Proof.
  revert m. induction a as [|e a IH]; intros m; [reflexivity|].
  destruct e; simpl; apply IH.
Qed.

Lemma saves_under_app (m : string) (a b : list Event) :
  saves_under m (a ++ b) = saves_under m a ++ saves_under (replay_message m a) b.
Proof.
  revert m. induction a as [|e a IH]; intros m; [reflexivity|].
  destruct e; simpl; rewrite ?IH; reflexivity.
Qed.

Lemma adds_saves_refl (s : State) : adds_saves s s [].
Proof. exists []. rewrite app_nil_r. auto. Qed.

Lemma adds_saves_trans (s s1 s2 : State) (a b : list string) :
  adds_saves s s1 a -> adds_saves s1 s2 b -> adds_saves s s2 (a ++ b).
Proof.
  intros (ta & Ha & Hsa & Hra) (tb & Hb & Hsb & Hrb).
  exists (ta ++ tb). rewrite Hb, Ha, app_assoc, saves_under_app, replay_message_app.
  rewrite Hra, Hsa, Hsb, Hrb. auto.
Qed.

Lemma adds_saves_quiet (s : State) (evs : list Event) :
  saves_under EmptyString evs = [] ->
  replay_message EmptyString evs = EmptyString ->
  adds_saves s (add_trace s evs) [].
Proof. intros Hs Hr. exists evs. auto. Qed.

Lemma iteration_adds_saves (prim : HPrim) (url k : string) (v : LoopVars) (s s' : State)
    (ctl : Ctl) :
  checkpoint_message s = EmptyString ->
  live_edit_iteration prim url k v s = (Returned ctl, s') ->
  checkpoint_message s' = EmptyString
  /\ adds_saves s s' (if bool_decide (k = "t") then [EmptyString] else []).
Proof.
  intros Hc. unfold adds_saves.
  unfold live_edit_iteration, save_stage, set_checkpoint_message. unfold_calls. simpl.
  repeat case_bool_decide; simpl;
    repeat (case_match; simpl in *; simplify_eq); intros Heq; simplify_eq; simpl;
    rewrite <- ?app_assoc; simpl; (split; [auto|]);
    eexists; (split; [reflexivity|]); simpl; auto.
Qed.

Lemma loop_adds_saves (prim : HPrim) (url : string) (keys : list string) :
  forall (v : LoopVars) (s s' : State) (st : LoopStatus),
    checkpoint_message s = EmptyString ->
    live_edit_loop prim url keys v s = (Returned st, s') ->
    checkpoint_message s' = EmptyString
    /\ adds_saves s s' (replicate (presses "t" (keys_read keys)) EmptyString).
Proof.
  induction keys as [|k rest IH]; intros v s s' st Hc Hrun.
  - simpl in Hrun. unfold ret in Hrun. simplify_eq.
    split; [exact Hc | apply adds_saves_refl].
  - rewrite loop_unfold in Hrun. cbn [keys_read].
    destruct (live_edit_iteration prim url k v s) as [[ctl|arg|e] s1] eqn:Hit;
      try discriminate.
    destruct (iteration_adds_saves _ _ _ _ _ _ _ Hc Hit) as [Hc1 Hadd].
    destruct (is_quit k) eqn:Hq.
    + pose proof Hq as Hq'. apply is_quit_spec in Hq'.
      rewrite (iteration_quit _ _ _ _ _ Hq') in Hit. simplify_eq.
      split; [exact Hc1|].
      rewrite presses_cons. change (presses "t" []) with 0%nat.
      rewrite Nat.add_0_r.
      destruct (bool_decide (k = "t")); exact Hadd.
    + destruct ctl as [v'|v'].
      * destruct (IH _ _ _ _ Hc1 Hrun) as [Hc' Hadd'].
        split; [exact Hc'|].
        rewrite presses_cons, replicate_add.
        eapply adds_saves_trans; [|exact Hadd'].
        destruct (bool_decide (k = "t")); exact Hadd.
      * destruct (iteration_returned _ _ _ _ _ _ _ Hit)
          as [[_ Hctl]|[_ [_ [[_ Hq']|[v2 Hctl]]]]]; try discriminate.
        apply is_quit_spec in Hq'. congruence.
Qed.

Lemma op_adds_saves (sdk : Sdk) (o : Op) (s s' : State) (go : bool) :
  checkpoint_message s = EmptyString ->
  run_op sdk o s = (Returned go, s') ->
  checkpoint_message s' = EmptyString /\ adds_saves s s' (op_comments o).
Proof.
  intros Hc. destruct o as [| |url status|dest existing|prim dynamic|url comment
                            |url|path|prim url keys]; cbn [run_op op_comments];
    unfold bind.
  - destruct (globals s !! "logging_enabled") as [le|] eqn:Hle.
    + rewrite (startOmniverse_run sdk s le Hle).
      destruct (initialize_ok sdk); [|discriminate]. unfold ret. intros Heq.
      simplify_eq. split; [exact Hc|]. apply adds_saves_quiet;
        destruct (truthy le); reflexivity.
    + unfold startOmniverse. unfold_calls. simpl. rewrite Hle. discriminate.
  - rewrite shutdownOmniverse_run. unfold ret. intros Heq. simplify_eq.
    split; [exact Hc|]. apply adds_saves_quiet; reflexivity.
  - destruct status; unfold connectionStatusCallback, sys_exit, ret; simpl;
      intros Heq; simplify_eq; (split; [exact Hc | apply adds_saves_refl]).
  - rewrite main_check_urls_run. unfold ret. intros Heq. simplify_eq.
    split; [exact Hc|].
    apply adds_saves_quiet;
      destruct (str_truthy dest && negb (isValidOmniUrl sdk dest));
      destruct existing as [url|];
      try destruct (str_truthy url && negb (isValidOmniUrl sdk url)); reflexivity.
  - rewrite enablePhysics_run.
    destruct (collision_apply_raises sdk prim); [discriminate|].
    destruct (collision_api_ok sdk prim); [|discriminate].
    unfold ret. intros Heq. simplify_eq. split; [exact Hc|].
    apply adds_saves_quiet; destruct dynamic, (IsA prim UsdGeom_Mesh); reflexivity.
  - destruct (globals s !! "g_stage") as [[|b|h|st]|] eqn:Hg;
      try (unfold save_stage, set_checkpoint_message; unfold_calls; simpl;
           rewrite Hg; discriminate).
    rewrite (save_stage_run url comment s st Hg). unfold ret. intros Heq.
    simplify_eq. split; [reflexivity|].
    eexists. split; [reflexivity|]. split; reflexivity.
  - rewrite findGeomMesh_run.
    destruct (stage_open_raises sdk url); [discriminate|].
    destruct (stage_open sdk url) as [st|]; [|discriminate].
    destruct (List.find _ (stPrims st)); [|discriminate].
    unfold ret. intros Heq. simplify_eq. split; [exact Hc|].
    eexists. split; [reflexivity|]. split; reflexivity.
  - rewrite createEmptyFolder_run. unfold ret. intros Heq. simplify_eq.
    split; [exact Hc|]. apply adds_saves_quiet; reflexivity.
  - rewrite run_live_edit_unfold.
    match goal with
    | |- context [live_edit_loop prim url keys ?v0 ?s0] =>
        destruct (live_edit_loop prim url keys v0 s0) as [[st|arg|e] s1] eqn:Hloop
    end; try discriminate.
    intros Heq.
    apply loop_adds_saves in Hloop; [|exact Hc]. destruct Hloop as [Hc1 Hadd].
    assert (s1 = s') as <- by (destruct st; unfold ret in Heq; simplify_eq; reflexivity).
    split; [exact Hc1|].
    eapply (adds_saves_trans _ _ _ []); [|exact Hadd].
    apply adds_saves_quiet; reflexivity.
Qed.

Lemma ops_adds_saves (sdk : Sdk) (ops : list Op) :
  forall s s' : State,
    checkpoint_message s = EmptyString ->
    run_ops sdk ops s = (Returned true, s') ->
    checkpoint_message s' = EmptyString
    /\ adds_saves s s' (concat (map op_comments ops)).
Proof.
  induction ops as [|o rest IH]; intros s s' Hc Hrun.
  - simpl in Hrun. unfold ret in Hrun. simplify_eq.
    split; [exact Hc | apply adds_saves_refl].
  - cbn [run_ops] in Hrun. unfold bind in Hrun.
    destruct (run_op sdk o s) as [[go|arg|e] s1] eqn:Hop; try discriminate.
    destruct (op_adds_saves _ _ _ _ _ Hc Hop) as [Hc1 Hadd].
    destruct go; [|unfold ret in Hrun; discriminate].
    destruct (IH _ _ Hc1 Hrun) as [Hc' Hadd'].
    split; [exact Hc'|]. simpl. eapply adds_saves_trans; eassumption.
Qed.

(** C9, as the claim states it, fails: called while [g_stage] is [None],
    as the module level binds it, [save_stage] sets the checkpoint message
    to the comment and dies of an [AttributeError] at
    [g_stage.GetEditTarget()]; the message was empty before the call and
    is the comment after it, since nothing resets it on the way out. *)
Lemma save_stage_leaks_comment :
  checkpoint_message (initial_state false) = EmptyString
  /\ globals (initial_state false) !! "g_stage" = Some PyNone
  /\ fst (save_stage (stUrl box_stage) "Created a box." (initial_state false))
     = Raised AttributeError
  /\ checkpoint_message
       (snd (save_stage (stUrl box_stage) "Created a box." (initial_state false)))
     = "Created a box.".
Proof. vm_compute. auto. Qed.

(** C9, amended: with a stage open, [save_stage] returns for every comment
    after exactly these calls: the checkpoint message is set to the
    comment, the layer of the edit target is saved, the checkpoint message
    is set to the empty string, and [live_process] is called; the layer is
    saved while the comment is the message, whatever the message was
    before, and the message is empty afterwards. The reset is not
    unconditional: while [g_stage] is [None] the call sets the message to
    the comment and raises [AttributeError], leaving the comment in place.
    Since nothing else sets the message, a sequence of calls of the script
    that starts with it empty leaves it empty unless the sequence died of
    that [AttributeError]; and a sequence that runs to its end has saved
    the layer under exactly the comments handed to [save_stage], in order
    (the empty default for every transform of a live edit). *)
Theorem save_stage_clears_checkpoint (sdk : Sdk) :
  (forall url comment s st,
     globals s !! "g_stage" = Some (PyStage st) ->
     save_stage url comment s
     = (Returned tt,
        mkState (globals s) EmptyString (stdin_lines s)
          (trace s ++ [E_set_checkpoint_message comment; E_layer_save (stEditLayer st);
                       E_set_checkpoint_message EmptyString; E_live_process]))
     /\ saves_under (checkpoint_message s)
          [E_set_checkpoint_message comment; E_layer_save (stEditLayer st);
           E_set_checkpoint_message EmptyString; E_live_process]
        = [comment])
  /\ (forall url comment s,
        globals s !! "g_stage" = Some PyNone ->
        save_stage url comment s
        = (Raised AttributeError,
           mkState (globals s) comment (stdin_lines s)
             (trace s ++ [E_set_checkpoint_message comment])))
  /\ (forall ops s,
        checkpoint_message s = EmptyString ->
        is_Some (globals s !! "g_stage") ->
        fst (run_ops sdk ops s) = Raised AttributeError
        \/ checkpoint_message (snd (run_ops sdk ops s)) = EmptyString)
  /\ (forall ops s s',
        checkpoint_message s = EmptyString ->
        run_ops sdk ops s = (Returned true, s') ->
        checkpoint_message s' = EmptyString
        /\ exists added,
             trace s' = trace s ++ added
             /\ saves_under EmptyString added = concat (map op_comments ops)).
Proof.
  split; [|split; [|split]].
  - intros url comment s st Hst. split; [apply save_stage_run; exact Hst | reflexivity].
  - intros url comment s Hnone.
    unfold save_stage, set_checkpoint_message. unfold_calls. simpl.
    rewrite Hnone. reflexivity.
  - intros ops s Hc Hg.
    destruct (ops_checkpoint sdk ops s (conj Hc Hg)) as [H|[H _]]; auto.
  - intros ops s s' Hc Hrun.
    destruct (ops_adds_saves sdk ops s s' Hc Hrun) as [Hc' (added & Ht & Hs & _)].
    split; [exact Hc'|]. exists added. auto.
Qed.

Lemma save_stage_clears_checkpoint_witness :
  checkpoint_message
    (snd (save_stage (stUrl box_stage) "Created a box." (state_with_stage box_stage [])))
  = EmptyString
  /\ fst (save_stage (stUrl box_stage) "Created a box." (initial_state false))
     = Raised AttributeError
  /\ fst (run_ops working_sdk example_ops (initial_state false)) = Returned true
  /\ checkpoint_message (snd (run_ops working_sdk example_ops (initial_state false)))
     = EmptyString
  /\ exists added,
       trace (snd (run_ops working_sdk example_ops (initial_state false)))
       = trace (initial_state false) ++ added
       /\ saves_under EmptyString added
          = ["Created a box."; EmptyString; "Added material to box."].
Proof.
  destruct (save_stage_clears_checkpoint working_sdk) as (Hsave & Hnone & Hops & Hend).
  assert (Hrun : run_ops working_sdk example_ops (initial_state false)
                 = (Returned true,
                    snd (run_ops working_sdk example_ops (initial_state false))))
    by (vm_compute; reflexivity).
  split; [|split; [|split; [|split]]].
  - destruct (Hsave (stUrl box_stage) "Created a box." (state_with_stage box_stage [])
                box_stage eq_refl) as [Heq _].
    rewrite Heq. reflexivity.
  - rewrite (Hnone (stUrl box_stage) "Created a box." (initial_state false) eq_refl).
    reflexivity.
  - rewrite Hrun. reflexivity.
  - destruct (Hops example_ops (initial_state false) eq_refl
                (ex_intro _ PyNone eq_refl)) as [Hraise|Hclean].
    + rewrite Hrun in Hraise. discriminate.
    + exact Hclean.
  - destruct (Hend example_ops (initial_state false) _ eq_refl Hrun)
      as [_ (added & Ht & Hs)].
    exists added. split; [exact Ht|]. rewrite Hs. reflexivity.
Defined.

End CheckpointFacts.

(** ** The box tables and the main block of helloWorld.py *)

Section HelloWorldMainFacts.

Import HelloWorld HelloWorldMain.
Local Open Scope list_scope.

(** X11: The tables of the box mesh fit together: 12 faces of 3 vertices use
    up the 36 vertex indices, every index names one of the 24 points and
    every point is named; there is one normal and one UV pair per point;
    and the three vertices of every face carry the same normal and lie
    on the plane at distance [h] along it. *)
Theorem box_tables_consistent :
  length boxPoints = 24%nat
  /\ length boxNormals = length boxPoints
  /\ length boxUVs = length boxPoints
  /\ length boxVertexCounts = 12%nat
  /\ foldr Nat.add 0%nat boxVertexCounts = length boxVertexIndices
  /\ forallb (fun i => (i <? length boxPoints)%nat) boxVertexIndices = true
  /\ forallb (fun i => bool_decide (i ∈ boxVertexIndices)) (seq 0 (length boxPoints)) = true
  /\ forallb face_ok (faces boxVertexCounts boxVertexIndices) = true.
Proof. split_and!; vm_compute; reflexivity. Qed.

(** *** The main block *)

Lemma bind_ext_at {S A B : Type} (c : M S A) (k k' : A -> M S B) (s : S) :
  (forall a s', c s = (Returned a, s') -> k a s' = k' a s') ->
  bind c k s = bind c k' s.
Proof.
  intros H. unfold bind. destruct (c s) as [[a|arg|e] s']; auto.
Qed.

Lemma bind_not_returned {S A B : Type} (c : M S A) (k : A -> M S B) (s : S) :
  (forall a, fst (c s) <> Returned a) ->
  forall b, fst (bind c k s) <> Returned b.
Proof.
  intros H b. unfold bind. pose proof (H) as H'.
  destruct (c s) as [[a|arg|e] s']; simpl in *; try discriminate.
  exfalso. exact (H a eq_refl).
Qed.

Lemma bind_returned_inv {S A B : Type} (c : M S A) (k : A -> M S B) (s : S) :
  (forall a s', c s = (Returned a, s') -> forall b, fst (k a s') <> Returned b) ->
  forall b, fst (bind c k s) <> Returned b.
Proof.
  intros H b. unfold bind.
  destruct (c s) as [[a|arg|e] s']; simpl; try discriminate.
  exact (H a s' eq_refl b).
Qed.

Lemma bind_run {S A B : Type} (c : M S A) (k : A -> M S B) (s s' : S) (a : A) :
  c s = (Returned a, s') -> bind c k s = k a s'.
Proof. intros H. unfold bind. now rewrite H. Qed.

Lemma resolve_destination_given (server : string -> option string) (args : Args)
    (s : State) :
  opt_truthy (arg_existing args) = true \/ str_truthy (arg_path args) = true ->
  resolve_destination server args s = (Returned (arg_path args), s).
Proof.
  intros H. unfold resolve_destination.
  destruct H as [-> | ->]; rewrite ?andb_false_r; reflexivity.
Qed.

Lemma open_existing_fail_exits (sdk : Sdk) (cube : string -> Z -> M State unit)
    (url : string) (s : State) :
  forall r, fst (open_existing sdk cube url true s) <> Returned r.
Proof.
  unfold open_existing.
  apply bind_returned_inv. intros _ s1 _.
  apply bind_returned_inv. intros mesh s2 _.
  apply bind_not_returned.
  apply bind_returned_inv. intros _ s3 _.
  apply bind_returned_inv. intros _ s4 _.
  intros a. discriminate.
Qed.

(** X12: With [-e] and an existing stage, the main block creates nothing and
    asks the server for no user name, and it edits live whether or not
    [-l] was given: the run is the same for every creation pipeline,
    every server answer and either value of the flag. *)
Theorem main_existing_stage
    (sdk : Sdk) (server server' : string -> option string)
    (create create' : string -> bool -> bool -> M State (string * option HPrim))
    (cube : string -> Z -> M State unit)
    (args : Args) (keys : list string) (s : State) :
  opt_truthy (arg_existing args) = true ->
  main sdk server create cube args keys s
  = main sdk server' create' cube (with_live true args) keys s.
Proof.
  intros He. unfold main. simpl. rewrite He, orb_true_r.
  apply bind_ext_at. intros _ s1 _.
  apply bind_ext_at. intros _ s2 _.
  etransitivity;
    [apply bind_run; apply resolve_destination_given; left; exact He|].
  symmetry.
  etransitivity;
    [apply bind_run; apply resolve_destination_given; left; exact He|].
  destruct (arg_existing args) as [url|]; [|discriminate].
  simpl in He. rewrite He. reflexivity.
Qed.

Lemma main_existing_stage_witness :
  main working_sdk silent_server (fun _ _ _ => raise TypeError)
    (fun _ _ => ret tt) (existing_args false) ["t"; "q"] (initial_state false)
  = main working_sdk test_server (fun url _ _ => ret (url, None))
      (fun _ _ => ret tt) (with_live true (existing_args false)) ["t"; "q"]
      (initial_state false)
  /\ fst (main working_sdk silent_server (fun _ _ _ => raise TypeError)
            (fun _ _ => ret tt) (existing_args false) ["t"; "q"] (initial_state false))
     = Returned true.
Proof.
  split.
  - apply main_existing_stage. reflexivity.
  - vm_compute. reflexivity.
Defined.

(** X13: With [-e] and [-f] the main block never gets to the live edit: it
    reads no character (the run is the same for every sequence of
    characters) and it does not return, ending at the latest in the
    [sys.exit()] after the shutdown. *)
Theorem main_existing_fail_exits
    (sdk : Sdk) (server : string -> option string)
    (create : string -> bool -> bool -> M State (string * option HPrim))
    (cube : string -> Z -> M State unit)
    (args : Args) (keys : list string) (s : State) :
  opt_truthy (arg_existing args) = true ->
  arg_fail args = true ->
  (forall keys',
     main sdk server create cube args keys s = main sdk server create cube args keys' s)
  /\ (forall b, fst (main sdk server create cube args keys s) <> Returned b).
Proof.
  intros He Hf.
  destruct (arg_existing args) as [url|] eqn:Hurl; [|discriminate]. simpl in He.
  split.
  - intros keys'. unfold main. rewrite Hurl, Hf. simpl. rewrite He.
    apply bind_ext_at. intros _ s1 _.
    apply bind_ext_at. intros _ s2 _.
    apply bind_ext_at. intros dest s3 _.
    apply bind_ext_at. intros _ s4 _.
    apply bind_ext_at. intros scene s5 Hscene.
    exfalso. apply (open_existing_fail_exits sdk cube url s4 scene).
    now rewrite Hscene.
  - unfold main. rewrite Hurl, Hf. simpl. rewrite He.
    apply bind_returned_inv. intros _ s1 _.
    apply bind_returned_inv. intros _ s2 _.
    apply bind_returned_inv. intros dest s3 _.
    apply bind_returned_inv. intros _ s4 _.
    apply bind_not_returned. apply open_existing_fail_exits.
Qed.

Lemma main_existing_fail_exits_witness :
  main working_sdk silent_server (fun _ _ _ => raise TypeError)
    (fun _ _ => ret tt) (existing_args true) ["t"; "q"] (initial_state false)
  = main working_sdk silent_server (fun _ _ _ => raise TypeError)
      (fun _ _ => ret tt) (existing_args true) [] (initial_state false)
  /\ fst (main working_sdk silent_server (fun _ _ _ => raise TypeError)
            (fun _ _ => ret tt) (existing_args true) ["t"; "q"] (initial_state false))
     = SysExit ExitNone.
Proof.
  split.
  - apply (main_existing_fail_exits working_sdk silent_server
             (fun _ _ _ => raise TypeError) (fun _ _ => ret tt)
             (existing_args true) ["t"; "q"] (initial_state false));
      reflexivity.
  - vm_compute. reflexivity.
Defined.

Lemma str_truthy_spec (x : string) : str_truthy x = true <-> x <> EmptyString.
Proof.
  unfold str_truthy. rewrite negb_true_iff, bool_decide_eq_false. reflexivity.
Qed.

(** X14: Without an existing stage the scene is never created at an empty
    destination: [resolve_destination] answers the path given with
    [-p], or, when none was given, the folder of the connected user
    under "omniverse://localhost/Users"; when the server names no user
    (no server info, or an empty name) it exits with status -1. *)
Theorem creation_destination_never_empty (server : string -> option string)
    (args : Args) (s : State) :
  opt_truthy (arg_existing args) = false ->
  match fst (resolve_destination server args s) with
  | Returned d =>
      d <> EmptyString
      /\ (d = arg_path args
          \/ exists name, server users_folder = Some name /\ name <> EmptyString
                          /\ arg_path args = EmptyString
                          /\ d = users_folder +:+ "/" +:+ name)
  | SysExit arg =>
      arg = ExitCode (-1)
      /\ arg_path args = EmptyString
      /\ (server users_folder = None \/ server users_folder = Some EmptyString)
  | Raised _ => False
  end.
Proof.
  intros He. unfold resolve_destination. rewrite He. simpl.
  destruct (str_truthy (arg_path args)) eqn:Hp; simpl.
  - apply str_truthy_spec in Hp. auto.
  - assert (Hempty : arg_path args = EmptyString).
    { destruct (decide (arg_path args = EmptyString)) as [H|H]; [exact H|].
      apply str_truthy_spec in H. congruence. }
    unfold logConnectedUsername, cannot_access, LOGGER, emit, bind, modify, ret, sys_exit.
    simpl. destruct (server users_folder) as [name|] eqn:Hs; simpl.
    + destruct (str_truthy name) eqn:Hn; simpl.
      * apply str_truthy_spec in Hn. split; [discriminate|].
        right. exists name. auto.
      * split; [reflexivity|]. split; [exact Hempty|]. right.
        destruct (decide (name = EmptyString)) as [->|H]; [reflexivity|].
        apply str_truthy_spec in H. congruence.
    + auto.
Qed.

Lemma creation_destination_never_empty_witness :
  fst (resolve_destination test_server (mkArgs false EmptyString false None false)
         (initial_state false))
  = Returned "omniverse://localhost/Users/test"
  /\ "omniverse://localhost/Users/test" <> EmptyString
  /\ fst (resolve_destination silent_server (mkArgs false EmptyString false None false)
            (initial_state false))
     = SysExit (ExitCode (-1)).
Proof.
  pose proof (creation_destination_never_empty test_server
                (mkArgs false EmptyString false None false) (initial_state false) eq_refl)
    as Hnamed.
  pose proof (creation_destination_never_empty silent_server
                (mkArgs false EmptyString false None false) (initial_state false) eq_refl)
    as Hsilent.
  destruct (fst (resolve_destination test_server _ _)) as [d|arg|e] eqn:Hr;
    vm_compute in Hr; simplify_eq.
  destruct (fst (resolve_destination silent_server _ _)) as [d|arg|e] eqn:Hr';
    vm_compute in Hr'; simplify_eq.
  destruct Hnamed as [Hne _]. destruct Hsilent as [Hcode _].
  split; [reflexivity|]. split; [exact Hne | exact (f_equal SysExit Hcode)].
Defined.

Lemma bind_returned {S A B : Type} (c : M S A) (k : A -> M S B) (s s' : S) (b : B) :
  bind c k s = (Returned b, s') ->
  exists a s1, c s = (Returned a, s1) /\ k a s1 = (Returned b, s').
Proof.
  unfold bind. destruct (c s) as [[a|arg|e] s1]; try discriminate.
  intros H. exists a, s1. auto.
Qed.

(** X15: The main block comes to its end only through the shutdown: when it
    returns, the last two calls were [live_wait_for_pending_updates]
    and [shutdown]; and it is left waiting for a character only when
    live editing was asked for with [-l] or [-e]. *)
Theorem main_returns_after_shutdown
    (sdk : Sdk) (server : string -> option string)
    (create : string -> bool -> bool -> M State (string * option HPrim))
    (cube : string -> Z -> M State unit)
    (args : Args) (keys : list string) (s s' : State) (b : bool) :
  main sdk server create cube args keys s = (Returned b, s') ->
  if b
  then exists s0, s' = add_trace s0 [E_live_wait_for_pending_updates; E_shutdown]
  else arg_live args || opt_truthy (arg_existing args) = true.
Proof.
  unfold main. intros H.
  apply bind_returned in H as (_ & s1 & _ & H).
  apply bind_returned in H as (_ & s2 & _ & H).
  apply bind_returned in H as (dest & s3 & _ & H).
  apply bind_returned in H as (_ & s4 & _ & H).
  apply bind_returned in H as (scene & s5 & _ & H).
  destruct (snd scene) as [mesh|]; [|discriminate].
  apply bind_returned in H as (_ & s6 & _ & H).
  apply bind_returned in H as (go & s7 & Hgo & H).
  destruct go.
  - apply bind_returned in H as (u & s8 & Hshut & H).
    unfold ret in H. rewrite shutdownOmniverse_run in Hshut.
    simplify_eq. exists s7. reflexivity.
  - unfold ret in H. simplify_eq.
    destruct (arg_live args || opt_truthy (arg_existing args)); [reflexivity|].
    discriminate.
Qed.

Lemma main_returns_after_shutdown_witness :
  exists s0,
    snd (main working_sdk silent_server (fun _ _ _ => raise TypeError)
           (fun _ _ => ret tt) (existing_args false) ["t"; "q"] (initial_state false))
    = add_trace s0 [E_live_wait_for_pending_updates; E_shutdown].
Proof.
  apply (main_returns_after_shutdown working_sdk silent_server
           (fun _ _ _ => raise TypeError) (fun _ _ => ret tt)
           (existing_args false) ["t"; "q"] (initial_state false) _ true).
  vm_compute. reflexivity.
Defined.

End HelloWorldMainFacts.

(** ** The tests of test_all.py *)

Section TestSuiteFacts.

Import TestAll TestSuite.
Local Open Scope list_scope.

Lemma splitlines_from_sub (n : nat) :
  forall (s cur line : string),
    (String.length s <= n)%nat ->
    In line (splitlines_from cur s) ->
    exists pre post, cur +:+ s = pre +:+ line +:+ post.
Proof.
  induction n as [|n IH]; intros s cur line Hlen Hin.
  - destruct s; [|simpl in Hlen; lia]. simpl in Hin.
    case_bool_decide; simpl in Hin; [contradiction|].
    destruct Hin as [<-|[]]. exists EmptyString, EmptyString.
    now rewrite !string_app_nil_r.
  - destruct s as [|c rest].
    + simpl in Hin. case_bool_decide; simpl in Hin; [contradiction|].
      destruct Hin as [<-|[]]. exists EmptyString, EmptyString.
      now rewrite !string_app_nil_r.
    + simpl in Hlen.
      assert (Hhead : forall tail sep,
                 String c rest = sep +:+ tail ->
                 (String.length tail <= n)%nat ->
                 In line (cur :: splitlines_from EmptyString tail) ->
                 exists pre post, cur +:+ String c rest = pre +:+ line +:+ post).
      { intros tail sep Heq Htail [<-|Hin'].
        - exists EmptyString, (String c rest). reflexivity.
        - destruct (IH tail EmptyString line Htail Hin') as (pre & post & Hsub).
          change (EmptyString +:+ tail) with tail in Hsub.
          exists (cur +:+ sep +:+ pre), post.
          rewrite Heq, Hsub, !string_app_assoc. reflexivity. }
      assert (Hgrow : In line (splitlines_from (cur +:+ String c EmptyString) rest) ->
                 exists pre post, cur +:+ String c rest = pre +:+ line +:+ post).
      { intros Hin'.
        destruct (IH rest _ line ltac:(lia) Hin') as (pre & post & Hsub).
        exists pre, post. rewrite <- Hsub, string_app_assoc. reflexivity. }
      cbn [splitlines_from] in Hin.
      repeat (case_match; simplify_eq);
        try (apply Hgrow; assumption);
        try (apply (Hhead rest (String c EmptyString)); [reflexivity|lia|assumption]).
      all: match goal with
           | H : In _ (_ :: splitlines_from EmptyString ?tail) |- _ =>
               first
                 [ eapply (Hhead tail (String c EmptyString));
                   [reflexivity | simpl in Hlen |- *; lia | exact H]
                 | eapply (Hhead tail (String c (String _ EmptyString)));
                   [reflexivity | simpl in Hlen |- *; lia | exact H]
                 | eapply (Hhead tail (String c (String _ (String _ EmptyString))));
                   [reflexivity | simpl in Hlen |- *; lia | exact H] ]
           end.
Qed.

Lemma splitlines_sub (s line : string) :
  In line (splitlines s) -> exists pre post, s = pre +:+ line +:+ post.
Proof. intros Hin. exact (splitlines_from_sub _ s EmptyString line (le_n _) Hin). Qed.

Lemma clean_output_clean_lines (needle out : string) :
  contains needle out = false ->
  forallb (fun line => negb (contains needle line)) (splitlines out) = true.
Proof.
  intros Hclean. apply forallb_forall. intros line Hin.
  destruct (contains needle line) eqn:Hc; [|reflexivity].
  destruct (splitlines_sub _ _ Hin) as (pre & post & ->).
  rewrite (contains_app needle pre line post Hc) in Hclean. discriminate.
Qed.

Lemma scan_errors_but_omnipbr_run (lines : list string) (t : list TEvent) :
  scan_errors_but_omnipbr lines t
  = (if forallb tolerable lines then Returned tt else Raised AssertionError, t).
Proof.
  induction lines as [|line rest IH]; [reflexivity|].
  cbn [scan_errors_but_omnipbr forallb]. unfold bind, tolerable at 1.
  destruct (contains "Error" line); simpl.
  - destruct (contains "OmniPBR.mdl" line); simpl; [exact IH | reflexivity].
  - exact IH.
Qed.

Lemma scan_errors_run (lines : list string) (t : list TEvent) :
  scan_errors lines t
  = (if forallb (fun line => negb (contains "Error" line)) lines
     then Returned tt else Raised AssertionError, t).
Proof.
  induction lines as [|line rest IH]; [reflexivity|].
  cbn [scan_errors forallb]. unfold bind.
  destruct (contains "Error" line); simpl; [reflexivity | exact IH].
Qed.

Lemma run_script_run (w : list TEvent -> Host) (script : string) (argv : list string)
    (t : list TEvent) :
  run_script w script argv t
  = (Returned (returncode (answer w t script argv), stdout (answer w t script argv)),
     after_launch w t script argv).
Proof.
  unfold run_script, run_shell_script, temit, bind, modify, ret, after_launch, answer,
    cmdline_of.
  simpl. rewrite <- !app_assoc. reflexivity.
Qed.

Lemma launched_app (a b : list TEvent) : launched (a ++ b) = launched a ++ launched b.
Proof.
  induction a as [|e a IH]; [reflexivity|].
  destruct e; simpl; rewrite IH; reflexivity.
Qed.

Lemma launched_after (w : list TEvent -> Host) (t : list TEvent)
    (script : string) (argv : list string) :
  launched (after_launch w t script argv) = launched t ++ [cmdline_of (w t) script argv].
Proof. unfold after_launch. rewrite launched_app. reflexivity. Qed.

Lemma bind_run_script {B : Type} (w : list TEvent -> Host) (script : string)
    (argv : list string) (k : Z * string -> M (list TEvent) B) (t : list TEvent) :
  bind (run_script w script argv) k t
  = k (returncode (answer w t script argv), stdout (answer w t script argv))
      (after_launch w t script argv).
Proof. unfold bind. rewrite run_script_run. reflexivity. Qed.

Lemma bind_assert {B : Type} (cond : bool) (k : unit -> M (list TEvent) B)
    (t : list TEvent) :
  bind (assert cond) k t = if cond then k tt t else (Raised AssertionError, t).
Proof. destruct cond; reflexivity. Qed.

Lemma helloworld_test_run (w : list TEvent -> Host) (default launcher file : string)
    (t : list TEvent) :
  let base := getenv (w t) g_base_url_env_key default in
  let stage_url := base +:+ "/" +:+ file in
  let r1 := answer w t launcher ["-p"; base] in
  let t1 := after_launch w t launcher ["-p"; base] in
  let r2 := answer w t1 "omnicli" ["stat"; stage_url] in
  let t2 := after_launch w t1 "omnicli" ["stat"; stage_url] in
  let r3 := answer w t2 "omni_asset_validator" [stage_url] in
  let t3 := after_launch w t2 "omni_asset_validator" [stage_url] in
  helloworld_test w default launcher file t
  = if negb (returncode r1 =? 0)%Z then (Raised AssertionError, t1)
    else if negb (returncode r2 =? 0)%Z then (Raised AssertionError, t2)
    else if negb (returncode r3 =? 0)%Z then (Raised AssertionError, t3)
    else (if forallb tolerable (splitlines (stdout r3))
          then Returned tt else Raised AssertionError, t3).
Proof.
  intros base stage_url r1 t1 r2 t2 r3 t3.
  unfold helloworld_test. unfold bind at 1. unfold base_url_now at 1.
  fold base. rewrite bind_run_script, bind_assert. fold r1 t1. simpl fst.
  destruct (returncode r1 =? 0)%Z; [|reflexivity]. simpl negb. cbv iota.
  rewrite bind_run_script, bind_assert. fold stage_url. fold r2 t2. simpl fst.
  destruct (returncode r2 =? 0)%Z; [|reflexivity]. simpl negb. cbv iota.
  rewrite bind_run_script, bind_assert. fold r3 t3. simpl fst.
  destruct (returncode r3 =? 0)%Z; [|reflexivity]. simpl negb. cbv iota.
  apply scan_errors_but_omnipbr_run.
Qed.

(** X16: [test_helloworld_py] and [test_helloworld_cpp] stop at the first
    script that fails: when the sample launcher answers a return code
    other than 0, the test fails its assertion having launched that one
    script only; neither [omnicli stat] nor the validator is run. *)
Theorem helloworld_tests_stop_at_first_failure (w : list TEvent -> Host)
    (default : string) (t : list TEvent) :
  let base := getenv (w t) g_base_url_env_key default in
  (returncode (answer w t "run_py_hello_world" ["-p"; base]) <> 0%Z ->
   fst (test_helloworld_py w default t) = Raised AssertionError
   /\ launched (snd (test_helloworld_py w default t))
      = launched t ++ [cmdline_of (w t) "run_py_hello_world" ["-p"; base]])
  /\ (returncode (answer w t "run_hello_world" ["-p"; base]) <> 0%Z ->
      fst (test_helloworld_cpp w default t) = Raised AssertionError
      /\ launched (snd (test_helloworld_cpp w default t))
         = launched t ++ [cmdline_of (w t) "run_hello_world" ["-p"; base]]).
Proof.
  intros base. split; intros Hrc; apply Z.eqb_neq in Hrc.
  - unfold test_helloworld_py.
    pose proof (helloworld_test_run w default "run_py_hello_world" "helloworld_py.usd" t)
      as Hrun. cbv zeta in Hrun. fold base in Hrun. rewrite Hrc in Hrun.
    rewrite Hrun. simpl. split; [reflexivity | apply launched_after].
  - unfold test_helloworld_cpp.
    pose proof (helloworld_test_run w default "run_hello_world" "helloworld.usd" t)
      as Hrun. cbv zeta in Hrun. fold base in Hrun. rewrite Hrc in Hrun.
    rewrite Hrun. simpl. split; [reflexivity | apply launched_after].
Qed.

Lemma helloworld_tests_stop_at_first_failure_witness :
  fst (test_helloworld_py (steady (host_answering (mkCompleted 1 "boom")))
         g_default_base_url [])
  = Raised AssertionError
  /\ launched (snd (test_helloworld_py (steady (host_answering (mkCompleted 1 "boom")))
                      g_default_base_url []))
     = [["/repo/run_py_hello_world.sh"; "-p"; g_default_base_url]].
Proof.
  pose proof (helloworld_tests_stop_at_first_failure
                (steady (host_answering (mkCompleted 1 "boom"))) g_default_base_url [])
    as H.
  cbv zeta in H. destruct H as [Hpy _].
  destruct Hpy as [Hfail Hlaunched]; [discriminate|].
  split; [exact Hfail|]. rewrite Hlaunched. reflexivity.
Defined.

(** X17: [test_helloworld_cpp] and [test_helloworld_py] (one body) pass
    exactly when the launcher, [omnicli stat] and the validator all
    answer return code 0 and every line of the validator's output that
    contains "Error" also contains "OmniPBR.mdl"; in particular they
    pass when the three return codes are 0 and the output contains no
    "Error" at all. *)
Theorem helloworld_tests_verdict (w : list TEvent -> Host)
    (default launcher file : string) (t : list TEvent) :
  let base := getenv (w t) g_base_url_env_key default in
  let stage_url := base +:+ "/" +:+ file in
  let r1 := answer w t launcher ["-p"; base] in
  let t1 := after_launch w t launcher ["-p"; base] in
  let r2 := answer w t1 "omnicli" ["stat"; stage_url] in
  let t2 := after_launch w t1 "omnicli" ["stat"; stage_url] in
  let r3 := answer w t2 "omni_asset_validator" [stage_url] in
  (fst (helloworld_test w default launcher file t) = Returned tt <->
   returncode r1 = 0%Z /\ returncode r2 = 0%Z /\ returncode r3 = 0%Z
   /\ forall line, In line (splitlines (stdout r3)) ->
        contains "Error" line = true -> contains "OmniPBR.mdl" line = true)
  /\ (returncode r1 = 0%Z -> returncode r2 = 0%Z -> returncode r3 = 0%Z ->
      contains "Error" (stdout r3) = false ->
      fst (helloworld_test w default launcher file t) = Returned tt).
Proof.
  intros base stage_url r1 t1 r2 t2 r3.
  pose proof (helloworld_test_run w default launcher file t) as Hrun.
  cbv zeta in Hrun. fold base stage_url in Hrun. fold r1 t1 in Hrun.
  fold r2 t2 in Hrun. fold r3 in Hrun.
  assert (Hiff :
    fst (helloworld_test w default launcher file t) = Returned tt <->
    returncode r1 = 0%Z /\ returncode r2 = 0%Z /\ returncode r3 = 0%Z
    /\ forall line, In line (splitlines (stdout r3)) ->
         contains "Error" line = true -> contains "OmniPBR.mdl" line = true).
  { rewrite Hrun.
    destruct (Z.eqb_spec (returncode r1) 0) as [E1|E1]; simpl;
      [|split; [discriminate | tauto]].
    destruct (Z.eqb_spec (returncode r2) 0) as [E2|E2]; simpl;
      [|split; [discriminate | tauto]].
    destruct (Z.eqb_spec (returncode r3) 0) as [E3|E3]; simpl;
      [|split; [discriminate | tauto]].
    destruct (forallb tolerable (splitlines (stdout r3))) eqn:Hall; simpl.
    - split; [intros _|reflexivity]. split_and!; auto.
      intros line Hin Herr.
      pose proof (proj1 (forallb_forall _ _) Hall line Hin) as Htol.
      unfold tolerable in Htol. rewrite Herr in Htol. exact Htol.
    - split; [discriminate|]. intros (_ & _ & _ & Hlines). exfalso.
      assert (Hall' : forallb tolerable (splitlines (stdout r3)) = true).
      { apply forallb_forall. intros line Hin. unfold tolerable.
        destruct (contains "Error" line) eqn:Herr; [|reflexivity].
        simpl. now apply Hlines. }
      congruence. }
  split; [exact Hiff|].
  intros E1 E2 E3 Hclean. apply Hiff. split_and!; auto.
  intros line Hin Herr.
  pose proof (proj1 (forallb_forall _ _) (clean_output_clean_lines "Error" _ Hclean)
                line Hin) as Hno.
  simpl in Hno. rewrite Herr in Hno. discriminate.
Qed.

Lemma helloworld_tests_verdict_witness :
  fst (test_helloworld_py (steady (host_answering (mkCompleted 0 pbr_report)))
         g_default_base_url []) = Returned tt
  /\ fst (test_helloworld_cpp (steady (host_answering (mkCompleted 0 "Done")))
            g_default_base_url []) = Returned tt.
Proof.
  split.
  - pose proof (helloworld_tests_verdict
                  (steady (host_answering (mkCompleted 0 pbr_report)))
                  g_default_base_url "run_py_hello_world" "helloworld_py.usd" []) as H.
    cbv zeta in H. destruct H as [Hiff _]. apply Hiff.
    split; [reflexivity|]. split; [reflexivity|]. split; [reflexivity|].
    intros line Hin Herr. vm_compute in Hin.
    destruct Hin as [<-|[<-|[<-|[]]]]; vm_compute in Herr |- *; congruence.
  - pose proof (helloworld_tests_verdict
                  (steady (host_answering (mkCompleted 0 "Done")))
                  g_default_base_url "run_hello_world" "helloworld.usd" []) as H.
    cbv zeta in H. destruct H as [_ Hclean]. apply Hclean; reflexivity.
Defined.

Lemma test_simple_sensor_run (w : list TEvent -> Host) (default : string)
    (t : list TEvent) :
  let base := getenv (w t) g_base_url_env_key default in
  let stage_url := base +:+ "/" +:+ "SimpleSensorExample.live" in
  let r1 := answer w t "run_omniSimpleSensor" [base; "8"; "10"] in
  let t1 := after_launch w t "run_omniSimpleSensor" [base; "8"; "10"] in
  let r2 := answer w t1 "omnicli" ["stat"; stage_url] in
  let t2 := after_launch w t1 "omnicli" ["stat"; stage_url] in
  let r3 := answer w t2 "omni_asset_validator" [stage_url] in
  let t3 := after_launch w t2 "omni_asset_validator" [stage_url] in
  test_simple_sensor w default t
  = if negb (returncode r1 =? 0)%Z then (Raised AssertionError, t1)
    else if negb (returncode r2 =? 0)%Z then (Raised AssertionError, t2)
    else if negb (returncode r3 =? 0)%Z then (Raised AssertionError, t3)
    else (if forallb (fun line => negb (contains "Error" line)) (splitlines (stdout r3))
          then Returned tt else Raised AssertionError, t3).
Proof.
  intros base stage_url r1 t1 r2 t2 r3 t3.
  unfold test_simple_sensor. unfold bind at 1. unfold base_url_now at 1.
  fold base. rewrite bind_run_script, bind_assert. fold r1 t1. simpl fst.
  destruct (returncode r1 =? 0)%Z; [|reflexivity]. simpl negb. cbv iota.
  rewrite bind_run_script, bind_assert. fold stage_url. fold r2 t2. simpl fst.
  destruct (returncode r2 =? 0)%Z; [|reflexivity]. simpl negb. cbv iota.
  rewrite bind_run_script, bind_assert. fold r3 t3. simpl fst.
  destruct (returncode r3 =? 0)%Z; [|reflexivity]. simpl negb. cbv iota.
  apply scan_errors_run.
Qed.

(** X18: [test_simple_sensor] is stricter than the hello-world tests: it
    fails whenever a line of the validator's output contains "Error",
    also a line that names OmniPBR.mdl; with three return codes 0 and no
    "Error" in the output it passes. *)
Theorem simple_sensor_tolerates_no_error (w : list TEvent -> Host) (default : string)
    (t : list TEvent) :
  let base := getenv (w t) g_base_url_env_key default in
  let stage_url := base +:+ "/" +:+ "SimpleSensorExample.live" in
  let r1 := answer w t "run_omniSimpleSensor" [base; "8"; "10"] in
  let t1 := after_launch w t "run_omniSimpleSensor" [base; "8"; "10"] in
  let r2 := answer w t1 "omnicli" ["stat"; stage_url] in
  let t2 := after_launch w t1 "omnicli" ["stat"; stage_url] in
  let r3 := answer w t2 "omni_asset_validator" [stage_url] in
  (forall line, In line (splitlines (stdout r3)) -> contains "Error" line = true ->
     fst (test_simple_sensor w default t) = Raised AssertionError)
  /\ (returncode r1 = 0%Z -> returncode r2 = 0%Z -> returncode r3 = 0%Z ->
      contains "Error" (stdout r3) = false ->
      fst (test_simple_sensor w default t) = Returned tt).
Proof.
  intros base stage_url r1 t1 r2 t2 r3.
  pose proof (test_simple_sensor_run w default t) as Hrun.
  cbv zeta in Hrun. fold base stage_url in Hrun. fold r1 t1 in Hrun.
  fold r2 t2 in Hrun. fold r3 in Hrun. rewrite Hrun. split.
  - intros line Hin Herr.
    destruct (returncode r1 =? 0)%Z; [|reflexivity].
    destruct (returncode r2 =? 0)%Z; [|reflexivity].
    destruct (returncode r3 =? 0)%Z; [|reflexivity]. simpl.
    destruct (forallb _ (splitlines (stdout r3))) eqn:Hall; [|reflexivity].
    pose proof (proj1 (forallb_forall _ _) Hall line Hin) as Hno.
    simpl in Hno. rewrite Herr in Hno. discriminate.
  - intros -> -> -> Hclean. simpl.
    now rewrite (clean_output_clean_lines "Error" _ Hclean).
Qed.

Lemma simple_sensor_tolerates_no_error_witness :
  fst (test_simple_sensor (steady (host_answering (mkCompleted 0 pbr_report)))
         g_default_base_url []) = Raised AssertionError
  /\ fst (test_simple_sensor (steady (host_answering (mkCompleted 0 "Done")))
            g_default_base_url []) = Returned tt.
Proof.
  split.
  - pose proof (simple_sensor_tolerates_no_error
                  (steady (host_answering (mkCompleted 0 pbr_report)))
                  g_default_base_url []) as H.
    cbv zeta in H. destruct H as [Hline _].
    apply (Hline "Error: cannot resolve OmniPBR.mdl").
    + vm_compute. right. left. reflexivity.
    + reflexivity.
  - pose proof (simple_sensor_tolerates_no_error
                  (steady (host_answering (mkCompleted 0 "Done")))
                  g_default_base_url []) as H.
    cbv zeta in H. destruct H as [_ Hclean]. apply Hclean; reflexivity.
Defined.

Lemma extents_test_run (w : list TEvent -> Host) (default : string) (t : list TEvent) :
  let base := getenv (w t) g_base_url_env_key default in
  let stage_url := base +:+ "/" +:+ "helloworld_py.usd" in
  let r_stat := answer w t "omnicli" ["stat"; stage_url] in
  let t1 := after_launch w t "omnicli" ["stat"; stage_url] in
  let r_create := answer w t1 "run_py_hello_world" ["-p"; base] in
  let t2 := if (returncode r_stat =? 0)%Z then t1
            else after_launch w t1 "run_py_hello_world" ["-p"; base] in
  let r_fail := answer w t2 "run_py_hello_world" ["-e"; stage_url; "-f"] in
  let t3 := after_launch w t2 "run_py_hello_world" ["-e"; stage_url; "-f"] in
  let r_val := answer w t3 "omni_asset_validator" [stage_url] in
  let t4 := after_launch w t3 "omni_asset_validator" [stage_url] in
  test_helloworld_py_extents_failure w default t
  = if negb (returncode r_stat =? 0)%Z && negb (returncode r_create =? 0)%Z
    then (Raised AssertionError, t2)
    else if negb (returncode r_fail =? 0)%Z then (Raised AssertionError, t3)
    else (if contains "ExtentsChecker" (stdout r_val)
          then Returned tt else Raised AssertionError, t4).
Proof.
  intros base stage_url r_stat t1 r_create t2 r_fail t3 r_val t4.
  unfold test_helloworld_py_extents_failure. unfold bind at 1. unfold base_url_now at 1.
  fold base. rewrite bind_run_script. fold stage_url. fold r_stat t1. simpl fst.
  subst t4 r_val t3 r_fail t2.
  destruct (returncode r_stat =? 0)%Z; simpl negb; cbv iota.
  - unfold bind at 1. unfold ret at 1.
    rewrite bind_run_script, bind_assert. simpl fst.
    destruct (returncode (answer w t1 "run_py_hello_world" ["-e"; stage_url; "-f"]) =? 0)%Z;
      [|reflexivity].
    rewrite bind_run_script. simpl snd. unfold assert.
    destruct (contains "ExtentsChecker" _); reflexivity.
  - unfold bind at 1. rewrite bind_run_script. fold r_create. simpl fst.
    unfold assert at 1.
    destruct (returncode r_create =? 0)%Z; [|reflexivity]. unfold ret at 1. simpl.
    rewrite bind_run_script, bind_assert. simpl fst.
    match goal with |- context [(returncode ?r =? 0)%Z] =>
      destruct (returncode r =? 0)%Z; [|reflexivity] end.
    rewrite bind_run_script. simpl snd. unfold assert.
    destruct (contains "ExtentsChecker" _); reflexivity.
Qed.

(** X19: [test_helloworld_py_extents_failure] creates the sample only when
    [omnicli stat] fails, and judges the validator by its output alone:
    it passes exactly when the stage was there or its creation answered
    0, the run with [-e <stage> -f] answered 0, and the validator's
    output contains "ExtentsChecker"; the validator's return code plays
    no part. *)
Theorem extents_test_verdict (w : list TEvent -> Host) (default : string)
    (t : list TEvent) :
  let base := getenv (w t) g_base_url_env_key default in
  let stage_url := base +:+ "/" +:+ "helloworld_py.usd" in
  let r_stat := answer w t "omnicli" ["stat"; stage_url] in
  let t1 := after_launch w t "omnicli" ["stat"; stage_url] in
  let r_create := answer w t1 "run_py_hello_world" ["-p"; base] in
  let t2 := if (returncode r_stat =? 0)%Z then t1
            else after_launch w t1 "run_py_hello_world" ["-p"; base] in
  let r_fail := answer w t2 "run_py_hello_world" ["-e"; stage_url; "-f"] in
  let t3 := after_launch w t2 "run_py_hello_world" ["-e"; stage_url; "-f"] in
  let r_val := answer w t3 "omni_asset_validator" [stage_url] in
  (fst (test_helloworld_py_extents_failure w default t) = Returned tt <->
   (returncode r_stat = 0%Z \/ returncode r_create = 0%Z)
   /\ returncode r_fail = 0%Z
   /\ contains "ExtentsChecker" (stdout r_val) = true)
  /\ (returncode r_stat = 0%Z ->
      t2 = t1
      /\ exists rest,
           launched (snd (test_helloworld_py_extents_failure w default t))
           = launched t1
             ++ cmdline_of (w t1) "run_py_hello_world" ["-e"; stage_url; "-f"] :: rest).
Proof.
  intros base stage_url r_stat t1 r_create t2 r_fail t3 r_val.
  pose proof (extents_test_run w default t) as Hrun. cbv zeta in Hrun.
  fold base stage_url in Hrun. fold r_stat t1 in Hrun. fold r_create in Hrun.
  fold t2 in Hrun. fold r_fail t3 in Hrun. fold r_val in Hrun. rewrite Hrun.
  split.
  - destruct (Z.eqb_spec (returncode r_stat) 0) as [Es|Es];
      destruct (Z.eqb_spec (returncode r_create) 0) as [Ec|Ec];
      destruct (Z.eqb_spec (returncode r_fail) 0) as [Ef|Ef]; simpl;
      try (split; [discriminate | tauto]);
      destruct (contains "ExtentsChecker" (stdout r_val)); simpl;
      try tauto;
      split; try discriminate; intros (_ & _ & H); discriminate.
  - intros Es. subst t3 r_fail t2. rewrite (proj2 (Z.eqb_eq _ _) Es).
    split; [reflexivity|]. cbn [negb andb].
    destruct (returncode (answer w t1 "run_py_hello_world" ["-e"; stage_url; "-f"]) =? 0)%Z;
      cbn [negb snd].
    + eexists. rewrite !launched_after, <- app_assoc. reflexivity.
    + eexists. rewrite launched_after. reflexivity.
Qed.

Lemma extents_test_verdict_witness :
  fst (test_helloworld_py_extents_failure
         (steady (host_answering (mkCompleted 0 "Failure: ExtentsChecker")))
         g_default_base_url []) = Returned tt
  /\ launched (snd (test_helloworld_py_extents_failure
                      (steady (host_answering (mkCompleted 0 "Failure: ExtentsChecker")))
                      g_default_base_url []))
     = [["/repo/omnicli.sh"; "stat"; g_default_base_url +:+ "/helloworld_py.usd"];
        ["/repo/run_py_hello_world.sh"; "-e";
         g_default_base_url +:+ "/helloworld_py.usd"; "-f"];
        ["/repo/omni_asset_validator.sh"; g_default_base_url +:+ "/helloworld_py.usd"]].
Proof.
  pose proof (extents_test_verdict
                (steady (host_answering (mkCompleted 0 "Failure: ExtentsChecker")))
                g_default_base_url []) as H.
  cbv zeta in H. destruct H as [Hiff Hskip]. split.
  - apply Hiff. split; [left; reflexivity|]. split; reflexivity.
  - destruct (Hskip eq_refl) as [_ [rest Hl]]. vm_compute. reflexivity.
Defined.

(** X20: [test_omnicli_copy_and_move] expects the machine to change under
    it: the listing of the copy must answer 0 before the move and
    something else after it. Against a machine whose answers depend on
    the command line alone the test always fails its assertion; against
    one where the listing fails once the move was launched it passes. *)
Theorem copy_and_move_needs_a_changing_machine :
  (forall (h : Host) (default : string) (t : list TEvent),
     fst (test_omnicli_copy_and_move (steady h) default t) = Raised AssertionError)
  /\ fst (test_omnicli_copy_and_move moving_world g_default_base_url []) = Returned tt.
Proof.
  split; [|vm_compute; reflexivity].
  intros h default t.
  unfold test_omnicli_copy_and_move. unfold bind at 1. unfold base_url_now at 1.
  repeat first [rewrite bind_run_script | rewrite bind_assert].
  cbn [fst snd]. unfold answer, steady, assert.
  repeat (case_match; simpl); try reflexivity; congruence.
Qed.

Lemma base_url_from_env (w : list TEvent -> Host) (p p' : string) (t : list TEvent) :
  is_Some (environ (w t) !! g_base_url_env_key) ->
  base_url_now w p t = base_url_now w p' t.
Proof.
  intros [v Hv]. unfold base_url_now, getenv. now rewrite Hv.
Qed.

Lemma bind_congr_at {S A B : Type} (c c' : M S A) (k k' : A -> M S B) (s : S) :
  c s = c' s ->
  (forall a s', k a s' = k' a s') ->
  bind c k s = bind c' k' s.
Proof.
  intros Hc Hk. unfold bind. rewrite Hc.
  destruct (c' s) as [[a|arg|e] s']; auto.
Qed.

(** X21: The environment wins over the command line: when [OMNI_BASE_URL]
    is set, the five tests run by the main block do not depend on the
    path given with [-p]. *)
Theorem main_ignores_path_when_env_set (w : list TEvent -> Host) (p p' : string)
    (t : list TEvent) :
  (forall t', is_Some (environ (w t') !! g_base_url_env_key)) ->
  main w p t = main w p' t.
Proof.
  intros Henv.
  assert (Hbase : forall t', base_url_now w p t' = base_url_now w p' t')
    by (intros t'; apply base_url_from_env, Henv).
  unfold main.
  apply bind_congr_at;
    [unfold test_helloworld_cpp, helloworld_test; apply bind_congr_at; auto|].
  intros _ t1. apply bind_congr_at;
    [unfold test_helloworld_py, helloworld_test; apply bind_congr_at; auto|].
  intros _ t2. apply bind_congr_at;
    [unfold test_helloworld_py_extents_failure; apply bind_congr_at; auto|].
  intros _ t3. apply bind_congr_at;
    [unfold test_simple_sensor; apply bind_congr_at; auto|].
  intros _ t4. unfold test_omnicli_copy_and_move. apply bind_congr_at; auto.
Qed.

Lemma main_ignores_path_when_env_set_witness :
  main env_moving_world "omniverse://localhost/Projects/a" []
  = main env_moving_world "omniverse://localhost/Projects/b" []
  /\ fst (main env_moving_world "omniverse://localhost/Projects/a" []) = Returned tt
  /\ fst (main (steady env_host) "omniverse://localhost/Projects/a" [])
     = Raised AssertionError
  /\ launched (snd (main env_moving_world "omniverse://localhost/Projects/a" []))
       !! 0%nat
     = Some ["/repo/run_hello_world.sh"; "-p"; "omniverse://nucleus/Projects/ci"].
Proof.
  split; [|split; [|split]].
  - apply main_ignores_path_when_env_set. intros t'. eexists. reflexivity.
  - vm_compute. reflexivity.
  - vm_compute. reflexivity.
  - vm_compute. reflexivity.
Defined.

End TestSuiteFacts.
